(** * Access control, pagination and validation of the portfolio REST API

    A shallow embedding of the Express/Mongoose back end:

    - [backend/middleware/auth.js]  : [protect], [adminOnly], [optionalAuth];
    - [backend/routes/education.js] : list, get-by-id, visibility toggle,
                                      admin list;
    - [backend/routes/projects.js]  : list, featured list, get-by-id,
                                      visibility toggle, like toggle;
    - [backend/routes/contact.js]   : submission with its validators, admin list;
    - [backend/routes/user.js]      : list, get-by-id, role, status, delete.

    A handler is a function from the store and the request to a response and
    the store it leaves behind; a middleware answers or passes the request
    on.  Query parameters are strings and are coerced as JavaScript coerces
    them ([parseInt], [Number]); body fields are JSON scalars.  What the
    libraries decide (token verification, ObjectId syntax, regular
    expressions, the ordering of field values, the values a cursor accepts
    for [skip] and [limit], the e-mail syntax check) is collected in the
    class [Platform], and every property is stated for an arbitrary
    platform.

    Where the representation is narrower than the program, the statements
    that depend on it say so in a hypothesis: ids are compared as text,
    which is the comparison of ObjectIds for ids in the stored form
    ([canonical_id]) and for ids found in the store; query parameters are
    read as strings, as they arrive when each is given once and in plain
    form ([plain_query]); numbers are exact, as doubles are up to
    [max_safe_integer]; string lengths are those of ASCII text
    ([plain_body]); documents carry the paths listed in [Paths], without
    the [updatedAt] and [__v] that Mongoose maintains; and a sort has one
    result when no two documents tie ([untied]). *)

From Stdlib Require Import ZArith QArith Qround Qcanon List String Ascii Bool Lia.
From Stdlib Require Import DecimalString Permutation.
Import ListNotations.
Close Scope Q_scope.
Open Scope string_scope.
Open Scope Z_scope.

(** ** JavaScript values *)

Module JS.

(** A JavaScript number: not-a-number, an infinity, or a finite value.
    Finite values are kept as exact rationals; the handlers only form small
    integers and one quotient of them, where the exact value and the double
    agree after [Math.ceil].  The sign of zero is not tracked. *)
Inductive num : Type :=
  | NaN
  | Inf (negative : bool)
  | Fin (q : Q).

Definition of_Z (z : Z) : num := Fin (inject_Z z).
Definition of_nat (n : nat) : num := of_Z (Z.of_nat n).

Definition Qzero (q : Q) : bool := Z.eqb (Qnum q) 0.
Definition Qneg (q : Q) : bool := Z.ltb (Qnum q) 0.

(** [a - b] *)
Definition sub (a b : num) : num :=
  match a, b with
  | NaN, _ | _, NaN => NaN
  | Inf s, Inf t => if Bool.eqb s t then NaN else Inf s
  | Inf s, Fin _ => Inf s
  | Fin _, Inf t => Inf (negb t)
  | Fin x, Fin y => Fin (x - y)%Q
  end.

(** [a * b] *)
Definition mul (a b : num) : num :=
  match a, b with
  | NaN, _ | _, NaN => NaN
  | Inf s, Inf t => Inf (xorb s t)
  | Inf s, Fin y => if Qzero y then NaN else Inf (xorb s (Qneg y))
  | Fin x, Inf t => if Qzero x then NaN else Inf (xorb (Qneg x) t)
  | Fin x, Fin y => Fin (x * y)%Q
  end.

(** [a / b] *)
Definition div (a b : num) : num :=
  match a, b with
  | NaN, _ | _, NaN => NaN
  | Inf _, Inf _ => NaN
  | Inf s, Fin y => Inf (xorb s (Qneg y))
  | Fin _, Inf _ => of_Z 0
  | Fin x, Fin y =>
      if Qzero y then (if Qzero x then NaN else Inf (Qneg x))
      else Fin (x / y)%Q
  end.

(** [Math.ceil] *)
Definition ceil (a : num) : num :=
  match a with
  | Fin q => of_Z (Qceiling q)
  | other => other
  end.

(** White space as [String.prototype.trim] and the numeric-string grammar see
    it, on the ASCII range: tab, line feed, vertical tab, form feed, carriage
    return and space. *)
Definition is_space (c : ascii) : bool :=
  let n := nat_of_ascii c in
  ((9 <=? n) && (n <=? 13))%nat || (n =? 32)%nat.

Fixpoint trimStart (s : string) : string :=
  match s with
  | String c r => if is_space c then trimStart r else s
  | EmptyString => EmptyString
  end.

Fixpoint string_rev_onto (s acc : string) : string :=
  match s with
  | EmptyString => acc
  | String c r => string_rev_onto r (String c acc)
  end.

Definition string_rev (s : string) : string := string_rev_onto s EmptyString.

Definition trimEnd (s : string) : string := string_rev (trimStart (string_rev s)).

Definition trim (s : string) : string := trimEnd (trimStart s).

(** The value of a digit in the given radix, if it is one. *)
Definition digit (radix : Z) (c : ascii) : option Z :=
  let n := Z.of_nat (nat_of_ascii c) in
  let v :=
    if (48 <=? n) && (n <=? 57) then Some (n - 48)
    else if (97 <=? n) && (n <=? 122) then Some (n - 87)
    else if (65 <=? n) && (n <=? 90) then Some (n - 55)
    else None in
  match v with
  | Some d => if d <? radix then Some d else None
  | None => None
  end.

(** The longest prefix of digits: its value (continuing [acc]), how many
    digits were read, and the rest of the string. *)
Fixpoint digits (radix : Z) (s : string) (acc : Z) (count : nat)
  : Z * nat * string :=
  match s with
  | String c r =>
      match digit radix c with
      | Some d => digits radix r (acc * radix + d) (S count)
      | None => (acc, count, s)
      end
  | EmptyString => (acc, count, s)
  end.

Definition strip_sign (s : string) : bool * string :=
  match s with
  | String c r =>
      if Ascii.eqb c "-" then (true, r)
      else if Ascii.eqb c "+" then (false, r)
      else (false, s)
  | EmptyString => (false, s)
  end.

Definition strip_radix_prefix (x X : ascii) (s : string) : option string :=
  match s with
  | String a (String c r) =>
      if Ascii.eqb a "0" && (Ascii.eqb c x || Ascii.eqb c X) then Some r else None
  | _ => None
  end.

(** [parseInt(s)] without a radix argument. *)
Definition parseInt (s : string) : num :=
  let (negative, u) := strip_sign (trimStart s) in
  let (radix, body) :=
    match strip_radix_prefix "x" "X" u with
    | Some r => (16, r)
    | None => (10, u)
    end in
  match digits radix body 0 0 with
  | (_, O, _) => NaN
  | (v, _, _) => of_Z (if negative then - v else v)
  end.

(** A literal with a radix prefix; the whole rest must be digits. *)
Definition radix_literal (x X : ascii) (radix : Z) (s : string) : option Z :=
  match strip_radix_prefix x X s with
  | Some r =>
      match digits radix r 0 0 with
      | (v, S _, EmptyString) => Some v
      | _ => None
      end
  | None => None
  end.

(** [0x], [0o] and [0b] literals. *)
Definition nondecimal (s : string) : option Z :=
  match radix_literal "x" "X" 16 s with
  | Some v => Some v
  | None =>
      match radix_literal "o" "O" 8 s with
      | Some v => Some v
      | None => radix_literal "b" "B" 2 s
      end
  end.

(** The exponent part [e], [e+], [e-] followed by at least one digit; when
    the string does not start with one, the exponent is 0 and nothing is
    consumed. *)
Definition exponent (s : string) : Z * string :=
  match s with
  | String c r =>
      if Ascii.eqb c "e" || Ascii.eqb c "E" then
        let (negative, d) := strip_sign r in
        match digits 10 d 0 0 with
        | (_, O, _) => (0, s)
        | (v, _, rest) => (if negative then - v else v, rest)
        end
      else (0, s)
  | EmptyString => (0, s)
  end.

(** An unsigned decimal literal: digits, an optional fraction, an optional
    exponent, with at least one digit before the exponent.  The value is
    kept in lowest terms. *)
Definition unsigned_decimal (s : string) : option Q :=
  let '(ip, ni, r1) := digits 10 s 0 0 in
  let '(fp, nf, r2) :=
    match r1 with
    | String "." r => digits 10 r 0 0
    | _ => (0, O, r1)
    end in
  match (ni + nf)%nat with
  | O => None
  | _ =>
      let (e, r3) := exponent r2 in
      match r3 with
      | EmptyString =>
          Some (Qred ((inject_Z ip + inject_Z fp / inject_Z (10 ^ Z.of_nat nf))
                      * Qpower (inject_Z 10) e)%Q)
      | _ => None
      end
  end.

(** [Number(s)], the coercion the arithmetic operators apply to a string. *)
Definition toNumber (s : string) : num :=
  let t := trim s in
  match t with
  | EmptyString => of_Z 0
  | _ =>
      match nondecimal t with
      | Some v => of_Z v
      | None =>
          let (negative, u) := strip_sign t in
          if String.eqb u "Infinity" then Inf negative
          else match unsigned_decimal u with
               | Some q => Fin (if negative then (- q)%Q else q)
               | None => NaN
               end
      end
  end.

(** A request value as the body parsers deliver it.  Arrays and nested
    objects are not modelled. *)
Inductive value : Type :=
  | VNull
  | VBool (b : bool)
  | VNum (z : Z)
  | VStr (s : string).

Definition string_of_Z (z : Z) : string := NilEmpty.string_of_int (Z.to_int z).

(** [String(v)] *)
Definition toString (v : value) : string :=
  match v with
  | VNull => "null"
  | VBool true => "true"
  | VBool false => "false"
  | VNum z => string_of_Z z
  | VStr s => s
  end.

(** Truthiness, as [if (v)] and [!v] read it; [None] is [undefined]. *)
Definition truthy (v : option value) : bool :=
  match v with
  | None | Some VNull => false
  | Some (VBool b) => b
  | Some (VNum z) => negb (Z.eqb z 0)
  | Some (VStr s) => negb (String.eqb s "")
  end.

Definition truthy_string (s : option string) : bool :=
  match s with
  | Some s => negb (String.eqb s "")
  | None => false
  end.

(** [s.split(sep)] for a one-character separator. *)
Fixpoint split (sep : ascii) (s : string) : list string :=
  match s with
  | EmptyString => [EmptyString]
  | String c r =>
      if Ascii.eqb c sep then EmptyString :: split sep r
      else match split sep r with
           | piece :: pieces => String c piece :: pieces
           | [] => [String c EmptyString]
           end
  end.

End JS.

(** ** Documents

    The fields the routes read, write, filter or sort on.  An ObjectId is
    kept as the hexadecimal string the API renders it as; a date is a
    number of milliseconds. *)

Definition ObjectId : Type := string.

Module User.
Record t : Type := mk {
  _id : ObjectId;
  name : string;
  email : string;
  password : option string;   (* the credential hash; [None] once projected out *)
  role : string;              (* 'user' or 'admin' *)
  isActive : bool;
  createdAt : Z
}.
End User.

Module Education.
Record t : Type := mk {
  _id : ObjectId;
  institution : string;
  degree : string;
  fieldOfStudy : string;
  startDate : Z;
  type : string;
  isVisible : bool;
  sortOrder : Z;
  createdBy : ObjectId;
  createdAt : Z
}.
End Education.

Module Like.
Record t : Type := mk { userId : ObjectId; timestamp : Z }.
End Like.

Module Project.
Record t : Type := mk {
  _id : ObjectId;
  title : string;
  description : string;
  category : string;
  status : string;
  technologies : list string;
  tags : list string;
  isVisible : bool;
  isFeatured : bool;
  sortOrder : Z;
  views : Z;
  likes : list Like.t;
  createdBy : ObjectId;
  createdAt : Z
}.
End Project.

Module Contact.
Record t : Type := mk {
  _id : ObjectId;
  name : string;
  email : string;
  subject : string;
  message : string;
  phone : option string;
  status : string;
  priority : string;
  ipAddress : option string;
  createdAt : Z
}.
End Contact.

(** The [contact] object of the answer to a submitted message. *)
Module Receipt.
Record t : Type := mk {
  id : ObjectId;
  name : string;
  email : string;
  subject : string;
  message : string;
  createdAt : Z
}.
End Receipt.

(** The store: one collection per model, in insertion order. *)
Record Store : Type := mkStore {
  users : list User.t;
  education : list Education.t;
  projects : list Project.t;
  contacts : list Contact.t
}.

(** ** The document store's query interface *)

Module Mongo.

(** What a path of a document holds. *)
Inductive field : Type :=
  | Missing
  | Scalar (v : JS.value)
  | Array (l : list JS.value).

(** A filter object: the equality conditions in the order the keys were
    set, and the [$or] of case-insensitive [$regex] conditions when a search
    term was given (the paths searched and the pattern). *)
Record filter : Type := mkFilter {
  conds : list (string * JS.value);
  search : option (list string * string)
}.

Definition empty : filter := mkFilter [] None.

(** [query[key] = v] *)
Fixpoint assign (key : string) (v : JS.value) (l : list (string * JS.value))
  : list (string * JS.value) :=
  match l with
  | [] => [(key, v)]
  | (k, w) :: r => if String.eqb k key then (k, v) :: r else (k, w) :: assign key v r
  end.

Definition set (key : string) (v : JS.value) (f : filter) : filter :=
  mkFilter (assign key v (conds f)) (search f).

Definition set_search (paths : list string) (pattern : string) (f : filter) : filter :=
  mkFilter (conds f) (Some (paths, pattern)).

(** A sort object: paths with direction [1] or [-1], in key order. *)
Definition sort_spec : Type := list (string * Z).

(** The outcome of a call that may throw. *)
Inductive outcome (A : Type) : Type :=
  | Threw
  | Got (a : A).
Arguments Threw {A}.
Arguments Got {A} a.

Definition value_eqb (a b : JS.value) : bool :=
  match a, b with
  | JS.VNull, JS.VNull => true
  | JS.VBool x, JS.VBool y => Bool.eqb x y
  | JS.VNum x, JS.VNum y => Z.eqb x y
  | JS.VStr x, JS.VStr y => String.eqb x y
  | _, _ => false
  end.

(** [{ path: v }]: the path holds [v], or is an array with [v] in it. *)
Definition holds (fv : field) (v : JS.value) : bool :=
  match fv with
  | Missing => false
  | Scalar w => value_eqb w v
  | Array l => existsb (fun w => value_eqb w v) l
  end.

(** [{ path: { $regex } }]: a string the pattern matches, or an array with
    such a string in it. *)
Definition holds_regex (test : string -> bool) (fv : field) : bool :=
  let on_value v := match v with JS.VStr s => test s | _ => false end in
  match fv with
  | Missing => false
  | Scalar w => on_value w
  | Array l => existsb on_value l
  end.

End Mongo.

(** ** What the libraries decide *)

(** [jsonwebtoken]'s verdict on a token: the payload's [id] when the
    signature and the expiry check out, or one of the two errors it throws. *)
Inductive verdict : Type :=
  | Decoded (id : option string)
  | TokenExpired
  | TokenMalformed.

Class Platform : Type := {
  (** [verifyToken] of [utils/jwt.js], with the configured secret *)
  verifyToken : string -> verdict;
  (** whether a string casts to an ObjectId *)
  isObjectId : string -> bool;
  (** a [$regex] pattern with option [i], or [None] when the store rejects it *)
  regexp : string -> option (string -> bool);
  (** the store's ordering of field values *)
  compareValues : Mongo.field -> Mongo.field -> comparison;
  (** how many documents a cursor skips for a [skip] value, or [None] when
      the store rejects the value *)
  cursorSkip : JS.num -> option nat;
  (** the cap a [limit] value puts on a cursor ([Some None]: no cap), or
      [None] when the store rejects the value *)
  cursorLimit : JS.num -> option (option nat);
  (** [validator.js]: [isEmail] and [normalizeEmail] *)
  isEmail : string -> bool;
  normalizeEmail : string -> string;
  (** the [_id] the store gives a document created at the given time *)
  generateId : Z -> ObjectId
}.

Module Query.
Import Mongo.

Section Collection.
Context `{Platform}.
Context {A : Type}.
Variable get : string -> A -> field.
Variable id_of : A -> ObjectId.

Definition castable (v : JS.value) : bool :=
  match v with
  | JS.VStr s => isObjectId s
  | _ => false
  end.

Definition conds_hold (f : filter) (x : A) : bool :=
  forallb (fun kv => holds (get (fst kv) x) (snd kv)) (conds f).

(** The documents a filter selects; the call throws when an [_id] does not
    cast or the pattern is rejected. *)
Definition compile (f : filter) : outcome (A -> bool) :=
  if existsb (fun kv => String.eqb (fst kv) "_id" && negb (castable (snd kv)))
             (conds f)
  then Threw
  else match search f with
       | None => Got (conds_hold f)
       | Some (paths, pattern) =>
           match regexp pattern with
           | None => Threw
           | Some test =>
               Got (fun x => conds_hold f x
                             && existsb (fun p => holds_regex test (get p x)) paths)
           end
       end.

Fixpoint compareBy (spec : sort_spec) (x y : A) : comparison :=
  match spec with
  | [] => Eq
  | (path, direction) :: rest =>
      match compareValues (get path x) (get path y) with
      | Eq => compareBy rest x y
      | c => if direction <? 0 then CompOpp c else c
      end
  end.

Fixpoint insert (spec : sort_spec) (x : A) (l : list A) : list A :=
  match l with
  | [] => [x]
  | y :: r =>
      match compareBy spec x y with
      | Gt => y :: insert spec x r
      | _ => x :: l
      end
  end.

(** [.sort(spec)]: stable, documents in insertion order when they tie.
    The store promises no order among ties: a statement about the order
    itself, and not only about its being sorted, takes documents that do
    not tie. *)
Definition sortDocs (spec : sort_spec) (l : list A) : list A :=
  fold_right (insert spec) [] l.

(** [.skip(n)] and [.limit(n)]; [None] when the call is not made. *)
Definition window (skip limit : option JS.num) (l : list A) : outcome (list A) :=
  let skipped :=
    match skip with
    | None => Got l
    | Some n => match cursorSkip n with
                | Some k => Got (skipn k l)
                | None => Threw
                end
    end in
  match skipped with
  | Threw => Threw
  | Got l1 =>
      match limit with
      | None => Got l1
      | Some n => match cursorLimit n with
                  | Some (Some k) => Got (firstn k l1)
                  | Some None => Got l1
                  | None => Threw
                  end
      end
  end.

Definition find (docs : list A) (f : filter) (spec : sort_spec)
           (skip limit : option JS.num) : outcome (list A) :=
  match compile f with
  | Threw => Threw
  | Got p => window skip limit (sortDocs spec (List.filter p docs))
  end.

Definition countDocuments (docs : list A) (f : filter) : outcome nat :=
  match compile f with
  | Threw => Threw
  | Got p => Got (List.length (List.filter p docs))
  end.

Definition findOne (docs : list A) (f : filter) : outcome (option A) :=
  match compile f with
  | Threw => Threw
  | Got p => Got (List.find p docs)
  end.

(** [findById(id)]; an [undefined] id is looked up as [null] and finds
    nothing.  The id is matched as text against the stored text: for an id
    in the stored form this is the match of the ObjectId it is cast to. *)
Definition findById (docs : list A) (id : option string) : outcome (option A) :=
  match id with
  | None => Got None
  | Some s => findOne docs (set "_id" (JS.VStr s) empty)
  end.

(** [doc.save()] on a loaded document: the stored document with that
    [_id] is replaced. *)
Fixpoint save (d : A) (docs : list A) : list A :=
  match docs with
  | [] => []
  | x :: r => if String.eqb (id_of x) (id_of d) then d :: r else x :: save d r
  end.

Fixpoint remove (id : ObjectId) (docs : list A) : list A :=
  match docs with
  | [] => []
  | x :: r => if String.eqb (id_of x) id then r else x :: remove id r
  end.

(** [findByIdAndUpdate(id, update, { new: true })]: the updated document,
    if there is one, and the collection after the call. *)
Definition findByIdAndUpdate (docs : list A) (id : string) (update : A -> A)
  : outcome (option A * list A) :=
  match findById docs (Some id) with
  | Threw => Threw
  | Got None => Got (None, docs)
  | Got (Some d) => Got (Some (update d), save (update d) docs)
  end.

Definition findByIdAndDelete (docs : list A) (id : string)
  : outcome (option A * list A) :=
  match findById docs (Some id) with
  | Threw => Threw
  | Got None => Got (None, docs)
  | Got (Some d) => Got (Some d, remove (id_of d) docs)
  end.

End Collection.
End Query.

(** ** Paths of the documents *)

Module Paths.
Import Mongo.

Definition str (s : string) : field := Scalar (JS.VStr s).
Definition num (z : Z) : field := Scalar (JS.VNum z).
Definition flag (b : bool) : field := Scalar (JS.VBool b).
Definition strs (l : list string) : field := Array (map JS.VStr l).
Definition opt_str (s : option string) : field :=
  match s with Some x => str x | None => Scalar JS.VNull end.

Definition user (path : string) (u : User.t) : field :=
  match path with
  | "_id" => str (User._id u)
  | "name" => str (User.name u)
  | "email" => str (User.email u)
  | "password" => match User.password u with Some h => str h | None => Missing end
  | "role" => str (User.role u)
  | "isActive" => flag (User.isActive u)
  | "createdAt" => num (User.createdAt u)
  | _ => Missing
  end.

Definition education (path : string) (e : Education.t) : field :=
  match path with
  | "_id" => str (Education._id e)
  | "institution" => str (Education.institution e)
  | "degree" => str (Education.degree e)
  | "fieldOfStudy" => str (Education.fieldOfStudy e)
  | "startDate" => num (Education.startDate e)
  | "type" => str (Education.type e)
  | "isVisible" => flag (Education.isVisible e)
  | "sortOrder" => num (Education.sortOrder e)
  | "createdBy" => str (Education.createdBy e)
  | "createdAt" => num (Education.createdAt e)
  | _ => Missing
  end.

Definition project (path : string) (p : Project.t) : field :=
  match path with
  | "_id" => str (Project._id p)
  | "title" => str (Project.title p)
  | "description" => str (Project.description p)
  | "category" => str (Project.category p)
  | "status" => str (Project.status p)
  | "technologies" => strs (Project.technologies p)
  | "tags" => strs (Project.tags p)
  | "isVisible" => flag (Project.isVisible p)
  | "isFeatured" => flag (Project.isFeatured p)
  | "sortOrder" => num (Project.sortOrder p)
  | "views" => num (Project.views p)
  | "createdBy" => str (Project.createdBy p)
  | "createdAt" => num (Project.createdAt p)
  | _ => Missing
  end.

Definition contact (path : string) (c : Contact.t) : field :=
  match path with
  | "_id" => str (Contact._id c)
  | "name" => str (Contact.name c)
  | "email" => str (Contact.email c)
  | "subject" => str (Contact.subject c)
  | "message" => str (Contact.message c)
  | "phone" => match Contact.phone c with Some x => str x | None => Missing end
  | "status" => str (Contact.status c)
  | "priority" => str (Contact.priority c)
  | "ipAddress" => opt_str (Contact.ipAddress c)
  | "createdAt" => num (Contact.createdAt c)
  | _ => Missing
  end.

End Paths.

(** ** Requests and responses *)

(** An inbound request after cookie, body and query parsing.  [now] is the
    clock when the handler runs.  [query] and [body] list the parameters
    and fields that arrived as strings and JSON scalars, under their keys. *)
Record Request : Type := mkRequest {
  cookies_token : option string;
  headers_authorization : option string;
  params_id : string;
  query : list (string * string);
  body : list (string * JS.value);
  ip : option string;
  now : Z
}.

Fixpoint lookup {V : Type} (key : string) (l : list (string * V)) : option V :=
  match l with
  | [] => None
  | (k, v) :: r => if String.eqb k key then Some v else lookup key r
  end.

(** The request with what the middlewares attached: [req.user]. *)
Record Context : Type := mkContext {
  req : Request;
  user : option User.t
}.

(** A populated reference: [populate(path, 'name email')]. *)
Record UserRef : Type := mkUserRef {
  ref_id : ObjectId;
  ref_name : string;
  ref_email : string
}.

Record Populated (A : Type) : Type := mkPopulated {
  doc : A;
  createdByUser : option UserRef
}.
Arguments mkPopulated {A} doc createdByUser.
Arguments doc {A} p.
Arguments createdByUser {A} p.

Record Pagination : Type := mkPagination {
  total : nat;
  pages : JS.num;
  page : JS.num;
  limit : JS.num
}.

(** One entry of [validationResult(req).array()]. *)
Record FieldError : Type := mkFieldError {
  path : string;
  msg : string;
  value : option JS.value
}.

(** The variable part of the response envelope. *)
Inductive Payload : Type :=
  | NoData
  | Errors (errors : list FieldError)
  | EducationList (l : list (Populated Education.t)) (pagination : option Pagination)
  | EducationDoc (e : Populated Education.t)
  | EducationSaved (e : Education.t)
  | ProjectList (l : list (Populated Project.t)) (pagination : option Pagination)
  | ProjectDoc (p : Populated Project.t) (likedBy : list (option UserRef))
  | ProjectSaved (p : Project.t)
  | LikeState (liked : bool) (likeCount : nat)
  | ContactList (l : list Contact.t) (pagination : Pagination)
                (statusCounts : list (string * nat))
  | ContactReceipt (c : Receipt.t)
  | UserList (l : list User.t) (pagination : Pagination)
             (roleCounts : list (string * nat))
  | UserDoc (u : User.t).

Record Response : Type := mkResponse {
  status : nat;
  success : bool;
  message : string;
  data : Payload
}.

Definition ok (message : string) (data : Payload) : Response :=
  mkResponse 200 true message data.
Definition fail (status : nat) (message : string) : Response :=
  mkResponse status false message NoData.

(** ** Middleware: [backend/middleware/auth.js] *)

(** A middleware either answers the request or calls [next()]. *)
Inductive Step : Type :=
  | Next (c : Context)
  | Done (r : Response).

Definition Middleware : Type := Store -> Context -> Step.
Definition Handler : Type := Store -> Context -> Response * Store.

(** [router.METHOD(path, m1, ..., mk, handler)]: a middleware that answers
    ends the request, and the handler is not run. *)
Fixpoint chain (mws : list Middleware) (h : Handler) (st : Store) (c : Context)
  : Response * Store :=
  match mws with
  | [] => h st c
  | m :: rest =>
      match m st c with
      | Done r => (r, st)
      | Next c' => chain rest h st c'
      end
  end.

(** A request enters a route with no principal attached. *)
Definition serve (mws : list Middleware) (h : Handler) (st : Store) (r : Request)
  : Response * Store :=
  chain mws h st (mkContext r None).

Module Auth.
Import Mongo.

(** [.select('-password')] *)
Definition select_without_password (u : User.t) : User.t :=
  User.mk (User._id u) (User.name u) (User.email u) None
          (User.role u) (User.isActive u) (User.createdAt u).

(** The token of a request: the cookie when it is set, otherwise the second
    space-separated piece of an [Authorization] header starting with
    [Bearer]. *)
Definition token_of (r : Request) : option string :=
  if JS.truthy_string (cookies_token r) then cookies_token r
  else match headers_authorization r with
       | Some h =>
           if negb (String.eqb h "") && String.prefix "Bearer" h
           then nth_error (JS.split " " h) 1
           else None
       | None => None
       end.

Section WithPlatform.
Context `{Platform}.

Definition findUserById (st : Store) (id : option string)
  : outcome (option User.t) :=
  match Query.findById Paths.user (users st) id with
  | Threw => Threw
  | Got found => Got (option_map select_without_password found)
  end.

Definition protect : Middleware := fun st c =>
  let token := token_of (req c) in
  if negb (JS.truthy_string token)
  then Done (fail 401 "Access denied. No token provided.")
  else
    match token with
    | Some t =>
        match verifyToken t with
        | Decoded id =>
            match findUserById st id with
            | Got None => Done (fail 401 "Token is invalid. User not found.")
            | Got (Some u) =>
                if negb (User.isActive u)
                then Done (fail 401 "Account is deactivated. Please contact administrator.")
                else Next (mkContext (req c) (Some u))
            | Threw => Done (fail 401 "Token is invalid or expired.")
            end
        | TokenExpired | TokenMalformed =>
            Done (fail 401 "Token is invalid or expired.")
        end
    | None => Done (fail 401 "Access denied. No token provided.")
    end.

Definition adminOnly : Middleware := fun _ c =>
  match user c with
  | Some u =>
      if String.eqb (User.role u) "admin" then Next c
      else Done (fail 403 "Access denied. Admin privileges required.")
  | None => Done (fail 403 "Access denied. Admin privileges required.")
  end.

Definition optionalAuth : Middleware := fun st c =>
  let token := token_of (req c) in
  if JS.truthy_string token then
    match token with
    | Some t =>
        match verifyToken t with
        | Decoded id =>
            match findUserById st id with
            | Got (Some u) =>
                if User.isActive u then Next (mkContext (req c) (Some u))
                else Next c
            | Got None => Next c
            | Threw => Next c
            end
        | TokenExpired | TokenMalformed => Next c
        end
    | None => Next c
    end
  else Next c.

(** [req.user && req.user.role === 'admin'] *)
Definition is_admin (c : Context) : bool :=
  match user c with
  | Some u => String.eqb (User.role u) "admin"
  | None => false
  end.

End WithPlatform.
End Auth.

(** ** What the routes share *)

Module Routes.
Import Mongo.

(** A destructured query parameter with its default, as [parseInt] and as
    the arithmetic operators read it. *)
Definition string_or (default : string) (p : option string) : string :=
  match p with Some s => s | None => default end.
Definition parseInt_or (default : Z) (p : option string) : JS.num :=
  match p with Some s => JS.parseInt s | None => JS.of_Z default end.
Definition number_or (default : Z) (p : option string) : JS.num :=
  match p with Some s => JS.toNumber s | None => JS.of_Z default end.

(** [sortOrder === 'desc' ? -1 : 1] *)
Definition direction (sortOrder : string) : Z :=
  if String.eqb sortOrder "desc" then -1 else 1.

(** [sort.key = d] unless the primary key is already [key]. *)
Definition secondary (sortBy key : string) (d : Z) : sort_spec :=
  if String.eqb sortBy key then [] else [(key, d)].

(** [if (param) query.key = param] *)
Definition set_if_given (key : string) (p : option string) (f : filter) : filter :=
  match p with
  | Some s => if String.eqb s "" then f else set key (JS.VStr s) f
  | None => f
  end.

(** [if (param !== undefined) query.key = param === 'true'] *)
Definition set_flag_if_defined (key : string) (p : option string) (f : filter)
  : filter :=
  match p with
  | Some s => set key (JS.VBool (String.eqb s "true")) f
  | None => f
  end.

(** [if (search) query.$or = paths.map(regex)] *)
Definition search_if_given (paths : list string) (p : option string) (f : filter)
  : filter :=
  match p with
  | Some s => if String.eqb s "" then f else set_search paths s f
  | None => f
  end.

(** [(page - 1) * limit] *)
Definition skip_of (page limit : JS.num) : JS.num :=
  JS.mul (JS.sub page (JS.of_Z 1)) limit.

(** The [pagination] object of a list response. *)
Definition pagination_of (total : nat) (page limit : option string)
           (default_limit : Z) : Pagination :=
  mkPagination total
               (JS.ceil (JS.div (JS.of_nat total) (number_or default_limit limit)))
               (parseInt_or 1 page)
               (parseInt_or default_limit limit).

(** [populate('createdBy', 'name email')] *)
Definition populate_user (st : Store) (id : ObjectId) : option UserRef :=
  match List.find (fun u => String.eqb (User._id u) id) (users st) with
  | Some u => Some (mkUserRef (User._id u) (User.name u) (User.email u))
  | None => None
  end.

(** [aggregate([{ $group: { _id: path, count: { $sum: 1 } } }])], reduced to
    an object: one count per key. *)
Fixpoint bump (key : string) (l : list (string * nat)) : list (string * nat) :=
  match l with
  | [] => [(key, 1%nat)]
  | (k, n) :: r => if String.eqb k key then (k, S n) :: r else (k, n) :: bump key r
  end.

Definition count_by {A : Type} (key : A -> string) (docs : list A)
  : list (string * nat) :=
  fold_left (fun acc d => bump (key d) acc) docs [].

Definition with_users (st : Store) (l : list User.t) : Store :=
  mkStore l (education st) (projects st) (contacts st).
Definition with_education (st : Store) (l : list Education.t) : Store :=
  mkStore (users st) l (projects st) (contacts st).
Definition with_projects (st : Store) (l : list Project.t) : Store :=
  mkStore (users st) (education st) l (contacts st).
Definition with_contacts (st : Store) (l : list Contact.t) : Store :=
  mkStore (users st) (education st) (projects st) l.

End Routes.

(** ** [backend/routes/education.js] *)

Module EducationRoutes.
Import Mongo Routes.

Definition populate (st : Store) (e : Education.t) : Populated Education.t :=
  mkPopulated e (populate_user st (Education.createdBy e)).

Definition toggle_visible (e : Education.t) : Education.t :=
  Education.mk (Education._id e) (Education.institution e) (Education.degree e)
               (Education.fieldOfStudy e) (Education.startDate e)
               (Education.type e) (negb (Education.isVisible e))
               (Education.sortOrder e) (Education.createdBy e)
               (Education.createdAt e).

Section WithPlatform.
Context `{Platform}.

(** The filter of [GET /api/education]. *)
Definition list_filter (c : Context) : filter :=
  let type := lookup "type" (query (req c)) in
  let query0 :=
    if Auth.is_admin c then empty else set "isVisible" (JS.VBool true) empty in
  set_if_given "type" type query0.

(** [GET /api/education] *)
Definition list_handler : Handler := fun st c =>
  let q := query (req c) in
  let limit := lookup "limit" q in
  let sortBy := string_or "startDate" (lookup "sortBy" q) in
  let sortOrder := string_or "desc" (lookup "sortOrder" q) in
  let sort := (sortBy, direction sortOrder) :: secondary sortBy "sortOrder" 1 in
  match Query.find Paths.education (education st) (list_filter c) sort
                   None (Some (parseInt_or 20 limit)) with
  | Got docs => (ok "" (EducationList (map (populate st) docs) None), st)
  | Threw => (fail 500 "Error fetching education records", st)
  end.

(** The filter of [GET /api/education/:id]. *)
Definition one_filter (c : Context) : filter :=
  let query0 := set "_id" (JS.VStr (params_id (req c))) empty in
  if negb (Auth.is_admin c) then set "isVisible" (JS.VBool true) query0
  else query0.

(** [GET /api/education/:id] *)
Definition one_handler : Handler := fun st c =>
  match Query.findOne Paths.education (education st) (one_filter c) with
  | Got (Some e) => (ok "" (EducationDoc (populate st e)), st)
  | Got None => (fail 404 "Education record not found", st)
  | Threw => (fail 500 "Error fetching education record", st)
  end.

(** [PUT /api/education/:id/visibility] *)
Definition visibility_handler : Handler := fun st c =>
  match Query.findById Paths.education (education st)
                       (Some (params_id (req c))) with
  | Got (Some e) =>
      let e' := toggle_visible e in
      (ok (if Education.isVisible e'
           then "Education record shown successfully"
           else "Education record hidden successfully")
          (EducationSaved e'),
       with_education st (Query.save Education._id e' (education st)))
  | Got None => (fail 404 "Education record not found", st)
  | Threw => (fail 500 "Error updating visibility", st)
  end.

(** The filter of [GET /api/education/admin/all]. *)
Definition admin_all_filter (r : Request) : filter :=
  let q := query r in
  search_if_given ["institution"; "degree"; "fieldOfStudy"] (lookup "search" q)
    (set_flag_if_defined "isVisible" (lookup "isVisible" q)
       (set_if_given "type" (lookup "type" q) empty)).

(** [GET /api/education/admin/all] *)
Definition admin_all_handler : Handler := fun st c =>
  let q := query (req c) in
  let page := lookup "page" q in
  let limit := lookup "limit" q in
  let sortBy := string_or "createdAt" (lookup "sortBy" q) in
  let sortOrder := string_or "desc" (lookup "sortOrder" q) in
  let query := admin_all_filter (req c) in
  let skip := skip_of (number_or 1 page) (number_or 20 limit) in
  let sort := [(sortBy, direction sortOrder)] in
  match Query.find Paths.education (education st) query sort
                   (Some skip) (Some (parseInt_or 20 limit)),
        Query.countDocuments Paths.education (education st) query with
  | Got docs, Got total =>
      (ok "" (EducationList (map (populate st) docs)
                            (Some (pagination_of total page limit 20))), st)
  | _, _ => (fail 500 "Error fetching education records", st)
  end.

Definition list : Store -> Request -> Response * Store :=
  serve [Auth.optionalAuth] list_handler.
Definition one : Store -> Request -> Response * Store :=
  serve [Auth.optionalAuth] one_handler.
Definition visibility : Store -> Request -> Response * Store :=
  serve [Auth.protect; Auth.adminOnly] visibility_handler.
Definition admin_all : Store -> Request -> Response * Store :=
  serve [Auth.protect; Auth.adminOnly] admin_all_handler.

End WithPlatform.
End EducationRoutes.

(** ** [backend/routes/projects.js] *)

Module ProjectRoutes.
Import Mongo Routes.

Definition populate (st : Store) (p : Project.t) : Populated Project.t :=
  mkPopulated p (populate_user st (Project.createdBy p)).

Definition with_visible (b : bool) (p : Project.t) : Project.t :=
  Project.mk (Project._id p) (Project.title p) (Project.description p)
             (Project.category p) (Project.status p) (Project.technologies p)
             (Project.tags p) b (Project.isFeatured p) (Project.sortOrder p)
             (Project.views p) (Project.likes p) (Project.createdBy p)
             (Project.createdAt p).

Definition with_views (v : Z) (p : Project.t) : Project.t :=
  Project.mk (Project._id p) (Project.title p) (Project.description p)
             (Project.category p) (Project.status p) (Project.technologies p)
             (Project.tags p) (Project.isVisible p) (Project.isFeatured p)
             (Project.sortOrder p) v (Project.likes p) (Project.createdBy p)
             (Project.createdAt p).

Definition with_likes (l : list Like.t) (p : Project.t) : Project.t :=
  Project.mk (Project._id p) (Project.title p) (Project.description p)
             (Project.category p) (Project.status p) (Project.technologies p)
             (Project.tags p) (Project.isVisible p) (Project.isFeatured p)
             (Project.sortOrder p) (Project.views p) l (Project.createdBy p)
             (Project.createdAt p).

(** [likes.findIndex(like => like.userId.toString() === id)] *)
Fixpoint findIndex (id : ObjectId) (l : list Like.t) : option nat :=
  match l with
  | [] => None
  | like :: r =>
      if String.eqb (Like.userId like) id then Some O
      else option_map S (findIndex id r)
  end.

(** [likes.splice(i, 1)] *)
Fixpoint splice1 (i : nat) (l : list Like.t) : list Like.t :=
  match l, i with
  | [], _ => []
  | _ :: r, O => r
  | x :: r, S j => x :: splice1 j r
  end.

(** The like toggle on the array: drop the caller's entry when there is
    one, append a fresh one otherwise. *)
Definition toggle_like (me : ObjectId) (time : Z) (l : list Like.t) : list Like.t :=
  match findIndex me l with
  | Some i => splice1 i l
  | None => l ++ [Like.mk me time]
  end.

Section WithPlatform.
Context `{Platform}.

(** The filter of [GET /api/projects]. *)
Definition list_filter (c : Context) : filter :=
  let q := query (req c) in
  let query0 :=
    if Auth.is_admin c then empty else set "isVisible" (JS.VBool true) empty in
  search_if_given ["title"; "description"; "technologies"; "tags"]
    (lookup "search" q)
    (set_if_given "status" (lookup "status" q)
       (set_flag_if_defined "isFeatured" (lookup "featured" q)
          (set_if_given "category" (lookup "category" q) query0))).

(** [GET /api/projects] *)
Definition list_handler : Handler := fun st c =>
  let q := query (req c) in
  let page := lookup "page" q in
  let limit := lookup "limit" q in
  let sortBy := string_or "createdAt" (lookup "sortBy" q) in
  let sortOrder := string_or "desc" (lookup "sortOrder" q) in
  let skip := skip_of (number_or 1 page) (number_or 20 limit) in
  let sort :=
    (sortBy, direction sortOrder)
      :: secondary sortBy "isFeatured" (-1) ++ secondary sortBy "sortOrder" 1 in
  match Query.find Paths.project (projects st) (list_filter c) sort
                   (Some skip) (Some (parseInt_or 20 limit)),
        Query.countDocuments Paths.project (projects st) (list_filter c) with
  | Got docs, Got total =>
      (ok "" (ProjectList (map (populate st) docs)
                          (Some (pagination_of total page limit 20))), st)
  | _, _ => (fail 500 "Error fetching projects", st)
  end.

(** The filter of [GET /api/projects/featured]. *)
Definition featured_filter (c : Context) : filter :=
  let query0 := set "isFeatured" (JS.VBool true) empty in
  if negb (Auth.is_admin c) then set "isVisible" (JS.VBool true) query0
  else query0.

(** [GET /api/projects/featured] *)
Definition featured_handler : Handler := fun st c =>
  let limit := lookup "limit" (query (req c)) in
  match Query.find Paths.project (projects st) (featured_filter c)
                   [("sortOrder", 1); ("createdAt", -1)]
                   None (Some (parseInt_or 6 limit)) with
  | Got docs => (ok "" (ProjectList (map (populate st) docs) None), st)
  | Threw => (fail 500 "Error fetching featured projects", st)
  end.

(** The filter of [GET /api/projects/:id]. *)
Definition one_filter (c : Context) : filter :=
  let query0 := set "_id" (JS.VStr (params_id (req c))) empty in
  if negb (Auth.is_admin c) then set "isVisible" (JS.VBool true) query0
  else query0.

(** [GET /api/projects/:id].  The view count is incremented without
    waiting; the store returned is the one after the increment landed. *)
Definition one_handler : Handler := fun st c =>
  match Query.findOne Paths.project (projects st) (one_filter c) with
  | Got (Some p) =>
      let viewed :=
        match Query.findByIdAndUpdate Paths.project Project._id (projects st)
                (params_id (req c))
                (fun d => with_views (Project.views d + 1) d) with
        | Got (_, docs) => docs
        | Threw => projects st
        end in
      (ok "" (ProjectDoc (populate st p)
                         (map (fun l => populate_user st (Like.userId l))
                              (Project.likes p))),
       with_projects st viewed)
  | Got None => (fail 404 "Project not found", st)
  | Threw => (fail 500 "Error fetching project", st)
  end.

(** [PUT /api/projects/:id/visibility] *)
Definition visibility_handler : Handler := fun st c =>
  match Query.findById Paths.project (projects st)
                       (Some (params_id (req c))) with
  | Got (Some p) =>
      let p' := with_visible (negb (Project.isVisible p)) p in
      (ok (if Project.isVisible p'
           then "Project shown successfully"
           else "Project hidden successfully")
          (ProjectSaved p'),
       with_projects st (Query.save Project._id p' (projects st)))
  | Got None => (fail 404 "Project not found", st)
  | Threw => (fail 500 "Error updating visibility", st)
  end.

(** [POST /api/projects/:id/like] *)
Definition like_handler : Handler := fun st c =>
  match Query.findById Paths.project (projects st)
                       (Some (params_id (req c))) with
  | Got (Some p) =>
      match user c with
      | Some me =>
          let existingLikeIndex := findIndex (User._id me) (Project.likes p) in
          let p' :=
            with_likes (toggle_like (User._id me) (now (req c)) (Project.likes p)) p in
          (ok (match existingLikeIndex with
               | Some _ => "Project unliked"
               | None => "Project liked"
               end)
              (LikeState (match existingLikeIndex with
                          | Some _ => false
                          | None => true
                          end)
                         (List.length (Project.likes p'))),
           with_projects st (Query.save Project._id p' (projects st)))
      | None => (fail 500 "Error updating project like", st)
      end
  | Got None => (fail 404 "Project not found", st)
  | Threw => (fail 500 "Error updating project like", st)
  end.

Definition list : Store -> Request -> Response * Store :=
  serve [Auth.optionalAuth] list_handler.
Definition featured : Store -> Request -> Response * Store :=
  serve [Auth.optionalAuth] featured_handler.
Definition one : Store -> Request -> Response * Store :=
  serve [Auth.optionalAuth] one_handler.
Definition visibility : Store -> Request -> Response * Store :=
  serve [Auth.protect; Auth.adminOnly] visibility_handler.
Definition like : Store -> Request -> Response * Store :=
  serve [Auth.protect] like_handler.

End WithPlatform.
End ProjectRoutes.

(** ** Request validation: [express-validator] chains *)

Module Validator.

(** The string a validator or sanitizer is applied to: the empty string for
    a missing or null field, [String(v)] otherwise. *)
Definition input (v : option JS.value) : string :=
  match v with
  | None | Some JS.VNull => ""
  | Some w => JS.toString w
  end.

(** [isLength({ min, max })]; lengths are those of ASCII text. *)
Definition isLength (min : nat) (max : option nat) (s : string) : bool :=
  let n := String.length s in
  (min <=? n)%nat && match max with Some m => (n <=? m)%nat | None => true end.

(** [isIn(values)] *)
Definition isIn (values : list string) (s : string) : bool :=
  existsb (String.eqb s) values.

(** [isBoolean()] *)
Definition isBoolean (s : string) : bool := isIn ["true"; "false"; "1"; "0"] s.

(** [body(path).trim().isLength({ min, max }).withMessage(msg)]: the
    sanitized value and the errors of the chain. *)
Definition trimmed_length (path msg : string) (min : nat) (max : option nat)
           (v : option JS.value) : string * list FieldError :=
  let s := JS.trim (input v) in
  (s, if isLength min max s then [] else [mkFieldError path msg (Some (JS.VStr s))]).

(** [body(path).isIn(values).withMessage(msg)] *)
Definition one_of (path msg : string) (values : list string)
           (v : option JS.value) : list FieldError :=
  if isIn values (input v) then [] else [mkFieldError path msg v].

(** [body(path).isBoolean().withMessage(msg)] *)
Definition boolean (path msg : string) (v : option JS.value) : list FieldError :=
  if isBoolean (input v) then [] else [mkFieldError path msg v].

End Validator.

(** ** [backend/routes/contact.js] *)

Module ContactRoutes.
Import Mongo Routes.

Definition lower (c : ascii) : ascii :=
  let n := nat_of_ascii c in
  if ((65 <=? n) && (n <=? 90))%nat then ascii_of_nat (n + 32) else c.

Fixpoint lowercase (s : string) : string :=
  match s with
  | EmptyString => EmptyString
  | String c r => String (lower c) (lowercase r)
  end.

Fixpoint all_chars (ok : ascii -> bool) (s : string) : bool :=
  match s with
  | EmptyString => true
  | String c r => ok c && all_chars ok r
  end.

(** A dot with at least one character on each side. *)
Fixpoint inner_dot (s : string) : bool :=
  match s with
  | String _ (String "." (String _ _)) => true
  | String _ r => inner_dot r
  | EmptyString => false
  end.

(** The schema's [match] on [email]: one [@], no white space, something
    before the [@] and a dot inside what follows. *)
Definition email_matches (s : string) : bool :=
  match JS.split "@" s with
  | [local; domain] =>
      negb (String.eqb local "")
      && all_chars (fun c => negb (JS.is_space c)) s
      && inner_dot domain
  | _ => false
  end.

Section WithPlatform.
Context `{Platform}.

(** [body('email').isEmail().normalizeEmail().withMessage(msg)] *)
Definition email_chain (v : option JS.value) : string * list FieldError :=
  let s := Validator.input v in
  (normalizeEmail s,
   if isEmail s then []
   else [mkFieldError "email" "Please provide a valid email" v]).

(** [body('phone').optional().trim().isLength({ max: 20 })] *)
Definition phone_chain (v : option JS.value) : option string * list FieldError :=
  match v with
  | None => (None, [])
  | Some _ =>
      let (s, errors) :=
        Validator.trimmed_length "phone" "Phone number cannot exceed 20 characters"
                                 0 (Some 20%nat) v in
      (Some s, errors)
  end.

(** [POST /api/contact] *)
(** The fields of a saved contact that the 201 answer repeats. *)
Definition receipt (c : Contact.t) : Receipt.t :=
  Receipt.mk (Contact._id c) (Contact.name c) (Contact.email c)
             (Contact.subject c) (Contact.message c) (Contact.createdAt c).

Definition submit_handler : Handler := fun st c =>
  let b := body (req c) in
  let (name, name_errors) :=
    Validator.trimmed_length "name" "Name must be between 2 and 100 characters"
                             2 (Some 100%nat) (lookup "name" b) in
  let (email, email_errors) := email_chain (lookup "email" b) in
  let (subject, subject_errors) :=
    Validator.trimmed_length "subject" "Subject must be between 5 and 200 characters"
                             5 (Some 200%nat) (lookup "subject" b) in
  let (message, message_errors) :=
    Validator.trimmed_length "message" "Message must be between 10 and 1000 characters"
                             10 (Some 1000%nat) (lookup "message" b) in
  let (phone, phone_errors) := phone_chain (lookup "phone" b) in
  let errors :=
    (name_errors ++ email_errors ++ subject_errors ++ message_errors
                 ++ phone_errors)%list in
  match errors with
  | _ :: _ => (mkResponse 400 false "Validation failed" (Errors errors), st)
  | [] =>
      let stored_email := lowercase (JS.trim email) in
      if email_matches stored_email then
        let contact :=
          Contact.mk (generateId (now (req c))) name stored_email subject message
                     phone "new" "medium" (ip (req c)) (now (req c)) in
        (mkResponse 201 true
           "Your message has been sent successfully! I will get back to you soon."
           (ContactReceipt (receipt contact)),
         with_contacts st (contacts st ++ [contact])%list)
      else (fail 500 "Failed to send message. Please try again later.", st)
  end.

(** The filter of [GET /api/contact]. *)
Definition list_filter (r : Request) : filter :=
  let q := query r in
  search_if_given ["name"; "email"; "subject"; "message"] (lookup "search" q)
    (set_if_given "priority" (lookup "priority" q)
       (set_if_given "status" (lookup "status" q) empty)).

(** [GET /api/contact] *)
Definition list_handler : Handler := fun st c =>
  let q := query (req c) in
  let page := lookup "page" q in
  let limit := lookup "limit" q in
  let sortBy := string_or "createdAt" (lookup "sortBy" q) in
  let sortOrder := string_or "desc" (lookup "sortOrder" q) in
  let query := list_filter (req c) in
  let skip := skip_of (number_or 1 page) (number_or 10 limit) in
  let sort := [(sortBy, direction sortOrder)] in
  match Query.find Paths.contact (contacts st) query sort
                   (Some skip) (Some (parseInt_or 10 limit)),
        Query.countDocuments Paths.contact (contacts st) query with
  | Got docs, Got total =>
      (ok "" (ContactList docs (pagination_of total page limit 10)
                          (count_by Contact.status (contacts st))), st)
  | _, _ => (fail 500 "Error fetching contacts", st)
  end.

Definition submit : Store -> Request -> Response * Store :=
  serve [] submit_handler.
Definition list : Store -> Request -> Response * Store :=
  serve [Auth.protect; Auth.adminOnly] list_handler.

End WithPlatform.
End ContactRoutes.

(** ** [backend/routes/user.js] *)

Module UserRoutes.
Import Mongo Routes.

(** The store's cast of an update value to a Boolean path: [None] when the
    value does not cast and the update throws. *)
Definition castBoolean (v : JS.value) : option bool :=
  match v with
  | JS.VBool b => Some b
  | JS.VNum 1 => Some true
  | JS.VNum 0 => Some false
  | JS.VStr "true" | JS.VStr "1" | JS.VStr "yes" => Some true
  | JS.VStr "false" | JS.VStr "0" | JS.VStr "no" => Some false
  | _ => None
  end.

Definition with_role (r : string) (u : User.t) : User.t :=
  User.mk (User._id u) (User.name u) (User.email u) (User.password u)
          r (User.isActive u) (User.createdAt u).

Definition with_isActive (b : bool) (u : User.t) : User.t :=
  User.mk (User._id u) (User.name u) (User.email u) (User.password u)
          (User.role u) b (User.createdAt u).

(** [v === 'user'] *)
Definition is_string (s : string) (v : option JS.value) : bool :=
  match v with
  | Some w => value_eqb w (JS.VStr s)
  | None => false
  end.

Section WithPlatform.
Context `{Platform}.

(** The filter of [GET /api/user/all]. *)
Definition all_filter (r : Request) : filter :=
  let q := query r in
  search_if_given ["name"; "email"] (lookup "search" q)
    (set_flag_if_defined "isActive" (lookup "isActive" q)
       (set_if_given "role" (lookup "role" q) empty)).

(** [GET /api/user/all] *)
Definition all_handler : Handler := fun st c =>
  let q := query (req c) in
  let page := lookup "page" q in
  let limit := lookup "limit" q in
  let sortBy := string_or "createdAt" (lookup "sortBy" q) in
  let sortOrder := string_or "desc" (lookup "sortOrder" q) in
  let query := all_filter (req c) in
  let skip := skip_of (number_or 1 page) (number_or 20 limit) in
  let sort := [(sortBy, direction sortOrder)] in
  match Query.find Paths.user (users st) query sort
                   (Some skip) (Some (parseInt_or 20 limit)),
        Query.countDocuments Paths.user (users st) query with
  | Got docs, Got total =>
      (ok "" (UserList (map Auth.select_without_password docs)
                       (pagination_of total page limit 20)
                       (count_by User.role (users st))), st)
  | _, _ => (fail 500 "Error fetching users", st)
  end.

(** [GET /api/user/:id] *)
Definition one_handler : Handler := fun st c =>
  match Query.findById Paths.user (users st) (Some (params_id (req c))) with
  | Got (Some u) => (ok "" (UserDoc (Auth.select_without_password u)), st)
  | Got None => (fail 404 "User not found", st)
  | Threw => (fail 500 "Error fetching user", st)
  end.

(** [PUT /api/user/:id/role] *)
Definition role_handler : Handler := fun st c =>
  let role := lookup "role" (body (req c)) in
  match Validator.one_of "role" "Role must be either user or admin"
                         ["user"; "admin"] role with
  | _ :: _ as errors =>
      (mkResponse 400 false "Validation failed" (Errors errors), st)
  | [] =>
      match user c with
      | None => (fail 500 "Error updating user role", st)
      | Some me =>
          if String.eqb (params_id (req c)) (User._id me) && is_string "user" role
          then (fail 400 "You cannot demote yourself from admin role", st)
          else
            match Query.findByIdAndUpdate Paths.user User._id (users st)
                    (params_id (req c)) (with_role (Validator.input role)) with
            | Got (Some u, docs) =>
                (ok ("User role updated to " ++ Validator.input role
                       ++ " successfully")%string
                    (UserDoc (Auth.select_without_password u)),
                 with_users st docs)
            | Got (None, _) => (fail 404 "User not found", st)
            | Threw => (fail 500 "Error updating user role", st)
            end
      end
  end.

(** [PUT /api/user/:id/status] *)
Definition status_handler : Handler := fun st c =>
  let isActive := lookup "isActive" (body (req c)) in
  match Validator.boolean "isActive" "isActive must be a boolean value" isActive with
  | _ :: _ as errors =>
      (mkResponse 400 false "Validation failed" (Errors errors), st)
  | [] =>
      match user c with
      | None => (fail 500 "Error updating user status", st)
      | Some me =>
          if String.eqb (params_id (req c)) (User._id me)
             && negb (JS.truthy isActive)
          then (fail 400 "You cannot deactivate your own account", st)
          else
            match option_map castBoolean isActive with
            | Some (Some b) =>
                match Query.findByIdAndUpdate Paths.user User._id (users st)
                        (params_id (req c)) (with_isActive b) with
                | Got (Some u, docs) =>
                    (ok (if JS.truthy isActive
                         then "User activated successfully"
                         else "User deactivated successfully")
                        (UserDoc (Auth.select_without_password u)),
                     with_users st docs)
                | Got (None, _) => (fail 404 "User not found", st)
                | Threw => (fail 500 "Error updating user status", st)
                end
            | _ => (fail 500 "Error updating user status", st)
            end
      end
  end.

(** [DELETE /api/user/:id] *)
Definition delete_handler : Handler := fun st c =>
  match user c with
  | None => (fail 500 "Error deleting user", st)
  | Some me =>
      if String.eqb (params_id (req c)) (User._id me)
      then (fail 400 "You cannot delete your own account", st)
      else
        match Query.findByIdAndDelete Paths.user User._id (users st)
                (params_id (req c)) with
        | Got (Some _, docs) =>
            (mkResponse 200 true "User deleted successfully" NoData,
             with_users st docs)
        | Got (None, _) => (fail 404 "User not found", st)
        | Threw => (fail 500 "Error deleting user", st)
        end
  end.

Definition all : Store -> Request -> Response * Store :=
  serve [Auth.protect; Auth.adminOnly] all_handler.
Definition one : Store -> Request -> Response * Store :=
  serve [Auth.protect; Auth.adminOnly] one_handler.
Definition role : Store -> Request -> Response * Store :=
  serve [Auth.protect; Auth.adminOnly] role_handler.
Definition status : Store -> Request -> Response * Store :=
  serve [Auth.protect; Auth.adminOnly] status_handler.
Definition delete : Store -> Request -> Response * Store :=
  serve [Auth.protect; Auth.adminOnly] delete_handler.

End WithPlatform.
End UserRoutes.

(** ** Reading requests, responses and stores *)


Definition with_cookie (t : option string) (r : Request) : Request :=
  mkRequest t (headers_authorization r) (params_id r) (query r) (body r)
            (ip r) (now r).

Definition at_time (t : Z) (r : Request) : Request :=
  mkRequest (cookies_token r) (headers_authorization r) (params_id r) (query r)
            (body r) (ip r) t.

(** The principal a route behind [optionalAuth] sees. *)
Definition caller `{Platform} (st : Store) (r : Request) : option User.t :=
  match Auth.optionalAuth st (mkContext r None) with
  | Next c => user c
  | Done _ => None
  end.

(** The principal a route behind [protect] sees, when the request passes. *)
Definition principal `{Platform} (st : Store) (r : Request) : option User.t :=
  match Auth.protect st (mkContext r None) with
  | Next c => user c
  | Done _ => None
  end.

Definition admin (u : option User.t) : bool :=
  match u with
  | Some v => String.eqb (User.role v) "admin"
  | None => false
  end.


(** The records and users a response carries. *)
Definition education_in (d : Payload) : list Education.t :=
  match d with
  | EducationList l _ => map doc l
  | EducationDoc e => [doc e]
  | EducationSaved e => [e]
  | _ => []
  end.

Definition projects_in (d : Payload) : list Project.t :=
  match d with
  | ProjectList l _ => map doc l
  | ProjectDoc p _ => [doc p]
  | ProjectSaved p => [p]
  | _ => []
  end.

Definition users_in (d : Payload) : list User.t :=
  match d with
  | UserList l _ _ => l
  | UserDoc u => [u]
  | _ => []
  end.

Definition pagination_in (d : Payload) : option Pagination :=
  match d with
  | EducationList _ p | ProjectList _ p => p
  | ContactList _ p _ | UserList _ p _ => Some p
  | _ => None
  end.

Definition errors_in (d : Payload) : list FieldError :=
  match d with
  | Errors l => l
  | _ => []
  end.

(** The stored document with a given [_id]. *)
Definition stored_user (st : Store) (id : ObjectId) : option User.t :=
  List.find (fun u => String.eqb (User._id u) id) (users st).
Definition stored_education (st : Store) (id : ObjectId) : option Education.t :=
  List.find (fun e => String.eqb (Education._id e) id) (education st).
Definition stored_project (st : Store) (id : ObjectId) : option Project.t :=
  List.find (fun p => String.eqb (Project._id p) id) (projects st).




(** How many entries of a likes array belong to a principal. *)
Definition likes_of (id : ObjectId) (l : list Like.t) : nat :=
  List.length (List.filter (fun k => String.eqb (Like.userId k) id) l).

(** The same request handled at each of the given times in turn. *)
Fixpoint repeat_at (route : Store -> Request -> Response * Store)
         (r : Request) (times : list Z) (st : Store) : Store :=
  match times with
  | [] => st
  | t :: rest => repeat_at route r rest (snd (route st (at_time t r)))
  end.

(** A parameter written as plain decimal digits, and the integer it
    denotes. *)
Definition decimal (s : string) : option Z :=
  match JS.digits 10 s 0 0 with
  | (v, S _, EmptyString) => Some v
  | _ => None
  end.

(** The page size a request asks for: the default when [limit] is omitted,
    the integer when it is written in decimal digits. *)
Definition page_size (default : Z) (limit : option string) : option Z :=
  match limit with
  | None => Some default
  | Some s => decimal s
  end.

(** The number of pages as the specification words it: the ceiling of
    [total / limit]. *)
Definition pages_expected (total : nat) (limit : Z) : Z :=
  Qceiling (inject_Z (Z.of_nat total) / inject_Z limit)%Q.

(** A pagination object in order for a page size [n]: the page count is the
    expected one, the size is echoed, and the page is 1 when the request
    names none. *)
Definition well_paged (r : Request) (n : Z) (pg : Pagination) : Prop :=
  pages pg = JS.of_Z (pages_expected (total pg) n)
  /\ limit pg = JS.of_Z n
  /\ (lookup "page" (query r) = None -> page pg = JS.of_Z 1).

(** ** Auxiliary notions of the statements *)

(** [Number.MAX_SAFE_INTEGER].  Up to here every whole number is a double
    and [parseInt], [Number], [-], [*] and the ceiling of a quotient are
    exact, so that the exact numbers of [JS.num] are the numbers of the
    program; the statements about numbers read from a request stay within
    this bound. *)
Definition max_safe_integer : Z := 2 ^ 53 - 1.

Fixpoint distinct (keys : list string) : bool :=
  match keys with
  | [] => true
  | k :: rest => negb (existsb (String.eqb k) rest) && distinct rest
  end.

Definition bracket_free (key : string) : bool :=
  ContactRoutes.all_chars (fun c => negb (Ascii.eqb c "["%char)) key.

(** A query string whose parameters arrive as strings, which is how
    [lookup] reads [req.query]: every key is given once (a repeated key
    arrives as an array), no key uses bracket syntax (which arrives as an
    array or an object), and there are no more keys than the parser reads
    (1000). *)
Definition plain_query (q : list (string * string)) : bool :=
  distinct (map fst q) && forallb bracket_free (map fst q)
  && (List.length q <=? 1000)%nat.

(** What [protect] does with a token. *)
Definition protect_with `{Platform} (st : Store) (c : Context) (t : string) : Step :=
  match verifyToken t with
  | Decoded id =>
      match Auth.findUserById st id with
      | Mongo.Got None => Done (fail 401 "Token is invalid. User not found.")
      | Mongo.Got (Some u) =>
          if negb (User.isActive u)
          then Done (fail 401 "Account is deactivated. Please contact administrator.")
          else Next (mkContext (req c) (Some u))
      | Mongo.Threw => Done (fail 401 "Token is invalid or expired.")
      end
  | TokenExpired | TokenMalformed => Done (fail 401 "Token is invalid or expired.")
  end.

(** What [optionalAuth] does with a token. *)
Definition optional_with `{Platform} (st : Store) (c : Context) (t : string) : Step :=
  match verifyToken t with
  | Decoded id =>
      match Auth.findUserById st id with
      | Mongo.Got (Some u) =>
          if User.isActive u then Next (mkContext (req c) (Some u)) else Next c
      | _ => Next c
      end
  | TokenExpired | TokenMalformed => Next c
  end.

(** A request lacks a valid token when it carries none, when the token
    fails verification, or when the token's principal is not found (or its
    id does not cast) or is deactivated. *)
Definition lacks_valid_token `{Platform} (st : Store) (r : Request) : Prop :=
  JS.truthy_string (Auth.token_of r) = false
  \/ exists t, Auth.token_of r = Some t /\ t <> ""
       /\ (verifyToken t = TokenExpired
           \/ verifyToken t = TokenMalformed
           \/ exists id, verifyToken t = Decoded id
                /\ (Auth.findUserById st id = Mongo.Got None
                    \/ Auth.findUserById st id = Mongo.Threw
                    \/ exists u, Auth.findUserById st id = Mongo.Got (Some u)
                                 /\ User.isActive u = false)).

(** The document with a given [_id]. *)
Definition has_id {A : Type} (id_of : A -> ObjectId) (id : ObjectId) (x : A) : bool :=
  String.eqb (id_of x) id.

(** The store after an odd number of like invocations by [a] on [p], the
    last one at [t]. *)
Definition liked_at (st : Store) (a : User.t) (p : Project.t) (t : Z) : Store :=
  Routes.with_projects st
    (Query.save Project._id
       (ProjectRoutes.with_likes (Project.likes p ++ [Like.mk (User._id a) t])%list p)
       (projects st)).

(** After [n] invocations the store is the original one when [n] is even
    and one with a single entry of the principal appended when it is odd. *)
Definition after (st : Store) (a : User.t) (p : Project.t) (n : nat) (s : Store)
  : Prop :=
  if Nat.even n then s = st else exists t, s = liked_at st a p t.

(** A character that the numeric grammar can only read as a digit. *)
Definition decimal_digit (c : ascii) : bool :=
  match JS.digit 10 c with Some _ => true | None => false end.

Definition all_decimal (s : string) : bool := ContactRoutes.all_chars decimal_digit s.

Definition nothing_else (c : ascii) : bool :=
  negb (JS.is_space c)
  && negb (Ascii.eqb c "-") && negb (Ascii.eqb c "+")
  && negb (Ascii.eqb c "x" || Ascii.eqb c "X")
  && negb (Ascii.eqb c "o" || Ascii.eqb c "O")
  && negb (Ascii.eqb c "b" || Ascii.eqb c "B")
  && negb (Ascii.eqb c "I").

(** ** A concrete platform and a small store

    Used to run the handlers on explicit requests. *)

Module Sample.
Import Mongo.

(** Tokens [token:<id>] verify and carry [id]; [expired] has run out;
    anything else is malformed. *)
Definition verify (t : string) : verdict :=
  if String.prefix "token:" t
  then Decoded (Some (String.substring 6 (String.length t - 6) t))
  else if String.eqb t "expired" then TokenExpired else TokenMalformed.

Definition hex (c : ascii) : bool :=
  match JS.digit 16 c with Some _ => true | None => false end.

Definition object_id (s : string) : bool :=
  (String.length s =? 24)%nat && ContactRoutes.all_chars hex s.

Fixpoint contains (needle s : string) : bool :=
  String.prefix needle s
  || match s with
     | String _ r => contains needle r
     | EmptyString => false
     end.

Definition regex (pattern : string) : option (string -> bool) :=
  Some (fun s => contains (ContactRoutes.lowercase pattern)
                          (ContactRoutes.lowercase s)).

Definition compare_value (a b : JS.value) : comparison :=
  match a, b with
  | JS.VNum x, JS.VNum y => Z.compare x y
  | JS.VStr x, JS.VStr y => String.compare x y
  | JS.VBool x, JS.VBool y => Bool.compare x y
  | _, _ => Eq
  end.

Definition compare_field (f g : field) : comparison :=
  match f, g with
  | Scalar a, Scalar b => compare_value a b
  | Missing, Missing => Eq
  | Missing, _ => Lt
  | _, Missing => Gt
  | _, _ => Eq
  end.

(** Whole numbers only; a negative skip is rejected, a limit of zero is no
    limit and a negative limit counts as its size. *)
Definition whole (n : JS.num) : option Z :=
  match n with
  | JS.Fin q => let r := Qred q in
                if Pos.eqb (Qden r) 1 then Some (Qnum r) else None
  | _ => None
  end.

Definition skip_count (n : JS.num) : option nat :=
  match whole n with
  | Some z => if z <? 0 then None else Some (Z.to_nat z)
  | None => None
  end.

Definition limit_count (n : JS.num) : option (option nat) :=
  match whole n with
  | Some 0 => Some None
  | Some z => Some (Some (Z.abs_nat z))
  | None => None
  end.

Definition platform : Platform := {|
  verifyToken := verify;
  isObjectId := object_id;
  regexp := regex;
  compareValues := compare_field;
  cursorSkip := skip_count;
  cursorLimit := limit_count;
  isEmail := ContactRoutes.email_matches;
  normalizeEmail := ContactRoutes.lowercase;
  generateId := fun _ => "64b000000000000000000c99"
|}.

Definition admin_id : ObjectId := "64b000000000000000000a01".
Definition visitor_id : ObjectId := "64b000000000000000000a02".

Definition the_admin : User.t :=
  User.mk admin_id "Admin User" "admin@sanyaportfolio.com" (Some "$2a$12$hash-a")
          "admin" true 1000.
Definition the_visitor : User.t :=
  User.mk visitor_id "Visitor" "visitor@example.com" (Some "$2a$12$hash-v")
          "user" true 2000.

Definition shown_course : Education.t :=
  Education.mk "64b000000000000000000e01" "Centennial College" "Diploma"
               "Software Engineering" 100 "formal" true 0 admin_id 3000.
Definition hidden_course : Education.t :=
  Education.mk "64b000000000000000000e02" "Online Academy" "Certificate"
               "Web Design" 200 "certification" false 1 admin_id 4000.

Definition shown_project : Project.t :=
  Project.mk "64b000000000000000000b01" "Portfolio" "A personal portfolio site"
             "web-development" "completed" ["React"; "Express"] ["web"]
             true true 0 7 [] admin_id 5000.
Definition hidden_project : Project.t :=
  Project.mk "64b000000000000000000b02" "Bug Smasher" "A small browser game"
             "other" "in-progress" ["jQuery"] [] false false 1 0
             [Like.mk admin_id 5500] admin_id 6000.

Definition message_number (n : Z) : Contact.t :=
  Contact.mk "64b000000000000000000c00" "Jordan" "jordan@example.com"
             "Hello there" "A message of some length" None "new" "medium"
             None n.

Definition store : Store :=
  mkStore [the_admin; the_visitor]
          [shown_course; hidden_course]
          [shown_project; hidden_project]
          (map message_number [1; 2; 3; 4; 5]).

(** A request with nothing set. *)
Definition blank : Request := mkRequest None None "" [] [] None 7000.

Definition as_admin (r : Request) : Request :=
  with_cookie (Some ("token:" ++ admin_id)%string) r.
Definition as_visitor (r : Request) : Request :=
  with_cookie (Some ("token:" ++ visitor_id)%string) r.

Definition on (id : string) (r : Request) : Request :=
  mkRequest (cookies_token r) (headers_authorization r) id (query r) (body r)
            (ip r) (now r).
Definition asking (q : list (string * string)) (r : Request) : Request :=
  mkRequest (cookies_token r) (headers_authorization r) (params_id r) q (body r)
            (ip r) (now r).
(** The body of the specification's contact example. *)
Definition short_message : list (string * JS.value) :=
  [("name", JS.VStr "Jo"); ("email", JS.VStr "bad"); ("subject", JS.VStr "Hi");
   ("message", JS.VStr "short")].

Definition sending (b : list (string * JS.value)) (r : Request) : Request :=
  mkRequest (cookies_token r) (headers_authorization r) (params_id r) (query r) b
            (ip r) (now r).

End Sample.

(** ** The remaining admin routes: deletes and the featured toggle *)

Module Admin.
Import Mongo Routes.

Definition with_featured (b : bool) (p : Project.t) : Project.t :=
  Project.mk (Project._id p) (Project.title p) (Project.description p)
             (Project.category p) (Project.status p) (Project.technologies p)
             (Project.tags p) (Project.isVisible p) b (Project.sortOrder p)
             (Project.views p) (Project.likes p) (Project.createdBy p)
             (Project.createdAt p).

Section WithPlatform.
Context `{Platform}.

(** [DELETE /api/education/:id] *)
Definition education_delete_handler : Handler := fun st c =>
  match Query.findByIdAndDelete Paths.education Education._id (education st)
          (params_id (req c)) with
  | Got (Some _, docs) =>
      (mkResponse 200 true "Education record deleted successfully" NoData,
       with_education st docs)
  | Got (None, _) => (fail 404 "Education record not found", st)
  | Threw => (fail 500 "Error deleting education record", st)
  end.

(** [DELETE /api/projects/:id] *)
Definition project_delete_handler : Handler := fun st c =>
  match Query.findByIdAndDelete Paths.project Project._id (projects st)
          (params_id (req c)) with
  | Got (Some _, docs) =>
      (mkResponse 200 true "Project deleted successfully" NoData,
       with_projects st docs)
  | Got (None, _) => (fail 404 "Project not found", st)
  | Threw => (fail 500 "Error deleting project", st)
  end.

(** [DELETE /api/contact/:id] *)
Definition contact_delete_handler : Handler := fun st c =>
  match Query.findByIdAndDelete Paths.contact Contact._id (contacts st)
          (params_id (req c)) with
  | Got (Some _, docs) =>
      (mkResponse 200 true "Contact deleted successfully" NoData,
       with_contacts st docs)
  | Got (None, _) => (fail 404 "Contact not found", st)
  | Threw => (fail 500 "Error deleting contact", st)
  end.

(** [PUT /api/projects/:id/featured] *)
Definition featured_handler : Handler := fun st c =>
  match Query.findById Paths.project (projects st)
                       (Some (params_id (req c))) with
  | Got (Some p) =>
      let p' := with_featured (negb (Project.isFeatured p)) p in
      (ok (if Project.isFeatured p'
           then "Project featured successfully"
           else "Project unfeatured successfully")
          (ProjectSaved p'),
       with_projects st (Query.save Project._id p' (projects st)))
  | Got None => (fail 404 "Project not found", st)
  | Threw => (fail 500 "Error updating featured status", st)
  end.

Definition education_delete : Store -> Request -> Response * Store :=
  serve [Auth.protect; Auth.adminOnly] education_delete_handler.
Definition project_delete : Store -> Request -> Response * Store :=
  serve [Auth.protect; Auth.adminOnly] project_delete_handler.
Definition contact_delete : Store -> Request -> Response * Store :=
  serve [Auth.protect; Auth.adminOnly] contact_delete_handler.
Definition featured : Store -> Request -> Response * Store :=
  serve [Auth.protect; Auth.adminOnly] featured_handler.

End WithPlatform.
End Admin.

(** ** Virtuals of the models: [duration] and [likeCount] *)

Module Virtuals.

(** Milliseconds in a day: [1000 * 60 * 60 * 24]. *)
Definition day : Z := 1000 * 60 * 60 * 24.

(** [Math.ceil(Math.abs(end - start) / day)], where [end] is
    [this.endDate || new Date()]; exact, as the doubles are for spans up
    to [Number.MAX_SAFE_INTEGER] milliseconds. *)
Definition diffDays (startDate : Z) (endDate : option Z) (today : Z) : Z :=
  let finish := match endDate with Some e => e | None => today end in
  Qceiling (inject_Z (Z.abs (finish - startDate)) / inject_Z day)%Q.

(** [Math.floor(diffDays / 365)] and [Math.floor((diffDays % 365) / 30)] *)
Definition years (days : Z) : Z := days / 365.
Definition months (days : Z) : Z := (days mod 365) / 30.

(** [n > 1 ? 's' : ''] *)
Definition plural (n : Z) : string := if 1 <? n then "s" else "".

Definition months_text (m : Z) : string :=
  (JS.string_of_Z m ++ " month" ++ plural m)%string.

(** The [duration] virtual of the Education model. *)
Definition education_duration (startDate : Z) (endDate : option Z) (today : Z)
  : string :=
  let d := diffDays startDate endDate today in
  let y := years d in
  let m := months d in
  if 0 <? y
  then (JS.string_of_Z y ++ " year" ++ plural y ++ " "
          ++ (if (0 <? m)%Z then months_text m else ""))%string
  else months_text m.

(** The [duration] virtual of the Project model. *)
Definition project_duration (startDate : Z) (endDate : option Z) (today : Z)
  : string :=
  let d := diffDays startDate endDate today in
  let y := years d in
  let m := months d in
  if 0 <? y
  then (JS.string_of_Z y ++ " year" ++ plural y ++ " "
          ++ (if (0 <? m)%Z then months_text m else ""))%string
  else if 0 <? m then months_text m
  else (JS.string_of_Z d ++ " day" ++ plural d)%string.

(** The [likeCount] virtual of the Project model. *)
Definition likeCount (p : Project.t) : nat := List.length (Project.likes p).

End Virtuals.

(** ** Further notions of the statements *)

(** [?key=value] put in front of a query string. *)
Definition with_param (key value : string) (r : Request) : Request :=
  mkRequest (cookies_token r) (headers_authorization r) (params_id r)
            ((key, value) :: query r) (body r) (ip r) (now r).

Definition contacts_in (d : Payload) : list Contact.t :=
  match d with
  | ContactList l _ _ => l
  | _ => []
  end.

(** The [statusCounts] or [roleCounts] object of a list response. *)
Definition counts_in (d : Payload) : list (string * nat) :=
  match d with
  | ContactList _ _ counts | UserList _ _ counts => counts
  | _ => []
  end.

(** How many documents have a given key. *)
Definition tally {A : Type} (key : A -> string) (k : string) (docs : list A) : nat :=
  List.length (List.filter (fun d => String.eqb (key d) k) docs).

(** No two neighbours of a list are out of order for a sort object. *)
Fixpoint ordered `{Platform} {A : Type} (get : string -> A -> Mongo.field)
         (spec : Mongo.sort_spec) (l : list A) : Prop :=
  match l with
  | x :: ((y :: _) as rest) =>
      Query.compareBy get spec x y <> Gt /\ ordered get spec rest
  | _ => True
  end.

(** An ordering of field values that reads the same from both sides. *)
Definition antisymmetric `{Platform} : Prop :=
  forall a b, compareValues a b = CompOpp (compareValues b a).

(** A cursor that takes whole numbers as the store documents them: a
    non-negative [skip] skips that many, a positive [limit] caps at that
    many. *)
Definition whole_cursor `{Platform} : Prop :=
  (forall k, 0 <= k -> cursorSkip (JS.of_Z k) = Some (Z.to_nat k))
  /\ (forall n, 0 < n -> cursorLimit (JS.of_Z n) = Some (Some (Z.to_nat n))).

(** The text of a stored ObjectId, which is also what a token carries: 24
    hexadecimal digits in lower case.  The lookups compare ids as text;
    on ids written this way that is the comparison of the ObjectIds they
    are cast to. *)
Definition lower_hex (c : ascii) : bool :=
  let n := nat_of_ascii c in
  ((48 <=? n) && (n <=? 57) || (97 <=? n) && (n <=? 102))%nat.

Definition canonical_id (id : string) : bool :=
  (String.length id =? 24)%nat && ContactRoutes.all_chars lower_hex id.

(** The scalar paths of the schemas that the documents of the store carry;
    a sort on any other path is not covered. *)
Definition education_paths : list string :=
  ["_id"; "institution"; "degree"; "fieldOfStudy"; "startDate"; "type";
   "isVisible"; "sortOrder"; "createdBy"; "createdAt"].

Definition project_paths : list string :=
  ["_id"; "title"; "description"; "category"; "status"; "isVisible";
   "isFeatured"; "sortOrder"; "views"; "createdBy"; "createdAt"].

Definition contact_paths : list string :=
  ["_id"; "name"; "email"; "subject"; "message"; "status"; "priority";
   "createdAt"].

(** [sortBy] is omitted or names one of the given paths. *)
Definition sorts_on (paths : list string) (q : list (string * string)) : bool :=
  match lookup "sortBy" q with
  | None => true
  | Some s => existsb (String.eqb s) paths
  end.

(** No two documents of a list tie for a sort object: the sort then has
    one result, the same in every query. *)
Definition untied `{Platform} {A : Type} (get : string -> A -> Mongo.field)
           (spec : Mongo.sort_spec) (docs : list A) : Prop :=
  ForallOrdPairs (fun x y => Query.compareBy get spec x y <> Eq) docs.

(** Text of ASCII characters only: its length in characters is the length
    of the string, and the white space [JS.trim] strips is all the white
    space there is. *)
Definition ascii_text (s : string) : bool :=
  ContactRoutes.all_chars (fun c => (nat_of_ascii c <? 128)%nat) s.

(** A JSON body as [lookup] and the validators read it: every key once,
    strings in ASCII, numbers within [max_safe_integer] (which [String]
    prints digit by digit). *)
Definition plain_body (b : list (string * JS.value)) : bool :=
  distinct (map fst b)
  && forallb (fun kv => match snd kv with
                        | JS.VStr s => ascii_text s
                        | JS.VNum z => Z.abs z <=? max_safe_integer
                        | _ => true
                        end) b.

(** Two project documents that differ at most in their [likes]. *)
Definition same_but_likes (p q : Project.t) : Prop :=
  Project._id q = Project._id p
  /\ Project.title q = Project.title p
  /\ Project.description q = Project.description p
  /\ Project.category q = Project.category p
  /\ Project.status q = Project.status p
  /\ Project.technologies q = Project.technologies p
  /\ Project.tags q = Project.tags p
  /\ Project.isVisible q = Project.isVisible p
  /\ Project.isFeatured q = Project.isFeatured p
  /\ Project.sortOrder q = Project.sortOrder p
  /\ Project.views q = Project.views p
  /\ Project.createdBy q = Project.createdBy p
  /\ Project.createdAt q = Project.createdAt p.

(** The lengths the contact form lets through. *)
Definition within (lo hi : nat) (s : string) : Prop :=
  (lo <= String.length s <= hi)%nat.

(** One document with the given [_id] has gone from a collection: there is
    one document fewer, every other [_id] is looked up as before, and when
    ids are unique the [_id] is no longer found. *)
Definition removed_one {A : Type} (id_of : A -> ObjectId) (id : ObjectId)
           (before after : list A) : Prop :=
  S (List.length after) = List.length before
  /\ (forall id', id' <> id ->
        List.find (has_id id_of id') after = List.find (has_id id_of id') before)
  /\ (NoDup (map id_of before) -> List.find (has_id id_of id) after = None).

Definition stored_contact (st : Store) (id : ObjectId) : option Contact.t :=
  List.find (fun c => String.eqb (Contact._id c) id) (contacts st).

(** Every stored user has one of the two roles. *)
Definition roles_valid (st : Store) : Prop :=
  forall u, In u (users st) -> User.role u = "user" \/ User.role u = "admin".

(** * Properties *)

Example parseInt_25 : JS.parseInt "2.5" = JS.of_Z 2. Proof. reflexivity. Qed.
Example toNumber_25 : JS.toNumber "2.5" = JS.Fin (5 # 2)%Q.
Proof. vm_compute. reflexivity. Qed.
Example toNumber_1e1 : JS.toNumber "1e1" = JS.of_Z 10.
Proof. vm_compute. reflexivity. Qed.
Example toNumber_junk : JS.toNumber "10abc" = JS.NaN.
Proof. vm_compute. reflexivity. Qed.
Example toNumber_hex : JS.toNumber " 0x1F " = JS.of_Z 31.
Proof. vm_compute. reflexivity. Qed.
Example parseInt_junk : JS.parseInt "10abc" = JS.of_Z 10.
Proof. vm_compute. reflexivity. Qed.
Example split_bearer : JS.split " " "Bearer abc" = ["Bearer"; "abc"].
Proof. reflexivity. Qed.
Example trim_ex : JS.trim "  a b  " = "a b".
Proof. reflexivity. Qed.

Example sample_admin_passes :
  principal (H := Sample.platform) Sample.store (Sample.as_admin Sample.blank)
  = Some (Auth.select_without_password Sample.the_admin).
Proof. vm_compute. reflexivity. Qed.

Example sample_contacts_limit :
  option_map (fun p => (total p, pages p, limit p))
    (pagination_in (data (fst (ContactRoutes.list (H := Sample.platform) Sample.store
       (Sample.asking [("limit", "2.5")] (Sample.as_admin Sample.blank))))))
  = Some (5%nat, JS.of_Z 2, JS.of_Z 2).
Proof. vm_compute. reflexivity. Qed.

(** ** Token extraction *)

Lemma truthy_string_some (c : string) :
  c <> "" -> JS.truthy_string (Some c) = true.
Proof.
  intros Hc. unfold JS.truthy_string.
  destruct (String.eqb_spec c ""); [contradiction | reflexivity].
Qed.

Lemma truthy_string_true (t : option string) :
  JS.truthy_string t = true -> exists c, t = Some c /\ c <> "".
Proof.
  destruct t as [c|]; simpl; [|discriminate].
  destruct (String.eqb_spec c ""); [discriminate|].
  intros _. exists c. split; [reflexivity | assumption].
Qed.




(** ** The two authentication middlewares *)

Section Middlewares.
Context `{Platform}.

Lemma protect_token (st : Store) (c : Context) (t : string) :
  Auth.token_of (req c) = Some t -> t <> "" ->
  Auth.protect st c = protect_with st c t.
Proof.
  intros Ht Hne. unfold Auth.protect, protect_with.
  rewrite Ht, (truthy_string_some t Hne). simpl. reflexivity.
Qed.

Lemma protect_no_token (st : Store) (c : Context) :
  JS.truthy_string (Auth.token_of (req c)) = false ->
  Auth.protect st c = Done (fail 401 "Access denied. No token provided.").
Proof.
  intros Ht. unfold Auth.protect. rewrite Ht. reflexivity.
Qed.

Lemma optional_token (st : Store) (c : Context) (t : string) :
  Auth.token_of (req c) = Some t -> t <> "" ->
  Auth.optionalAuth st c = optional_with st c t.
Proof.
  intros Ht Hne. unfold Auth.optionalAuth, optional_with.
  rewrite Ht, (truthy_string_some t Hne).
  destruct (verifyToken t); reflexivity.
Qed.

Lemma optional_no_token (st : Store) (c : Context) :
  JS.truthy_string (Auth.token_of (req c)) = false ->
  Auth.optionalAuth st c = Next c.
Proof.
  intros Ht. unfold Auth.optionalAuth. rewrite Ht. reflexivity.
Qed.

(** [optionalAuth] never answers the request itself. *)
Lemma optional_always_next (st : Store) (c : Context) :
  exists c', Auth.optionalAuth st c = Next c' /\ req c' = req c.
Proof.
  unfold Auth.optionalAuth.
  destruct (JS.truthy_string (Auth.token_of (req c))); [|eauto].
  destruct (Auth.token_of (req c)) as [t|]; [|eauto].
  destruct (verifyToken t); eauto.
  destruct (Auth.findUserById st id) as [|[u|]]; eauto.
  destruct (User.isActive u); eauto.
Qed.

(** Both middlewares read only the users of the store. *)
Lemma findUserById_users (st st' : Store) (id : option string) :
  users st' = users st -> Auth.findUserById st' id = Auth.findUserById st id.
Proof. intros E. unfold Auth.findUserById. rewrite E. reflexivity. Qed.

Lemma protect_users (st st' : Store) (c : Context) :
  users st' = users st -> Auth.protect st' c = Auth.protect st c.
Proof.
  intros E. unfold Auth.protect.
  destruct (negb (JS.truthy_string (Auth.token_of (req c)))); [reflexivity|].
  destruct (Auth.token_of (req c)) as [t|]; [|reflexivity].
  destruct (verifyToken t); try reflexivity.
  rewrite (findUserById_users st st' id E). reflexivity.
Qed.

(** The principal either middleware attaches comes out of
    [select('-password')]. *)
Lemma findUserById_projected (st : Store) (id : option string) (u : User.t) :
  Auth.findUserById st id = Mongo.Got (Some u) -> User.password u = None.
Proof.
  unfold Auth.findUserById.
  destruct (Query.findById Paths.user (users st) id) as [|[v|]];
    simpl; intros E; inversion E; reflexivity.
Qed.



End Middlewares.



(** ** Requests without a valid token *)

Lemma protect_rejects `{Platform} (st : Store) (r : Request) :
  lacks_valid_token st r ->
  exists res, Auth.protect st (mkContext r None) = Done res /\ status res = 401%nat.
Proof.
  intros [Hn | (t & Ht & Hne & Hv)].
  - rewrite (protect_no_token st (mkContext r None) Hn). eauto.
  - rewrite (protect_token st (mkContext r None) t Ht Hne). unfold protect_with.
    destruct Hv as [E | [E | (id & E & Hu)]]; rewrite E; eauto.
    destruct Hu as [E' | [E' | (u & E' & Ha)]]; rewrite E'; eauto.
    rewrite Ha. simpl. eauto.
Qed.

(** C2: on any route whose first middleware is [protect], a request with no
    token, with a token that fails verification, or with a token whose
    principal is missing or deactivated is answered 401, and the store
    is left as it was: neither the later middlewares nor the handler run. *)
Theorem unauthenticated_is_401 `{Platform}
        (rest : list Middleware) (h : Handler) (st : Store) (r : Request) :
  lacks_valid_token st r ->
  status (fst (serve (Auth.protect :: rest) h st r)) = 401%nat
  /\ snd (serve (Auth.protect :: rest) h st r) = st.
Proof.
  intros L. destruct (protect_rejects st r L) as (res & E & S401).
  unfold serve. simpl. rewrite E. simpl. split; [exact S401 | reflexivity].
Qed.

Lemma unauthenticated_is_401_witness :
  status (fst (UserRoutes.delete (H := Sample.platform) Sample.store
                 (Sample.on Sample.visitor_id
                    (with_cookie (Some "expired") Sample.blank)))) = 401%nat
  /\ snd (UserRoutes.delete (H := Sample.platform) Sample.store
            (Sample.on Sample.visitor_id
               (with_cookie (Some "expired") Sample.blank))) = Sample.store.
Proof.
  apply (unauthenticated_is_401 (H := Sample.platform)
           [Auth.adminOnly] UserRoutes.delete_handler).
  right. exists "expired". split; [reflexivity|].
  split; [discriminate|]. left. reflexivity.
Defined.

(** C6, as amended: a token that fails verification gets the same answer
    whether it is expired or malformed.  [protect] answers 401 with the one
    message; [optionalAuth] does not reject: it calls [next()] with no
    principal attached. *)
Theorem failed_token_handling `{Platform} (st : Store) (r : Request) (t : string) :
  Auth.token_of r = Some t -> t <> "" ->
  verifyToken t = TokenExpired \/ verifyToken t = TokenMalformed ->
  Auth.protect st (mkContext r None)
  = Done (mkResponse 401 false "Token is invalid or expired." NoData)
  /\ Auth.optionalAuth st (mkContext r None) = Next (mkContext r None).
Proof.
  intros Ht Hne Hv.
  rewrite (protect_token st (mkContext r None) t Ht Hne),
    (optional_token st (mkContext r None) t Ht Hne).
  unfold protect_with, optional_with.
  destruct Hv as [E | E]; rewrite E; split; reflexivity.
Qed.

Lemma failed_token_handling_witness :
  Auth.protect (H := Sample.platform) Sample.store
    (mkContext (with_cookie (Some "not-a-token") Sample.blank) None)
  = Done (mkResponse 401 false "Token is invalid or expired." NoData)
  /\ Auth.optionalAuth (H := Sample.platform) Sample.store
       (mkContext (with_cookie (Some "not-a-token") Sample.blank) None)
     = Next (mkContext (with_cookie (Some "not-a-token") Sample.blank) None).
Proof.
  apply (failed_token_handling (H := Sample.platform) Sample.store
           (with_cookie (Some "not-a-token") Sample.blank) "not-a-token").
  - reflexivity.
  - discriminate.
  - right. reflexivity.
Defined.

(** C6 as stated fails: with an expired token in the cookie, [optionalAuth]
    does not reject the request, and the public list behind it answers 200. *)
Lemma optionalAuth_does_not_reject :
  verifyToken (Platform := Sample.platform) "expired" = TokenExpired
  /\ Auth.token_of (with_cookie (Some "expired") Sample.blank) = Some "expired"
  /\ (~ exists res,
        Auth.optionalAuth (H := Sample.platform) Sample.store
          (mkContext (with_cookie (Some "expired") Sample.blank) None) = Done res)
  /\ status (fst (EducationRoutes.list (H := Sample.platform) Sample.store
                    (with_cookie (Some "expired") Sample.blank))) = 200%nat.
Proof.
  split; [reflexivity|]. split; [reflexivity|]. split.
  - intros [res E]. vm_compute in E. discriminate E.
  - vm_compute. reflexivity.
Qed.

(** ** Queries *)

Lemma assign_in (key : string) (v : JS.value) (l : list (string * JS.value)) :
  In (key, v) (Mongo.assign key v l).
Proof.
  induction l as [|[k w] l IH]; simpl; [left; reflexivity|].
  destruct (String.eqb_spec k key) as [->|]; simpl; auto.
Qed.

Lemma assign_keeps (key k : string) (v w : JS.value) (l : list (string * JS.value)) :
  k <> key -> In (k, w) l -> In (k, w) (Mongo.assign key v l).
Proof.
  intros Hk. induction l as [|[k' w'] l IH]; simpl; [tauto|].
  intros [E | I].
  - inversion E; subst. destruct (String.eqb_spec k key); [contradiction|].
    left; reflexivity.
  - destruct (String.eqb_spec k' key); simpl; auto.
Qed.


Lemma skipn_in {A : Type} (k : nat) (l : list A) (x : A) :
  In x (skipn k l) -> In x l.
Proof.
  revert l. induction k as [|k IH]; intros [|y l]; simpl; auto.
Qed.

Lemma firstn_in {A : Type} (k : nat) (l : list A) (x : A) :
  In x (firstn k l) -> In x l.
Proof.
  revert l. induction k as [|k IH]; intros [|y l]; simpl; try tauto.
  intros [E | I]; auto.
Qed.

Section QueryFacts.
Context `{Platform}.
Context {A : Type}.
Variable get : string -> A -> Mongo.field.

Lemma insert_in (spec : Mongo.sort_spec) (x y : A) (l : list A) :
  In x (Query.insert get spec y l) -> x = y \/ In x l.
Proof.
  induction l as [|z l IH]; simpl.
  - intros [E | []]; auto.
  - destruct (Query.compareBy get spec y z); simpl; intros [E | I]; auto.
    destruct (IH I); auto.
Qed.

Lemma sortDocs_in (spec : Mongo.sort_spec) (x : A) (l : list A) :
  In x (Query.sortDocs get spec l) -> In x l.
Proof.
  unfold Query.sortDocs. induction l as [|y l IH]; simpl; [tauto|].
  intros I. destruct (insert_in spec x y _ I); auto.
Qed.

Lemma window_in (skip limit : option JS.num) (l l' : list A) (x : A) :
  Query.window skip limit l = Mongo.Got l' -> In x l' -> In x l.
Proof.
  unfold Query.window. intros E I.
  assert (S : forall l1,
             match limit with
             | None => Mongo.Got l1
             | Some n => match cursorLimit n with
                         | Some (Some k) => Mongo.Got (firstn k l1)
                         | Some None => Mongo.Got l1
                         | None => Mongo.Threw
                         end
             end = Mongo.Got l' -> In x l1).
  { intros l1 E1. destruct limit as [n|].
    - destruct (cursorLimit n) as [[k|]|]; inversion E1; subst; auto.
      eapply firstn_in; eauto.
    - inversion E1; subst; auto. }
  destruct skip as [n|].
  - destruct (cursorSkip n) as [k|]; [|discriminate].
    eapply skipn_in. apply S. exact E.
  - apply S. exact E.
Qed.

(** Every document a [find] returns is in the collection and satisfies the
    filter. *)
Lemma find_sound (docs : list A) (f : Mongo.filter) (spec : Mongo.sort_spec)
      (skip limit : option JS.num) (l : list A) (x : A) :
  Query.find get docs f spec skip limit = Mongo.Got l -> In x l ->
  In x docs /\ Query.conds_hold get f x = true.
Proof.
  unfold Query.find. destruct (Query.compile get f) as [|p] eqn:C; [discriminate|].
  intros E I. apply (window_in _ _ _ _ _ E) in I. apply sortDocs_in in I.
  apply filter_In in I. destruct I as [I P]. split; [exact I|].
  unfold Query.compile in C.
  destruct (existsb _ (Mongo.conds f)); [discriminate|].
  destruct (Mongo.search f) as [[paths pattern]|].
  - destruct (regexp pattern); inversion C; subst.
    apply andb_prop in P. tauto.
  - inversion C; subst. exact P.
Qed.

Lemma findOne_sound (docs : list A) (f : Mongo.filter) (x : A) :
  Query.findOne get docs f = Mongo.Got (Some x) ->
  In x docs /\ Query.conds_hold get f x = true.
Proof.
  unfold Query.findOne. destruct (Query.compile get f) as [|p] eqn:C; [discriminate|].
  intros E. inversion E as [F]. apply find_some in F. destruct F as [I P].
  split; [exact I|].
  unfold Query.compile in C.
  destruct (existsb _ (Mongo.conds f)); [discriminate|].
  destruct (Mongo.search f) as [[paths pattern]|].
  - destruct (regexp pattern); inversion C; subst.
    apply andb_prop in P. tauto.
  - inversion C; subst. exact P.
Qed.

Lemma conds_hold_in (f : Mongo.filter) (x : A) (k : string) (v : JS.value) :
  Query.conds_hold get f x = true -> In (k, v) (Mongo.conds f) ->
  Mongo.holds (get k x) v = true.
Proof.
  unfold Query.conds_hold. rewrite forallb_forall. intros F I.
  exact (F (k, v) I).
Qed.

End QueryFacts.

(** ** How the routes build their filters *)

Lemma set_if_given_keeps (key k : string) (p : option string) (w : JS.value)
      (f : Mongo.filter) :
  k <> key -> In (k, w) (Mongo.conds f) ->
  In (k, w) (Mongo.conds (Routes.set_if_given key p f)).
Proof.
  intros Hk I. unfold Routes.set_if_given.
  destruct p as [s|]; [|exact I].
  destruct (String.eqb s ""); [exact I|].
  simpl. apply assign_keeps; assumption.
Qed.

Lemma set_flag_if_defined_keeps (key k : string) (p : option string) (w : JS.value)
      (f : Mongo.filter) :
  k <> key -> In (k, w) (Mongo.conds f) ->
  In (k, w) (Mongo.conds (Routes.set_flag_if_defined key p f)).
Proof.
  intros Hk I. unfold Routes.set_flag_if_defined.
  destruct p as [s|]; [|exact I].
  simpl. apply assign_keeps; assumption.
Qed.

Lemma search_if_given_conds (paths : list string) (p : option string)
      (f : Mongo.filter) :
  Mongo.conds (Routes.search_if_given paths p f) = Mongo.conds f.
Proof.
  unfold Routes.search_if_given. destruct p as [s|]; [|reflexivity].
  destruct (String.eqb s ""); reflexivity.
Qed.



Lemma holds_flag_true (b : bool) :
  Mongo.holds (Paths.flag b) (JS.VBool true) = true -> b = true.
Proof. destruct b; simpl; [reflexivity | discriminate]. Qed.

Lemma map_doc_populated {A : Type} (f : A -> Populated A) (l : list A) :
  (forall x, doc (f x) = x) -> map doc (map f l) = l.
Proof.
  intros Hf. induction l as [|x l IH]; simpl; [reflexivity|].
  rewrite Hf, IH. reflexivity.
Qed.

Section Visibility.
Context `{Platform}.








(** The context a handler behind [optionalAuth] runs in. *)
Lemma behind_optionalAuth (h : Handler) (st : Store) (r : Request) :
  serve [Auth.optionalAuth] h st r = h st (mkContext r (caller st r)).
Proof.
  destruct (optional_always_next st (mkContext r None)) as (c & E & R).
  unfold serve, caller. simpl. rewrite E. destruct c as [r' u]. simpl in *.
  subst. reflexivity.
Qed.

End Visibility.

(** ** Filters that do not look at [isVisible] *)




Section Blind.
Context `{Platform}.
Context {A : Type}.
Variable get : string -> A -> Mongo.field.


End Blind.

Section AdminReads.
Context `{Platform}.











End AdminReads.



(** ** User objects leave without the credential hash *)

Lemma select_without_password_none (u : User.t) :
  User.password (Auth.select_without_password u) = None.
Proof. reflexivity. Qed.

Section Passwords.
Context `{Platform}.

Lemma protect_attaches_projected (st : Store) (c c' : Context) (u : User.t) :
  user c = None -> Auth.protect st c = Next c' -> user c' = Some u ->
  User.password u = None.
Proof.
  intros U0. unfold Auth.protect.
  destruct (negb (JS.truthy_string (Auth.token_of (req c)))); [discriminate|].
  destruct (Auth.token_of (req c)) as [t|]; [|discriminate].
  destruct (verifyToken t); try discriminate.
  destruct (Auth.findUserById st id) as [|[v|]] eqn:F; try discriminate.
  destruct (negb (User.isActive v)); [discriminate|].
  intros E U. inversion E; subst. simpl in U. inversion U; subst.
  exact (findUserById_projected st id u F).
Qed.

Lemma optionalAuth_attaches_projected (st : Store) (c c' : Context) (u : User.t) :
  user c = None -> Auth.optionalAuth st c = Next c' -> user c' = Some u ->
  User.password u = None.
Proof.
  intros U0. unfold Auth.optionalAuth.
  assert (Same : Next c = Next c' -> user c' = Some u -> User.password u = None).
  { intros E U. inversion E; subst. congruence. }
  destruct (JS.truthy_string (Auth.token_of (req c))); [|exact Same].
  destruct (Auth.token_of (req c)) as [t|]; [|exact Same].
  destruct (verifyToken t); try exact Same.
  destruct (Auth.findUserById st id) as [|[v|]] eqn:F; try exact Same.
  destruct (User.isActive v); [|exact Same].
  intros E U. inversion E; subst. simpl in U. inversion U; subst.
  exact (findUserById_projected st id u F).
Qed.

(** What [protect] answers carries no data. *)
Lemma protect_done_no_data (st : Store) (c : Context) (res : Response) :
  Auth.protect st c = Done res -> data res = NoData.
Proof.
  unfold Auth.protect.
  destruct (negb (JS.truthy_string (Auth.token_of (req c)))).
  { intros E. inversion E. reflexivity. }
  destruct (Auth.token_of (req c)) as [t|].
  2: { intros E. inversion E. reflexivity. }
  destruct (verifyToken t); try (intros E; inversion E; reflexivity).
  destruct (Auth.findUserById st id) as [|[v|]];
    try (intros E; inversion E; reflexivity).
  destruct (negb (User.isActive v)); intros E; inversion E; reflexivity.
Qed.

(** A refusal by the guards carries no user. *)
Lemma behind_guards (h : Handler) (st : Store) (r : Request) (u : User.t) :
  (forall c, In u (users_in (data (fst (h st c)))) -> User.password u = None) ->
  In u (users_in (data (fst (serve [Auth.protect; Auth.adminOnly] h st r)))) ->
  User.password u = None.
Proof.
  intros Hh. unfold serve. simpl.
  destruct (Auth.protect st (mkContext r None)) as [c|res] eqn:P.
  - unfold Auth.adminOnly. destruct (user c) as [v|]; simpl; [|tauto].
    destruct (String.eqb (User.role v) "admin"); simpl; [apply Hh | tauto].
  - simpl. rewrite (protect_done_no_data _ _ _ P). simpl. tauto.
Qed.

Lemma all_handler_projected (st : Store) (c : Context) (u : User.t) :
  In u (users_in (data (fst (UserRoutes.all_handler st c)))) ->
  User.password u = None.
Proof.
  unfold UserRoutes.all_handler.
  destruct (Query.find _ _ _ _ _ _) as [|docs]; simpl; [tauto|].
  destruct (Query.countDocuments _ _ _); simpl; [tauto|].
  rewrite in_map_iff. intros (v & <- & _). reflexivity.
Qed.

Lemma one_handler_projected (st : Store) (c : Context) (u : User.t) :
  In u (users_in (data (fst (UserRoutes.one_handler st c)))) ->
  User.password u = None.
Proof.
  unfold UserRoutes.one_handler.
  destruct (Query.findById _ _ _) as [|[v|]]; simpl; try tauto.
  intros [<- | []]. reflexivity.
Qed.

Lemma role_handler_projected (st : Store) (c : Context) (u : User.t) :
  In u (users_in (data (fst (UserRoutes.role_handler st c)))) ->
  User.password u = None.
Proof.
  unfold UserRoutes.role_handler.
  destruct (Validator.one_of _ _ _ _); simpl; [|tauto].
  destruct (user c) as [me|]; simpl; [|tauto].
  destruct (_ && _); simpl; [tauto|].
  destruct (Query.findByIdAndUpdate _ _ _ _ _) as [|[[v|] docs]]; simpl; try tauto.
  intros [<- | []]. reflexivity.
Qed.

Lemma status_handler_projected (st : Store) (c : Context) (u : User.t) :
  In u (users_in (data (fst (UserRoutes.status_handler st c)))) ->
  User.password u = None.
Proof.
  unfold UserRoutes.status_handler.
  destruct (Validator.boolean _ _ _); simpl; [|tauto].
  destruct (user c) as [me|]; simpl; [|tauto].
  destruct (_ && _); simpl; [tauto|].
  destruct (option_map UserRoutes.castBoolean _) as [[b|]|]; simpl; try tauto.
  destruct (Query.findByIdAndUpdate _ _ _ _ _) as [|[[v|] docs]]; simpl; try tauto.
  intros [<- | []]. reflexivity.
Qed.

Lemma delete_handler_projected (st : Store) (c : Context) (u : User.t) :
  In u (users_in (data (fst (UserRoutes.delete_handler st c)))) ->
  User.password u = None.
Proof.
  unfold UserRoutes.delete_handler.
  destruct (user c) as [me|]; simpl; [|tauto].
  destruct (String.eqb _ _); simpl; [tauto|].
  destruct (Query.findByIdAndDelete _ _ _ _) as [|[[v|] docs]]; simpl; tauto.
Qed.

End Passwords.

(** C10: the principal either middleware attaches to the request, and every
    user object in a response of the user routes (list, get-by-id, role and
    status updates, delete), has no [password] field: each comes out of
    [select('-password')]. *)
Theorem users_leave_without_password `{Platform} (st : Store) (r : Request)
        (u : User.t) :
  (principal st r = Some u \/ caller st r = Some u
   \/ In u (users_in (data (fst (UserRoutes.all st r))))
   \/ In u (users_in (data (fst (UserRoutes.one st r))))
   \/ In u (users_in (data (fst (UserRoutes.role st r))))
   \/ In u (users_in (data (fst (UserRoutes.status st r))))
   \/ In u (users_in (data (fst (UserRoutes.delete st r))))) ->
  User.password u = None.
Proof.
  intros [P | [C | [I | [I | [I | [I | I]]]]]].
  - unfold principal in P.
    destruct (Auth.protect st (mkContext r None)) as [c|] eqn:E; [|discriminate].
    exact (protect_attaches_projected st (mkContext r None) c u eq_refl E P).
  - unfold caller in C.
    destruct (Auth.optionalAuth st (mkContext r None)) as [c|] eqn:E; [|discriminate].
    exact (optionalAuth_attaches_projected st (mkContext r None) c u eq_refl E C).
  - apply (behind_guards UserRoutes.all_handler st r u); [|exact I].
    intros c. apply all_handler_projected.
  - apply (behind_guards UserRoutes.one_handler st r u); [|exact I].
    intros c. apply one_handler_projected.
  - apply (behind_guards UserRoutes.role_handler st r u); [|exact I].
    intros c. apply role_handler_projected.
  - apply (behind_guards UserRoutes.status_handler st r u); [|exact I].
    intros c. apply status_handler_projected.
  - apply (behind_guards UserRoutes.delete_handler st r u); [|exact I].
    intros c. apply delete_handler_projected.
Qed.

Lemma users_leave_without_password_witness :
  users_in (data (fst (UserRoutes.one (H := Sample.platform) Sample.store
              (Sample.on Sample.visitor_id (Sample.as_admin Sample.blank)))))
  = [Auth.select_without_password Sample.the_visitor]
  /\ User.password Sample.the_visitor = Some "$2a$12$hash-v"
  /\ User.password (Auth.select_without_password Sample.the_visitor) = None.
Proof.
  split; [vm_compute; reflexivity|]. split; [reflexivity|].
  apply (users_leave_without_password (H := Sample.platform) Sample.store
           (Sample.on Sample.visitor_id (Sample.as_admin Sample.blank))).
  right. right. right. left. vm_compute. left. reflexivity.
Defined.

(** ** Looking a document up by id and saving it back *)

Lemma find_ext {A : Type} (p q : A -> bool) (l : list A) :
  (forall x, p x = q x) -> List.find p l = List.find q l.
Proof.
  intros E. induction l as [|x l IH]; simpl; [reflexivity|].
  rewrite E, IH. reflexivity.
Qed.

Section ById.
Context `{Platform}.
Context {A : Type}.
Variable get : string -> A -> Mongo.field.
Variable id_of : A -> ObjectId.
Hypothesis get_id : forall x, get "_id" x = Paths.str (id_of x).

Lemma findById_find (docs : list A) (id : string) :
  isObjectId id = true ->
  Query.findById get docs (Some id) = Mongo.Got (List.find (has_id id_of id) docs).
Proof.
  intros V. unfold Query.findById, Query.findOne, Query.compile. simpl.
  rewrite V. simpl. f_equal. apply find_ext. intros x.
  unfold Query.conds_hold. simpl. rewrite get_id. simpl.
  rewrite andb_true_r. reflexivity.
Qed.

Lemma findById_threw (docs : list A) (id : string) :
  isObjectId id = false -> Query.findById get docs (Some id) = Mongo.Threw.
Proof.
  intros V. unfold Query.findById, Query.findOne, Query.compile. simpl.
  rewrite V. reflexivity.
Qed.

Lemma find_has_id (docs : list A) (id : ObjectId) (x : A) :
  List.find (has_id id_of id) docs = Some x -> id_of x = id.
Proof.
  intros F. apply find_some in F. destruct F as [_ E].
  apply String.eqb_eq. exact E.
Qed.

Lemma find_save (docs : list A) (id : ObjectId) (x y : A) :
  List.find (has_id id_of id) docs = Some x -> id_of y = id ->
  List.find (has_id id_of id) (Query.save id_of y docs) = Some y.
Proof.
  intros F Y. induction docs as [|z docs IH]; simpl in *; [discriminate|].
  unfold has_id in *. rewrite Y.
  destruct (String.eqb (id_of z) id) eqn:E; simpl.
  - rewrite Y, String.eqb_refl. reflexivity.
  - rewrite E. apply IH. exact F.
Qed.

Lemma save_found (docs : list A) (id : ObjectId) (x : A) :
  List.find (has_id id_of id) docs = Some x -> Query.save id_of x docs = docs.
Proof.
  intros F. pose proof (find_has_id docs id x F) as X.
  induction docs as [|z docs IH]; simpl in *; [reflexivity|].
  unfold has_id in *. rewrite X.
  destruct (String.eqb (id_of z) id) eqn:E.
  - inversion F; subst. reflexivity.
  - f_equal. apply IH. exact F.
Qed.

Lemma save_save (docs : list A) (id : ObjectId) (x y z : A) :
  List.find (has_id id_of id) docs = Some x -> id_of y = id -> id_of z = id ->
  Query.save id_of z (Query.save id_of y docs) = Query.save id_of z docs.
Proof.
  intros F Y Z. induction docs as [|w docs IH]; simpl in *; [discriminate|].
  unfold has_id in *. rewrite Y, Z.
  destruct (String.eqb (id_of w) id) eqn:E; simpl.
  - rewrite Y, Z, String.eqb_refl. reflexivity.
  - rewrite Z, E. f_equal. apply IH. exact F.
Qed.

End ById.

Section Guards.
Context `{Platform}.

(** [protect] passes the request on unchanged, with the principal. *)
Lemma principal_protect (st : Store) (r : Request) (a : User.t) :
  principal st r = Some a ->
  Auth.protect st (mkContext r None) = Next (mkContext r (Some a))
  /\ User.isActive a = true.
Proof.
  unfold principal, Auth.protect. simpl.
  destruct (negb (JS.truthy_string (Auth.token_of r))); [discriminate|].
  destruct (Auth.token_of r) as [t|]; [|discriminate].
  destruct (verifyToken t); try discriminate.
  destruct (Auth.findUserById st id) as [|[v|]]; try discriminate.
  destruct (User.isActive v) eqn:Act; simpl; [|discriminate].
  intros E. inversion E; subst. auto.
Qed.

(** The context a handler behind [protect] and [adminOnly] runs in, for
    an admin. *)
Lemma behind_admin_guards (h : Handler) (st : Store) (r : Request) (a : User.t) :
  principal st r = Some a -> User.role a = "admin" ->
  serve [Auth.protect; Auth.adminOnly] h st r = h st (mkContext r (Some a)).
Proof.
  intros P R. destruct (principal_protect st r a P) as [E _].
  unfold serve. simpl. rewrite E. unfold Auth.adminOnly. simpl.
  rewrite R. reflexivity.
Qed.

Lemma behind_protect (h : Handler) (st : Store) (r : Request) (a : User.t) :
  principal st r = Some a ->
  serve [Auth.protect] h st r = h st (mkContext r (Some a)).
Proof.
  intros P. destruct (principal_protect st r a P) as [E _].
  unfold serve. simpl. rewrite E. reflexivity.
Qed.

(** The principal depends on the users of the store and not on the clock. *)
Lemma principal_users (st st' : Store) (r : Request) :
  users st' = users st -> principal st' r = principal st r.
Proof.
  intros E. unfold principal. rewrite (protect_users st st' _ E). reflexivity.
Qed.

Lemma principal_at_time (st : Store) (r : Request) (t : Z) :
  principal st (at_time t r) = principal st r.
Proof.
  unfold principal, Auth.protect. simpl.
  change (Auth.token_of (at_time t r)) with (Auth.token_of r).
  destruct (negb (JS.truthy_string (Auth.token_of r))); [reflexivity|].
  destruct (Auth.token_of r) as [tok|]; [|reflexivity].
  destruct (verifyToken tok); try reflexivity.
  destruct (Auth.findUserById st id) as [|[v|]]; try reflexivity.
  destruct (negb (User.isActive v)); reflexivity.
Qed.

End Guards.

(** ** The visibility toggle *)

Lemma toggle_visible_twice (e : Education.t) :
  EducationRoutes.toggle_visible (EducationRoutes.toggle_visible e) = e.
Proof. destruct e. unfold EducationRoutes.toggle_visible. simpl.
       rewrite negb_involutive. reflexivity. Qed.

Lemma with_visible_twice (p : Project.t) :
  ProjectRoutes.with_visible (negb (negb (Project.isVisible p)))
    (ProjectRoutes.with_visible (negb (Project.isVisible p)) p) = p.
Proof. destruct p. unfold ProjectRoutes.with_visible. simpl.
       rewrite negb_involutive. reflexivity. Qed.

Lemma with_education_same (st : Store) : Routes.with_education st (education st) = st.
Proof. destruct st. reflexivity. Qed.

Lemma with_projects_same (st : Store) : Routes.with_projects st (projects st) = st.
Proof. destruct st. reflexivity. Qed.

Section Toggle.
Context `{Platform}.

(** One application by an admin on an existing education record. *)
Lemma education_visibility_step (st : Store) (r : Request) (a : User.t)
      (e : Education.t) :
  principal st r = Some a -> User.role a = "admin" ->
  isObjectId (params_id r) = true ->
  stored_education st (params_id r) = Some e ->
  snd (EducationRoutes.visibility st r)
  = Routes.with_education st
      (Query.save Education._id (EducationRoutes.toggle_visible e) (education st))
  /\ stored_education (snd (EducationRoutes.visibility st r)) (params_id r)
     = Some (EducationRoutes.toggle_visible e).
Proof.
  intros P R V F. unfold EducationRoutes.visibility.
  rewrite (behind_admin_guards _ st r a P R).
  unfold EducationRoutes.visibility_handler.
  cbn [req params_id].
  rewrite (findById_find Paths.education Education._id (fun _ => eq_refl) _ _ V).
  unfold stored_education in F. unfold has_id. rewrite F. simpl.
  split; [reflexivity|].
  unfold stored_education. simpl.
  apply (find_save Education._id _ _ e); [exact F|].
  simpl. exact (find_has_id Education._id _ _ _ F).
Qed.

Lemma project_visibility_step (st : Store) (r : Request) (a : User.t)
      (p : Project.t) :
  principal st r = Some a -> User.role a = "admin" ->
  isObjectId (params_id r) = true ->
  stored_project st (params_id r) = Some p ->
  snd (ProjectRoutes.visibility st r)
  = Routes.with_projects st
      (Query.save Project._id
         (ProjectRoutes.with_visible (negb (Project.isVisible p)) p) (projects st))
  /\ stored_project (snd (ProjectRoutes.visibility st r)) (params_id r)
     = Some (ProjectRoutes.with_visible (negb (Project.isVisible p)) p).
Proof.
  intros P R V F. unfold ProjectRoutes.visibility.
  rewrite (behind_admin_guards _ st r a P R).
  unfold ProjectRoutes.visibility_handler.
  cbn [req params_id].
  rewrite (findById_find Paths.project Project._id (fun _ => eq_refl) _ _ V).
  unfold stored_project in F. unfold has_id. rewrite F. simpl.
  split; [reflexivity|].
  unfold stored_project. simpl.
  apply (find_save Project._id _ _ p); [exact F|].
  simpl. exact (find_has_id Project._id _ _ _ F).
Qed.

End Toggle.

(** C5: for an admin and an existing Education or Project record, one
    [PUT /:id/visibility] stores the negation of [isVisible], and a second
    one brings the store, and with it the field, back to where it was. *)
Theorem visibility_toggle_twice `{Platform} (st : Store) (r : Request) (a : User.t) :
  principal st r = Some a -> User.role a = "admin" ->
  isObjectId (params_id r) = true ->
  (forall e, stored_education st (params_id r) = Some e ->
     option_map Education.isVisible
       (stored_education (snd (EducationRoutes.visibility st r)) (params_id r))
     = Some (negb (Education.isVisible e))
     /\ snd (EducationRoutes.visibility (snd (EducationRoutes.visibility st r)) r)
        = st)
  /\ (forall p, stored_project st (params_id r) = Some p ->
        option_map Project.isVisible
          (stored_project (snd (ProjectRoutes.visibility st r)) (params_id r))
        = Some (negb (Project.isVisible p))
        /\ snd (ProjectRoutes.visibility (snd (ProjectRoutes.visibility st r)) r)
           = st).
Proof.
  intros P R V. split.
  - intros e F.
    destruct (education_visibility_step st r a e P R V F) as [S1 F1].
    split; [rewrite F1; reflexivity|].
    assert (P1 : principal (snd (EducationRoutes.visibility st r)) r = Some a).
    { rewrite <- P. apply principal_users. rewrite S1. reflexivity. }
    destruct (education_visibility_step _ r a _ P1 R V F1) as [S2 _].
    rewrite S2, S1. simpl. rewrite toggle_visible_twice.
    unfold stored_education in F.
    rewrite (save_save Education._id (education st) (params_id r) e
               (EducationRoutes.toggle_visible e) e F
               (find_has_id Education._id _ _ _ F)
               (find_has_id Education._id _ _ _ F)).
    rewrite (save_found Education._id _ _ _ F).
    unfold Routes.with_education. simpl. destruct st; reflexivity.
  - intros p F.
    destruct (project_visibility_step st r a p P R V F) as [S1 F1].
    split; [rewrite F1; reflexivity|].
    assert (P1 : principal (snd (ProjectRoutes.visibility st r)) r = Some a).
    { rewrite <- P. apply principal_users. rewrite S1. reflexivity. }
    destruct (project_visibility_step _ r a _ P1 R V F1) as [S2 _].
    rewrite S2, S1. simpl.
    change (Project.isVisible
              (ProjectRoutes.with_visible (negb (Project.isVisible p)) p))
      with (negb (Project.isVisible p)).
    rewrite with_visible_twice.
    unfold stored_project in F.
    rewrite (save_save Project._id (projects st) (params_id r) p
               (ProjectRoutes.with_visible (negb (Project.isVisible p)) p) p F
               (find_has_id Project._id _ _ _ F)
               (find_has_id Project._id _ _ _ F)).
    rewrite (save_found Project._id _ _ _ F).
    unfold Routes.with_projects. simpl. destruct st; reflexivity.
Qed.

Lemma visibility_toggle_twice_witness :
  option_map Education.isVisible
    (stored_education
       (snd (EducationRoutes.visibility (H := Sample.platform) Sample.store
               (Sample.on "64b000000000000000000e02" (Sample.as_admin Sample.blank))))
       "64b000000000000000000e02")
  = Some true
  /\ snd (EducationRoutes.visibility (H := Sample.platform)
            (snd (EducationRoutes.visibility (H := Sample.platform) Sample.store
                    (Sample.on "64b000000000000000000e02"
                       (Sample.as_admin Sample.blank))))
            (Sample.on "64b000000000000000000e02" (Sample.as_admin Sample.blank)))
     = Sample.store.
Proof.
  apply (proj1 (visibility_toggle_twice (H := Sample.platform) Sample.store
                  (Sample.on "64b000000000000000000e02" (Sample.as_admin Sample.blank))
                  (Auth.select_without_password Sample.the_admin)
                  ltac:(vm_compute; reflexivity) eq_refl
                  ltac:(vm_compute; reflexivity))
          Sample.hidden_course).
  vm_compute. reflexivity.
Defined.

(** ** The like toggle *)

Lemma findIndex_none (me : ObjectId) (l : list Like.t) :
  likes_of me l = 0%nat -> ProjectRoutes.findIndex me l = None.
Proof.
  unfold likes_of. induction l as [|k l IH]; simpl; [reflexivity|].
  destruct (String.eqb (Like.userId k) me); simpl; [discriminate|].
  intros E. rewrite (IH E). reflexivity.
Qed.

Lemma findIndex_appended (me : ObjectId) (t : Z) (l : list Like.t) :
  ProjectRoutes.findIndex me l = None ->
  ProjectRoutes.findIndex me (l ++ [Like.mk me t])%list = Some (List.length l).
Proof.
  induction l as [|k l IH]; simpl.
  - rewrite String.eqb_refl. reflexivity.
  - destruct (String.eqb (Like.userId k) me); [discriminate|].
    destruct (ProjectRoutes.findIndex me l); [discriminate|].
    intros _. rewrite (IH eq_refl). reflexivity.
Qed.

Lemma splice1_last (l : list Like.t) (x : Like.t) :
  ProjectRoutes.splice1 (List.length l) (l ++ [x])%list = l.
Proof.
  induction l as [|k l IH]; simpl; [reflexivity|]. rewrite IH. reflexivity.
Qed.

Lemma toggle_like_on (me : ObjectId) (t : Z) (l : list Like.t) :
  ProjectRoutes.findIndex me l = None ->
  ProjectRoutes.toggle_like me t l = (l ++ [Like.mk me t])%list.
Proof. intros E. unfold ProjectRoutes.toggle_like. rewrite E. reflexivity. Qed.

Lemma toggle_like_off (me : ObjectId) (t t' : Z) (l : list Like.t) :
  ProjectRoutes.findIndex me l = None ->
  ProjectRoutes.toggle_like me t' (l ++ [Like.mk me t])%list = l.
Proof.
  intros E. unfold ProjectRoutes.toggle_like.
  rewrite (findIndex_appended me t l E). apply splice1_last.
Qed.

Lemma likes_of_appended (me : ObjectId) (t : Z) (l : list Like.t) :
  likes_of me (l ++ [Like.mk me t])%list = S (likes_of me l).
Proof.
  unfold likes_of. rewrite filter_app, length_app. simpl.
  rewrite String.eqb_refl. simpl. lia.
Qed.

Lemma with_likes_same (p : Project.t) :
  ProjectRoutes.with_likes (Project.likes p) p = p.
Proof. destruct p. reflexivity. Qed.

Section Likes.
Context `{Platform}.

(** One invocation by an authenticated principal on an existing project. *)
Lemma like_step (st : Store) (r : Request) (a : User.t) (p : Project.t) :
  principal st r = Some a ->
  isObjectId (params_id r) = true ->
  stored_project st (params_id r) = Some p ->
  snd (ProjectRoutes.like st r)
  = Routes.with_projects st
      (Query.save Project._id
         (ProjectRoutes.with_likes
            (ProjectRoutes.toggle_like (User._id a) (now r) (Project.likes p)) p)
         (projects st)).
Proof.
  intros P V F. unfold ProjectRoutes.like.
  rewrite (behind_protect _ st r a P).
  unfold ProjectRoutes.like_handler. cbn [req params_id user].
  rewrite (findById_find Paths.project Project._id (fun _ => eq_refl) _ _ V).
  unfold stored_project in F. unfold has_id. rewrite F. reflexivity.
Qed.

Variable st : Store.
Variable r : Request.
Variable a : User.t.
Variable p : Project.t.
Hypothesis authenticated : principal st r = Some a.
Hypothesis castable_id : isObjectId (params_id r) = true.
Hypothesis exists_project : stored_project st (params_id r) = Some p.
Hypothesis no_like_yet : likes_of (User._id a) (Project.likes p) = 0%nat.

Lemma like_from_unliked (t : Z) :
  snd (ProjectRoutes.like st (at_time t r)) = liked_at st a p t.
Proof.
  rewrite (like_step st (at_time t r) a p).
  - simpl. rewrite (toggle_like_on _ _ _ (findIndex_none _ _ no_like_yet)).
    reflexivity.
  - rewrite principal_at_time. exact authenticated.
  - exact castable_id.
  - exact exists_project.
Qed.

Lemma like_from_liked (t t' : Z) :
  snd (ProjectRoutes.like (liked_at st a p t) (at_time t' r)) = st.
Proof.
  pose proof exists_project as F. unfold stored_project in F.
  pose proof (find_has_id Project._id _ _ _ F) as I.
  rewrite (like_step (liked_at st a p t) (at_time t' r) a
             (ProjectRoutes.with_likes
                (Project.likes p ++ [Like.mk (User._id a) t])%list p)).
  - simpl. rewrite (toggle_like_off _ _ _ _ (findIndex_none _ _ no_like_yet)).
    change (ProjectRoutes.with_likes (Project.likes p)
              (ProjectRoutes.with_likes
                 (Project.likes p ++ [Like.mk (User._id a) t])%list p))
      with (ProjectRoutes.with_likes (Project.likes p) p).
    rewrite with_likes_same.
    rewrite (save_save Project._id (projects st) (params_id r) p
               (ProjectRoutes.with_likes
                  (Project.likes p ++ [Like.mk (User._id a) t])%list p) p F I I).
    rewrite (save_found Project._id _ _ _ F).
    exact (with_projects_same st).
  - rewrite principal_at_time.
    rewrite (principal_users st (liked_at st a p t) r eq_refl). exact authenticated.
  - exact castable_id.
  - unfold stored_project. simpl.
    apply (find_save Project._id _ _ p); [exact F | exact I].
Qed.

Lemma repeat_like (times : list Z) :
  after st a p (List.length times) (repeat_at ProjectRoutes.like r times st)
  /\ forall t, after st a p (S (List.length times))
                     (repeat_at ProjectRoutes.like r times (liked_at st a p t)).
Proof.
  induction times as [|t' times [IHeven IHodd]].
  - split; [reflexivity|]. intros t. exists t. reflexivity.
  - split.
    + simpl repeat_at. rewrite like_from_unliked. apply IHodd.
    + intros t. simpl repeat_at. rewrite like_from_liked.
      unfold after in *. simpl List.length.
      change (Nat.even (S (S (List.length times))))
        with (Nat.even (List.length times)).
      exact IHeven.
Qed.

Lemma liked_at_count (t : Z) :
  option_map (fun q => likes_of (User._id a) (Project.likes q))
             (stored_project (liked_at st a p t) (params_id r)) = Some 1%nat.
Proof.
  pose proof exists_project as F. unfold stored_project in F.
  pose proof (find_save Project._id (projects st) (params_id r) p
                (ProjectRoutes.with_likes
                   (Project.likes p ++ [Like.mk (User._id a) t])%list p)
                F (find_has_id Project._id _ _ _ F)) as FS.
  unfold has_id in FS.
  unfold stored_project, liked_at, Routes.with_projects. cbn [projects].
  rewrite FS. cbn [option_map ProjectRoutes.with_likes Project.likes].
  rewrite likes_of_appended, no_like_yet. reflexivity.
Qed.

End Likes.

Lemma mod_2_parity (n : nat) :
  (n mod 2 = if Nat.even n then 0 else 1)%nat.
Proof.
  destruct (Nat.even n) eqn:E.
  - apply Nat.even_spec in E. destruct E as [k ->].
    rewrite Nat.mul_comm. apply Nat.Div0.mod_mul.
  - assert (O : Nat.odd n = true) by (rewrite <- Nat.negb_even, E; reflexivity).
    apply Nat.odd_spec in O. destruct O as [k ->].
    replace (2 * k + 1)%nat with (1 + k * 2)%nat by lia.
    rewrite Nat.Div0.mod_add. reflexivity.
Qed.

(** C4: when an authenticated principal with no like on an existing project
    invokes [POST /api/projects/:id/like] N times in a row, the principal's
    entries in the project's [likes] number N mod 2; after an even number of
    invocations, two in particular, the store is the original one. *)
Theorem like_toggles `{Platform} (st : Store) (r : Request) (a : User.t)
        (p : Project.t) (times : list Z) :
  principal st r = Some a ->
  isObjectId (params_id r) = true ->
  stored_project st (params_id r) = Some p ->
  likes_of (User._id a) (Project.likes p) = 0%nat ->
  option_map (fun q => likes_of (User._id a) (Project.likes q))
             (stored_project (repeat_at ProjectRoutes.like r times st) (params_id r))
  = Some (List.length times mod 2)%nat
  /\ (Nat.even (List.length times) = true ->
      repeat_at ProjectRoutes.like r times st = st)
  /\ (forall t1 t2, repeat_at ProjectRoutes.like r [t1; t2] st = st).
Proof.
  intros P V F L.
  assert (Even : forall ts, Nat.even (List.length ts) = true ->
                            repeat_at ProjectRoutes.like r ts st = st).
  { intros ts E. destruct (repeat_like st r a p P V F L ts) as [A _].
    unfold after in A. rewrite E in A. exact A. }
  split; [|split].
  - destruct (repeat_like st r a p P V F L times) as [A _].
    unfold after in A. rewrite mod_2_parity.
    destruct (Nat.even (List.length times)).
    + rewrite A, F. simpl. rewrite L. reflexivity.
    + destruct A as [t ->]. apply (liked_at_count st r a p F L).
  - apply Even.
  - intros t1 t2. apply Even. reflexivity.
Qed.

Lemma like_toggles_witness :
  option_map (fun q => likes_of Sample.visitor_id (Project.likes q))
    (stored_project
       (repeat_at (ProjectRoutes.like (H := Sample.platform))
          (Sample.on "64b000000000000000000b02" (Sample.as_visitor Sample.blank))
          [10; 20; 30] Sample.store)
       "64b000000000000000000b02")
  = Some 1%nat
  /\ List.length
       (Project.likes
          (ProjectRoutes.with_likes
             (ProjectRoutes.toggle_like Sample.visitor_id 10
                (Project.likes Sample.hidden_project))
             Sample.hidden_project)) = 2%nat.
Proof.
  split; [|reflexivity].
  exact (proj1 (like_toggles (H := Sample.platform) Sample.store
                  (Sample.on "64b000000000000000000b02"
                     (Sample.as_visitor Sample.blank))
                  (Auth.select_without_password Sample.the_visitor)
                  Sample.hidden_project [10; 20; 30]
                  ltac:(vm_compute; reflexivity) ltac:(vm_compute; reflexivity)
                  ltac:(vm_compute; reflexivity) ltac:(vm_compute; reflexivity))).
Defined.

(** ** An admin acting on their own account *)

Section Self.
Context `{Platform}.

(** The three guards, on the requests they are written for: the admin's own
    id with [role: 'user'], with [isActive: false], or on delete. *)
Lemma self_demotion_refused (st : Store) (r : Request) (a : User.t) :
  principal st r = Some a -> User.role a = "admin" ->
  params_id r = User._id a ->
  lookup "role" (body r) = Some (JS.VStr "user") ->
  UserRoutes.role st r
  = (fail 400 "You cannot demote yourself from admin role", st).
Proof.
  intros P R I B. unfold UserRoutes.role.
  rewrite (behind_admin_guards _ st r a P R).
  unfold UserRoutes.role_handler. cbn [req user]. rewrite B, I.
  cbn. rewrite String.eqb_refl. reflexivity.
Qed.

Lemma self_deactivation_refused (st : Store) (r : Request) (a : User.t) :
  principal st r = Some a -> User.role a = "admin" ->
  params_id r = User._id a ->
  lookup "isActive" (body r) = Some (JS.VBool false) ->
  UserRoutes.status st r
  = (fail 400 "You cannot deactivate your own account", st).
Proof.
  intros P R I B. unfold UserRoutes.status.
  rewrite (behind_admin_guards _ st r a P R).
  unfold UserRoutes.status_handler. cbn [req user]. rewrite B, I.
  cbn. rewrite String.eqb_refl. reflexivity.
Qed.

Lemma self_deletion_refused (st : Store) (r : Request) (a : User.t) :
  principal st r = Some a -> User.role a = "admin" ->
  params_id r = User._id a ->
  UserRoutes.delete st r = (fail 400 "You cannot delete your own account", st).
Proof.
  intros P R I. unfold UserRoutes.delete.
  rewrite (behind_admin_guards _ st r a P R).
  unfold UserRoutes.delete_handler. cbn [req user]. rewrite I.
  rewrite String.eqb_refl. reflexivity.
Qed.

(** The status guard reads [!isActive]: the string ['false'] passes
    [isBoolean()], is truthy, and is cast to [false] by the update. *)
Lemma self_deactivation_by_string (st : Store) (r : Request) (a u : User.t) :
  principal st r = Some a -> User.role a = "admin" ->
  params_id r = User._id a -> isObjectId (User._id a) = true ->
  stored_user st (User._id a) = Some u ->
  lookup "isActive" (body r) = Some (JS.VStr "false") ->
  fst (UserRoutes.status st r)
  = ok "User activated successfully"
       (UserDoc (Auth.select_without_password (UserRoutes.with_isActive false u)))
  /\ stored_user (snd (UserRoutes.status st r)) (User._id a)
     = Some (UserRoutes.with_isActive false u).
Proof.
  intros P R I V F B. unfold UserRoutes.status.
  rewrite (behind_admin_guards _ st r a P R).
  unfold UserRoutes.status_handler. cbn [req user]. rewrite B, I.
  cbn [Validator.boolean Validator.input JS.toString Validator.isBoolean
       Validator.isIn existsb JS.truthy option_map UserRoutes.castBoolean].
  cbn. rewrite String.eqb_refl. cbn.
  unfold Query.findByIdAndUpdate.
  rewrite (findById_find Paths.user User._id (fun _ => eq_refl) _ _ V).
  unfold stored_user in F. unfold has_id. rewrite F. cbn.
  split; [reflexivity|].
  unfold stored_user. cbn.
  exact (find_save User._id _ _ u (UserRoutes.with_isActive false u) F
           (find_has_id User._id _ _ _ F)).
Qed.

End Self.

(** C3, the status route: the admin of the sample store sends
    [isActive: 'false'] (what a form-encoded body delivers) for their own
    id; the answer is 200 and the stored account is deactivated. *)
Lemma self_deactivation_slips_through :
  principal (H := Sample.platform) Sample.store
    (Sample.sending [("isActive", JS.VStr "false")]
       (Sample.on Sample.admin_id (Sample.as_admin Sample.blank)))
  = Some (Auth.select_without_password Sample.the_admin)
  /\ status (fst (UserRoutes.status (H := Sample.platform) Sample.store
                    (Sample.sending [("isActive", JS.VStr "false")]
                       (Sample.on Sample.admin_id (Sample.as_admin Sample.blank)))))
     = 200%nat
  /\ option_map User.isActive
       (stored_user
          (snd (UserRoutes.status (H := Sample.platform) Sample.store
                  (Sample.sending [("isActive", JS.VStr "false")]
                     (Sample.on Sample.admin_id (Sample.as_admin Sample.blank)))))
          Sample.admin_id)
     = Some false
  /\ option_map User.isActive (stored_user Sample.store Sample.admin_id) = Some true.
Proof. vm_compute. repeat split. Qed.

(** ** The contact form's validators *)

(** C9, as amended: [POST /api/contact] with
    [{name:"Jo", email:"bad", subject:"Hi", message:"short"}] is answered 400
    and the store is untouched; the errors are, in order, the format error
    for [email] and the length errors for [subject] and [message].  There is
    none for [name]: "Jo" has the two characters the validator asks for. *)
Theorem contact_example_errors `{Platform} (st : Store) (r : Request) :
  body r = Sample.short_message ->
  isEmail "bad" = false ->
  ContactRoutes.submit st r
  = (mkResponse 400 false "Validation failed"
       (Errors
          [mkFieldError "email" "Please provide a valid email" (Some (JS.VStr "bad"));
           mkFieldError "subject" "Subject must be between 5 and 200 characters"
                        (Some (JS.VStr "Hi"));
           mkFieldError "message" "Message must be between 10 and 1000 characters"
                        (Some (JS.VStr "short"))]),
     st).
Proof.
  intros B E. unfold ContactRoutes.submit, serve. simpl.
  unfold ContactRoutes.submit_handler. simpl. rewrite B. cbn.
  rewrite E. reflexivity.
Qed.

Lemma contact_example_errors_witness :
  map path
      (errors_in (data (fst (ContactRoutes.submit (H := Sample.platform) Sample.store
                               (Sample.sending Sample.short_message Sample.blank)))))
  = ["email"; "subject"; "message"].
Proof.
  rewrite (contact_example_errors (H := Sample.platform) Sample.store
             (Sample.sending Sample.short_message Sample.blank)
             eq_refl eq_refl).
  reflexivity.
Defined.

(** C9 as stated fails: the response to the example has no error for
    [name]. *)
Lemma contact_example_has_no_name_error :
  status (fst (ContactRoutes.submit (H := Sample.platform) Sample.store
                 (Sample.sending Sample.short_message Sample.blank))) = 400%nat
  /\ ~ exists e,
         In e (errors_in (data (fst (ContactRoutes.submit (H := Sample.platform)
                 Sample.store (Sample.sending Sample.short_message Sample.blank)))))
         /\ path e = "name".
Proof.
  split; [vm_compute; reflexivity|].
  intros (e & I & P). vm_compute in I.
  destruct I as [<- | [<- | [<- | []]]]; discriminate P.
Qed.

(** ** Parameters written in decimal digits *)

Lemma decimal_digit_nothing_else (c : ascii) :
  decimal_digit c = true -> nothing_else c = true.
Proof.
  destruct c as [[] [] [] [] [] [] [] []]; vm_compute; intros E;
    first [reflexivity | discriminate E].
Qed.

Lemma digits_all_decimal (s : string) (acc : Z) (count : nat) (v : Z) (k : nat) :
  JS.digits 10 s acc count = (v, k, EmptyString) -> all_decimal s = true.
Proof.
  revert acc count. induction s as [|c s IH]; intros acc count; simpl.
  - reflexivity.
  - unfold all_decimal. simpl. unfold decimal_digit at 1.
    destruct (JS.digit 10 c) as [d|]; [|discriminate].
    intros E. simpl. exact (IH _ _ E).
Qed.

Lemma trimStart_decimal (s : string) : all_decimal s = true -> JS.trimStart s = s.
Proof.
  destruct s as [|c s]; [reflexivity|]. unfold all_decimal. simpl.
  intros A. apply andb_prop in A. destruct A as [A _].
  apply decimal_digit_nothing_else in A. unfold nothing_else in A.
  destruct (JS.is_space c); [discriminate A | reflexivity].
Qed.

Lemma rev_onto_rev_onto (s acc rest : string) :
  JS.string_rev_onto (JS.string_rev_onto s acc) rest
  = JS.string_rev_onto acc (s ++ rest)%string.
Proof.
  revert acc rest. induction s as [|c s IH]; intros acc rest; simpl.
  - reflexivity.
  - rewrite IH. reflexivity.
Qed.

Lemma string_rev_involutive (s : string) : JS.string_rev (JS.string_rev s) = s.
Proof.
  unfold JS.string_rev. rewrite rev_onto_rev_onto. simpl.
  induction s as [|c s IH]; simpl; [reflexivity|]. rewrite IH. reflexivity.
Qed.

Lemma rev_onto_decimal (s acc : string) :
  all_decimal s = true -> all_decimal acc = true ->
  all_decimal (JS.string_rev_onto s acc) = true.
Proof.
  revert acc. induction s as [|c s IH]; intros acc; simpl; [auto|].
  unfold all_decimal in *. simpl. intros A B.
  apply andb_prop in A. destruct A as [A1 A2].
  apply IH; [exact A2|]. simpl. rewrite A1, B. reflexivity.
Qed.

Lemma trim_decimal (s : string) : all_decimal s = true -> JS.trim s = s.
Proof.
  intros A. unfold JS.trim, JS.trimEnd. rewrite (trimStart_decimal s A).
  rewrite trimStart_decimal.
  - apply string_rev_involutive.
  - unfold JS.string_rev. apply rev_onto_decimal; [exact A | reflexivity].
Qed.

Lemma strip_sign_decimal (s : string) :
  all_decimal s = true -> JS.strip_sign s = (false, s).
Proof.
  destruct s as [|c s]; [reflexivity|]. unfold all_decimal. simpl.
  intros A. apply andb_prop in A. destruct A as [A _].
  apply decimal_digit_nothing_else in A. unfold nothing_else in A.
  destruct (JS.is_space c); [discriminate A|].
  destruct (Ascii.eqb c "-"); [discriminate A|].
  destruct (Ascii.eqb c "+"); [discriminate A | reflexivity].
Qed.

Lemma no_radix_prefix_decimal (s : string) :
  all_decimal s = true ->
  JS.strip_radix_prefix "x" "X" s = None
  /\ JS.strip_radix_prefix "o" "O" s = None
  /\ JS.strip_radix_prefix "b" "B" s = None.
Proof.
  destruct s as [|a [|c s]]; [auto | auto |]. unfold all_decimal. simpl.
  intros A. apply andb_prop in A. destruct A as [_ A].
  apply andb_prop in A. destruct A as [A _].
  apply decimal_digit_nothing_else in A. unfold nothing_else in A.
  destruct (JS.is_space c); [discriminate A|].
  destruct (Ascii.eqb c "-"); [discriminate A|].
  destruct (Ascii.eqb c "+"); [discriminate A|].
  destruct (Ascii.eqb c "x" || Ascii.eqb c "X"); [discriminate A|].
  destruct (Ascii.eqb c "o" || Ascii.eqb c "O"); [discriminate A|].
  destruct (Ascii.eqb c "b" || Ascii.eqb c "B"); [discriminate A|].
  rewrite !andb_false_r. auto.
Qed.

Lemma not_infinity_decimal (s : string) :
  all_decimal s = true -> String.eqb s "Infinity" = false.
Proof.
  destruct s as [|c s]; [reflexivity|]. unfold all_decimal. simpl.
  intros A. apply andb_prop in A. destruct A as [A _].
  apply decimal_digit_nothing_else in A. unfold nothing_else in A.
  destruct (Ascii.eqb c "I") eqn:E.
  - rewrite !andb_false_r in A. discriminate A.
  - reflexivity.
Qed.

Lemma Qred_whole (v : Z) :
  Qred ((inject_Z v + inject_Z 0 / inject_Z (10 ^ Z.of_nat 0))
        * Qpower (inject_Z 10) 0)%Q = inject_Z v.
Proof.
  rewrite <- (Qred_identity (inject_Z v)) at 2.
  - apply Qred_complete. simpl. unfold Qeq. simpl. lia.
  - simpl. apply Z.gcd_1_r.
Qed.

(** Both coercions read a parameter in decimal digits as the integer it
    denotes. *)
Lemma decimal_coercions (s : string) (n : Z) :
  decimal s = Some n -> JS.toNumber s = JS.of_Z n /\ JS.parseInt s = JS.of_Z n.
Proof.
  unfold decimal. destruct (JS.digits 10 s 0 0) as [[v k] rest] eqn:D.
  destruct k as [|k]; [discriminate|]. destruct rest; [|discriminate].
  intros E. inversion E; subst v. clear E.
  pose proof (digits_all_decimal s _ _ _ _ D) as A.
  destruct (no_radix_prefix_decimal s A) as (Rx & Ro & Rb).
  split.
  - unfold JS.toNumber. rewrite (trim_decimal s A).
    destruct s as [|c s]; [simpl in D; inversion D|].
    unfold JS.nondecimal, JS.radix_literal. rewrite Rx, Ro, Rb.
    rewrite (strip_sign_decimal _ A), (not_infinity_decimal _ A).
    unfold JS.unsigned_decimal. rewrite D. simpl plus.
    cbn [JS.exponent]. rewrite Qred_whole. reflexivity.
  - unfold JS.parseInt. rewrite (trimStart_decimal s A), (strip_sign_decimal s A).
    rewrite Rx, D. reflexivity.
Qed.

(** ** Pagination *)

(** The expected page count in integers: the quotient rounded up. *)
Lemma pages_expected_whole (count : nat) (n : Z) :
  0 < n -> pages_expected count n = (Z.of_nat count + n - 1) / n.
Proof.
  intros Pos. unfold pages_expected, Qceiling, Qfloor.
  destruct n as [|m|m]; try lia.
  cbn. rewrite Z.mul_1_r.
  set (a := Z.of_nat count).
  apply Z.div_unique with (r := (a + Z.pos m - 1) - Z.pos m * - (- a / Z.pos m)).
  - left. pose proof (Z.div_mod (- a) (Z.pos m) ltac:(lia)).
    pose proof (Z.mod_pos_bound (- a) (Z.pos m) ltac:(lia)). nia.
  - lia.
Qed.

Lemma pagination_of_well_paged (r : Request) (count : nat) (default n : Z) :
  page_size default (lookup "limit" (query r)) = Some n -> 0 < n ->
  well_paged r n
    (Routes.pagination_of count (lookup "page" (query r))
                          (lookup "limit" (query r)) default).
Proof.
  intros S Pos.
  assert (C : Routes.number_or default (lookup "limit" (query r)) = JS.of_Z n
              /\ Routes.parseInt_or default (lookup "limit" (query r)) = JS.of_Z n).
  { unfold page_size in S. unfold Routes.number_or, Routes.parseInt_or.
    destruct (lookup "limit" (query r)) as [s|].
    - apply decimal_coercions. exact S.
    - inversion S. auto. }
  destruct C as [CN CP].
  unfold well_paged, Routes.pagination_of. cbn [pages limit page total].
  rewrite CN, CP. repeat split.
  - unfold JS.of_nat, JS.of_Z at 1 2, JS.div, JS.Qzero. cbn [Qnum inject_Z].
    destruct (Z.eqb_spec n 0); [lia|]. reflexivity.
  - intros E. rewrite E. reflexivity.
Qed.

Section Paginated.
Context `{Platform}.

Lemma protect_next_req (st : Store) (c c' : Context) :
  Auth.protect st c = Next c' -> req c' = req c.
Proof.
  unfold Auth.protect.
  destruct (negb (JS.truthy_string (Auth.token_of (req c)))); [discriminate|].
  destruct (Auth.token_of (req c)) as [t|]; [|discriminate].
  destruct (verifyToken t); try discriminate.
  destruct (Auth.findUserById st id) as [|[v|]]; try discriminate.
  destruct (negb (User.isActive v)); [discriminate|].
  intros E. inversion E. reflexivity.
Qed.

(** A pagination object behind the admin guards comes from the handler. *)
Lemma guarded_pagination (h : Handler) (st : Store) (r : Request) (pg : Pagination) :
  pagination_in (data (fst (serve [Auth.protect; Auth.adminOnly] h st r))) = Some pg ->
  exists c, req c = r /\ pagination_in (data (fst (h st c))) = Some pg.
Proof.
  unfold serve. simpl.
  destruct (Auth.protect st (mkContext r None)) as [c|res] eqn:P.
  - pose proof (protect_next_req _ _ _ P) as R. simpl in R.
    unfold Auth.adminOnly. destruct (user c) as [v|]; simpl; [|discriminate].
    destruct (String.eqb (User.role v) "admin"); simpl; [|discriminate].
    intros E. exists c. auto.
  - simpl. rewrite (protect_done_no_data _ _ _ P). discriminate.
Qed.

Lemma education_admin_all_pagination (st : Store) (c : Context) (pg : Pagination) :
  pagination_in (data (fst (EducationRoutes.admin_all_handler st c))) = Some pg ->
  Query.countDocuments Paths.education (education st)
                       (EducationRoutes.admin_all_filter (req c))
  = Mongo.Got (total pg)
  /\ pg = Routes.pagination_of (total pg) (lookup "page" (query (req c)))
                               (lookup "limit" (query (req c))) 20.
Proof.
  unfold EducationRoutes.admin_all_handler.
  destruct (Query.find _ _ _ _ _ _); simpl; [discriminate|].
  destruct (Query.countDocuments _ _ _); simpl; [discriminate|].
  intros E. inversion E. auto.
Qed.

Lemma project_list_pagination (st : Store) (c : Context) (pg : Pagination) :
  pagination_in (data (fst (ProjectRoutes.list_handler st c))) = Some pg ->
  Query.countDocuments Paths.project (projects st) (ProjectRoutes.list_filter c)
  = Mongo.Got (total pg)
  /\ pg = Routes.pagination_of (total pg) (lookup "page" (query (req c)))
                               (lookup "limit" (query (req c))) 20.
Proof.
  unfold ProjectRoutes.list_handler.
  destruct (Query.find _ _ _ _ _ _); simpl; [discriminate|].
  destruct (Query.countDocuments _ _ _); simpl; [discriminate|].
  intros E. inversion E. auto.
Qed.

Lemma user_all_pagination (st : Store) (c : Context) (pg : Pagination) :
  pagination_in (data (fst (UserRoutes.all_handler st c))) = Some pg ->
  Query.countDocuments Paths.user (users st) (UserRoutes.all_filter (req c))
  = Mongo.Got (total pg)
  /\ pg = Routes.pagination_of (total pg) (lookup "page" (query (req c)))
                               (lookup "limit" (query (req c))) 20.
Proof.
  unfold UserRoutes.all_handler.
  destruct (Query.find _ _ _ _ _ _); simpl; [discriminate|].
  destruct (Query.countDocuments _ _ _); simpl; [discriminate|].
  intros E. inversion E. auto.
Qed.

Lemma contact_list_pagination (st : Store) (c : Context) (pg : Pagination) :
  pagination_in (data (fst (ContactRoutes.list_handler st c))) = Some pg ->
  Query.countDocuments Paths.contact (contacts st) (ContactRoutes.list_filter (req c))
  = Mongo.Got (total pg)
  /\ pg = Routes.pagination_of (total pg) (lookup "page" (query (req c)))
                               (lookup "limit" (query (req c))) 10.
Proof.
  unfold ContactRoutes.list_handler.
  destruct (Query.find _ _ _ _ _ _); simpl; [discriminate|].
  destruct (Query.countDocuments _ _ _); simpl; [discriminate|].
  intros E. inversion E. auto.
Qed.

End Paginated.

(** C8, as amended: on the four paginated lists, for a query string whose
    parameters are each given once and in plain form, when [limit] is
    omitted or written in decimal digits with a positive value [n] of at
    most [Number.MAX_SAFE_INTEGER], the pagination object has [total] equal
    to the number of matching records, [pages = ceil(total / n)] and
    [limit = n], and [page = 1] when the request names no page; an omitted
    [limit] stands for 20 on the Education, Project and User lists and for
    10 on the Contact list. *)
Theorem pagination_pages `{Platform} (st : Store) (r : Request) (n : Z) :
  plain_query (query r) = true ->
  0 < n <= max_safe_integer ->
  (page_size 20 (lookup "limit" (query r)) = Some n ->
     (forall pg,
        pagination_in (data (fst (EducationRoutes.admin_all st r))) = Some pg ->
        Query.countDocuments Paths.education (education st)
                             (EducationRoutes.admin_all_filter r)
        = Mongo.Got (total pg)
        /\ well_paged r n pg)
     /\ (forall pg,
           pagination_in (data (fst (ProjectRoutes.list st r))) = Some pg ->
           Query.countDocuments Paths.project (projects st)
             (ProjectRoutes.list_filter (mkContext r (caller st r)))
           = Mongo.Got (total pg)
           /\ well_paged r n pg)
     /\ (forall pg,
           pagination_in (data (fst (UserRoutes.all st r))) = Some pg ->
           Query.countDocuments Paths.user (users st) (UserRoutes.all_filter r)
           = Mongo.Got (total pg)
           /\ well_paged r n pg))
  /\ (page_size 10 (lookup "limit" (query r)) = Some n ->
      forall pg,
        pagination_in (data (fst (ContactRoutes.list st r))) = Some pg ->
        Query.countDocuments Paths.contact (contacts st) (ContactRoutes.list_filter r)
        = Mongo.Got (total pg)
        /\ well_paged r n pg).
Proof.
  intros _ [Pos _]. split.
  - intros S. split; [|split]; intros pg E.
    + destruct (guarded_pagination _ st r pg E) as (c & R & E').
      destruct (education_admin_all_pagination st c pg E') as [C ->].
      rewrite R in *. split; [exact C|].
      apply pagination_of_well_paged; assumption.
    + unfold ProjectRoutes.list in E. rewrite behind_optionalAuth in E.
      destruct (project_list_pagination st _ pg E) as [C ->].
      split; [exact C|]. cbn [req].
      apply pagination_of_well_paged; assumption.
    + destruct (guarded_pagination _ st r pg E) as (c & R & E').
      destruct (user_all_pagination st c pg E') as [C ->].
      rewrite R in *. split; [exact C|].
      apply pagination_of_well_paged; assumption.
  - intros S pg E.
    destruct (guarded_pagination _ st r pg E) as (c & R & E').
    destruct (contact_list_pagination st c pg E') as [C ->].
    rewrite R in *. split; [exact C|].
    apply pagination_of_well_paged; assumption.
Qed.

Lemma pagination_pages_witness :
  well_paged (Sample.asking [("limit", "2")] (Sample.as_admin Sample.blank)) 2
             (mkPagination 5 (JS.of_Z 3) (JS.of_Z 1) (JS.of_Z 2))
  /\ pagination_in
       (data (fst (ContactRoutes.list (H := Sample.platform) Sample.store
                     (Sample.as_admin Sample.blank))))
     = Some (mkPagination 5 (JS.of_Z 1) (JS.of_Z 1) (JS.of_Z 10)).
Proof.
  split; [|vm_compute; reflexivity].
  apply (proj2 (pagination_pages (H := Sample.platform) Sample.store
                  (Sample.asking [("limit", "2")] (Sample.as_admin Sample.blank))
                  2 eq_refl ltac:(unfold max_safe_integer; lia))
               eq_refl
               (mkPagination 5 (JS.of_Z 3) (JS.of_Z 1) (JS.of_Z 2))).
  vm_compute. reflexivity.
Defined.

(** C8 as stated fails: with [limit=2.5] the admin's contact list of five
    messages is served two to a page ([limit: 2]) with [pages: 2], where
    [ceil(5 / 2)] is 3; with [limit=0] the page count is infinite. *)
Lemma fractional_limit_miscounts_pages :
  pagination_in
    (data (fst (ContactRoutes.list (H := Sample.platform) Sample.store
                  (Sample.asking [("limit", "2.5")] (Sample.as_admin Sample.blank)))))
  = Some (mkPagination 5 (JS.of_Z 2) (JS.of_Z 1) (JS.of_Z 2))
  /\ pages_expected 5 2 = 3
  /\ JS.of_Z 2 <> JS.of_Z (pages_expected 5 2)
  /\ pagination_in
       (data (fst (ContactRoutes.list (H := Sample.platform) Sample.store
                     (Sample.asking [("limit", "0")] (Sample.as_admin Sample.blank)))))
     = Some (mkPagination 5 (JS.Inf false) (JS.of_Z 1) (JS.of_Z 0)).
Proof.
  split; [vm_compute; reflexivity|]. split; [reflexivity|].
  split; [|vm_compute; reflexivity].
  vm_compute. intros E. discriminate E.
Qed.

(** * Further properties of the routes *)

(** ** Who gets past the guards *)

(** X1: behind [protect] and [adminOnly], an authenticated caller whose
    role is not ['admin'] is answered 403 and the store is left as it was,
    whatever the handler. *)
Theorem non_admin_is_403 `{Platform} (h : Handler) (st : Store) (r : Request)
        (u : User.t) :
  principal st r = Some u -> User.role u <> "admin" ->
  serve [Auth.protect; Auth.adminOnly] h st r
  = (fail 403 "Access denied. Admin privileges required.", st).
Proof.
  intros P NA. destruct (principal_protect st r u P) as [E _].
  unfold serve. simpl. rewrite E. unfold Auth.adminOnly. simpl.
  destruct (String.eqb_spec (User.role u) "admin"); [contradiction | reflexivity].
Qed.

Lemma non_admin_is_403_witness :
  UserRoutes.delete (H := Sample.platform) Sample.store
    (Sample.on Sample.admin_id (Sample.as_visitor Sample.blank))
  = (fail 403 "Access denied. Admin privileges required.", Sample.store).
Proof.
  apply (non_admin_is_403 (H := Sample.platform)
           (UserRoutes.delete_handler (H := Sample.platform))
           Sample.store (Sample.on Sample.admin_id (Sample.as_visitor Sample.blank))
           (Auth.select_without_password Sample.the_visitor)).
  - vm_compute. reflexivity.
  - discriminate.
Defined.

Lemma holds_str (x s : string) :
  Mongo.holds (Paths.str x) (JS.VStr s) = true -> x = s.
Proof. simpl. apply String.eqb_eq. Qed.

(** X2: the principal [protect] attaches is a stored, active user: the one
    whose [_id] the verified token carries, without its password. *)
Theorem principal_is_stored_and_active `{Platform} (st : Store) (r : Request)
        (a : User.t) :
  principal st r = Some a ->
  exists t u,
    Auth.token_of r = Some t
    /\ verifyToken t = Decoded (Some (User._id u))
    /\ In u (users st)
    /\ User.isActive u = true
    /\ a = Auth.select_without_password u.
Proof.
  unfold principal, Auth.protect. cbn [req].
  destruct (negb (JS.truthy_string (Auth.token_of r))); [discriminate|].
  destruct (Auth.token_of r) as [t|]; [|discriminate].
  destruct (verifyToken t) as [id| |] eqn:V; try discriminate.
  unfold Auth.findUserById.
  destruct (Query.findById Paths.user (users st) id) as [|[u|]] eqn:F;
    cbn [option_map]; try discriminate.
  cbn [Auth.select_without_password User.isActive].
  destruct (User.isActive u) eqn:Act; cbn [negb]; [|discriminate].
  cbn [user]. intros E. inversion E; subst a. exists t, u.
  destruct id as [s|]; [|cbn in F; discriminate F].
  unfold Query.findById in F.
  destruct (findOne_sound Paths.user _ _ _ F) as [I C].
  pose proof (conds_hold_in Paths.user _ u "_id" (JS.VStr s) C
                (or_introl eq_refl)) as Hid.
  apply holds_str in Hid. rewrite Hid. auto.
Qed.

Lemma principal_is_stored_and_active_witness :
  exists t u,
    Auth.token_of (Sample.as_visitor Sample.blank) = Some t
    /\ verifyToken (Platform := Sample.platform) t = Decoded (Some (User._id u))
    /\ In u (users Sample.store)
    /\ User.isActive u = true
    /\ Auth.select_without_password Sample.the_visitor
       = Auth.select_without_password u.
Proof.
  apply (principal_is_stored_and_active (H := Sample.platform) Sample.store
           (Sample.as_visitor Sample.blank)).
  vm_compute. reflexivity.
Defined.

(** ** Reading one record *)

Lemma find_narrowed {A : Type} (p q : A -> bool) (l : list A) (x : A) :
  List.find p l = Some x -> q x = true ->
  (forall y, q y = true -> p y = true) ->
  List.find q l = Some x.
Proof.
  intros F Q Sub. induction l as [|y l IH]; simpl in *; [discriminate|].
  destruct (p y) eqn:Py.
  - inversion F; subst. rewrite Q. reflexivity.
  - destruct (q y) eqn:Qy; [rewrite (Sub y Qy) in Py; discriminate|].
    apply IH. exact F.
Qed.

Lemma find_save_other {A : Type} (id_of : A -> ObjectId) (docs : list A)
      (id id' : ObjectId) (y : A) :
  id_of y = id -> id' <> id ->
  List.find (has_id id_of id') (Query.save id_of y docs)
  = List.find (has_id id_of id') docs.
Proof.
  intros Y Ne. induction docs as [|x docs IH]; simpl; [reflexivity|].
  unfold has_id in *. rewrite Y.
  destruct (String.eqb_spec (id_of x) id) as [E|E]; simpl.
  - rewrite Y, E. destruct (String.eqb_spec id id'); [congruence | reflexivity].
  - destruct (String.eqb (id_of x) id'); [reflexivity | exact IH].
Qed.

Section OneRecord.
Context `{Platform}.

(** What [findOne] on the filter of [GET /api/projects/:id] looks for. *)
Lemma project_one_find (st : Store) (c : Context) :
  isObjectId (params_id (req c)) = true ->
  Query.findOne Paths.project (projects st) (ProjectRoutes.one_filter c)
  = Mongo.Got
      (List.find (fun p => String.eqb (Project._id p) (params_id (req c))
                           && (Auth.is_admin c || Project.isVisible p))
                 (projects st)).
Proof.
  intros V. unfold Query.findOne, Query.compile, ProjectRoutes.one_filter.
  destruct (Auth.is_admin c); cbn; rewrite V; cbn; f_equal; apply find_ext;
    intros p; unfold Query.conds_hold; cbn; rewrite ?andb_true_r;
    destruct (Project.isVisible p); rewrite ?andb_true_r; reflexivity.
Qed.

End OneRecord.

(** X3: a successful [GET /api/projects/:id] answers with the project as it
    was and adds exactly one to its stored [views]; the lookup of every
    other project id is as before. *)
Theorem project_view_counted `{Platform} (st : Store) (r : Request)
        (p : Project.t) :
  isObjectId (params_id r) = true ->
  stored_project st (params_id r) = Some p ->
  admin (caller st r) = true \/ Project.isVisible p = true ->
  status (fst (ProjectRoutes.one st r)) = 200%nat
  /\ projects_in (data (fst (ProjectRoutes.one st r))) = [p]
  /\ stored_project (snd (ProjectRoutes.one st r)) (params_id r)
     = Some (ProjectRoutes.with_views (Project.views p + 1) p)
  /\ (forall id, id <> params_id r ->
        stored_project (snd (ProjectRoutes.one st r)) id = stored_project st id)
  /\ users (snd (ProjectRoutes.one st r)) = users st
  /\ education (snd (ProjectRoutes.one st r)) = education st
  /\ contacts (snd (ProjectRoutes.one st r)) = contacts st.
Proof.
  intros V F Vis. unfold ProjectRoutes.one. rewrite behind_optionalAuth.
  unfold ProjectRoutes.one_handler.
  rewrite (project_one_find st (mkContext r (caller st r)) V). cbn [req user].
  unfold stored_project in F.
  assert (Vis' : Auth.is_admin (mkContext r (caller st r)) || Project.isVisible p
                 = true).
  { destruct Vis as [A | B]; [|rewrite B; apply orb_true_r].
    unfold Auth.is_admin, admin in *. cbn [user]. rewrite A. reflexivity. }
  rewrite (find_narrowed _ _ _ p F).
  2: { rewrite Vis', (find_has_id Project._id _ _ _ F), String.eqb_refl.
       reflexivity. }
  2: { intros y Q. apply andb_prop in Q. tauto. }
  unfold Query.findByIdAndUpdate.
  rewrite (findById_find Paths.project Project._id (fun _ => eq_refl) _ _ V).
  unfold has_id. rewrite F.
  cbn [fst snd status data ok projects_in doc ProjectRoutes.populate map
       users education contacts Routes.with_projects].
  repeat split.
  - unfold stored_project. cbn [projects Routes.with_projects].
    exact (find_save Project._id (projects st) (params_id r) p
             (ProjectRoutes.with_views (Project.views p + 1) p) F
             (find_has_id Project._id _ _ _ F)).
  - intros id Ne. unfold stored_project. cbn [projects Routes.with_projects].
    apply (find_save_other Project._id _ (params_id r) id); [|exact Ne].
    exact (find_has_id Project._id _ _ _ F).
Qed.

Lemma project_view_counted_witness :
  option_map Project.views
    (stored_project
       (snd (ProjectRoutes.one (H := Sample.platform) Sample.store
               (Sample.on "64b000000000000000000b01" Sample.blank)))
       "64b000000000000000000b01")
  = Some 8.
Proof.
  exact (f_equal (option_map Project.views) (proj1 (proj2 (proj2
    (project_view_counted (H := Sample.platform) Sample.store
       (Sample.on "64b000000000000000000b01" Sample.blank) Sample.shown_project
       ltac:(vm_compute; reflexivity) ltac:(vm_compute; reflexivity)
       (or_intror eq_refl)))))).
Defined.

(** [protect] answers with 401 only. *)
Lemma protect_rejects_status `{Platform} (st : Store) (c : Context) (res : Response) :
  Auth.protect st c = Done res -> status res = 401%nat.
Proof.
  unfold Auth.protect.
  destruct (negb (JS.truthy_string (Auth.token_of (req c)))).
  { intros E. inversion E. reflexivity. }
  destruct (Auth.token_of (req c)) as [t|].
  2: { intros E. inversion E. reflexivity. }
  destruct (verifyToken t); try (intros E; inversion E; reflexivity).
  destruct (Auth.findUserById st id) as [|[v|]];
    try (intros E; inversion E; reflexivity).
  destruct (negb (User.isActive v)); intros E; inversion E; reflexivity.
Qed.

(** Behind the admin guards a request is either refused, with no data and
    no change, or handled for an admin principal. *)
Lemma guarded_cases `{Platform} (h : Handler) (st : Store) (r : Request) :
  (data (fst (serve [Auth.protect; Auth.adminOnly] h st r)) = NoData
   /\ status (fst (serve [Auth.protect; Auth.adminOnly] h st r)) <> 200%nat
   /\ snd (serve [Auth.protect; Auth.adminOnly] h st r) = st)
  \/ exists a, principal st r = Some a /\ User.role a = "admin"
               /\ serve [Auth.protect; Auth.adminOnly] h st r
                  = h st (mkContext r (Some a)).
Proof.
  destruct (principal st r) as [a|] eqn:P.
  - destruct (String.eqb_spec (User.role a) "admin") as [R|R].
    + right. exists a. split; [reflexivity|]. split; [exact R|].
      apply behind_admin_guards; assumption.
    + left. destruct (principal_protect st r a P) as [E _].
      unfold serve. simpl. rewrite E. unfold Auth.adminOnly. simpl.
      destruct (String.eqb_spec (User.role a) "admin"); [contradiction|].
      simpl. repeat split. discriminate.
  - left. unfold principal in P. unfold serve. simpl.
    destruct (Auth.protect st (mkContext r None)) as [c|res] eqn:E.
    + unfold Auth.adminOnly. rewrite P. simpl. repeat split. discriminate.
    + simpl. rewrite (protect_done_no_data _ _ _ E).
      rewrite (protect_rejects_status _ _ _ E). repeat split. discriminate.
Qed.

(** X4: for an id written as stored ids are (24 hexadecimal digits in lower
    case), whatever a get-by-id read returns has the requested [_id]. *)
Theorem get_by_id_returns_requested `{Platform} (st : Store) (r : Request) :
  canonical_id (params_id r) = true ->
  (forall e, In e (education_in (data (fst (EducationRoutes.one st r)))) ->
             Education._id e = params_id r)
  /\ (forall p, In p (projects_in (data (fst (ProjectRoutes.one st r)))) ->
                Project._id p = params_id r)
  /\ (forall u, In u (users_in (data (fst (UserRoutes.one st r)))) ->
                User._id u = params_id r).
Proof.
  intros _. split; [|split].
  - intros e. unfold EducationRoutes.one. rewrite behind_optionalAuth.
    unfold EducationRoutes.one_handler.
    destruct (Query.findOne _ _ _) as [|[x|]] eqn:F; simpl; try tauto.
    intros [<- | []]. destruct (findOne_sound _ _ _ _ F) as [_ C].
    apply holds_str.
    apply (conds_hold_in Paths.education _ x "_id" _ C).
    unfold EducationRoutes.one_filter.
    destruct (negb (Auth.is_admin _)); simpl; auto.
  - intros p. unfold ProjectRoutes.one. rewrite behind_optionalAuth.
    unfold ProjectRoutes.one_handler.
    destruct (Query.findOne _ _ _) as [|[x|]] eqn:F; simpl; try tauto.
    intros [<- | []]. destruct (findOne_sound _ _ _ _ F) as [_ C].
    apply holds_str.
    apply (conds_hold_in Paths.project _ x "_id" _ C).
    unfold ProjectRoutes.one_filter.
    destruct (negb (Auth.is_admin _)); simpl; auto.
  - intros u. unfold UserRoutes.one.
    destruct (guarded_cases UserRoutes.one_handler st r)
      as [(D & _) | (a & _ & _ & E)].
    + rewrite D. simpl. tauto.
    + rewrite E. unfold UserRoutes.one_handler. cbn [req].
      destruct (Query.findById _ _ _) as [|[x|]] eqn:F; simpl; try tauto.
      intros [<- | []]. unfold Query.findById in F.
      destruct (findOne_sound _ _ _ _ F) as [_ C].
      apply holds_str.
      apply (conds_hold_in Paths.user _ x "_id" _ C). simpl. auto.
Qed.

Lemma get_by_id_returns_requested_witness :
  exists e,
    In e (education_in
            (data (fst (EducationRoutes.one (H := Sample.platform) Sample.store
                          (Sample.on (Education._id Sample.shown_course) Sample.blank)))))
    /\ Education._id e = Education._id Sample.shown_course.
Proof.
  assert (I : exists e,
             In e (education_in
                     (data (fst (EducationRoutes.one (H := Sample.platform)
                                   Sample.store
                                   (Sample.on (Education._id Sample.shown_course) Sample.blank)))))).
  { vm_compute. eexists. left. reflexivity. }
  destruct I as [e I]. exists e. split; [exact I|].
  exact (proj1 (get_by_id_returns_requested (H := Sample.platform) Sample.store
                  (Sample.on (Education._id Sample.shown_course) Sample.blank)
                  ltac:(vm_compute; reflexivity)) e I).
Defined.

(** ** Filters of the lists *)

(** X5: [GET /api/education?type=T], and the admin list with the same
    parameter, return only records of type [T], when the parameters of
    the query string are each given once and in plain form. *)
Theorem education_type_filter `{Platform} (st : Store) (r : Request) (t : string) :
  plain_query (query r) = true ->
  lookup "type" (query r) = Some t -> t <> "" ->
  (forall e, In e (education_in (data (fst (EducationRoutes.list st r)))) ->
             Education.type e = t)
  /\ (forall e, In e (education_in (data (fst (EducationRoutes.admin_all st r)))) ->
                Education.type e = t).
Proof.
  intros _ T Ne.
  assert (S : forall f, Routes.set_if_given "type" (Some t) f
                        = Mongo.set "type" (JS.VStr t) f).
  { intros f. unfold Routes.set_if_given.
    destruct (String.eqb_spec t ""); [contradiction | reflexivity]. }
  split; intros e.
  - unfold EducationRoutes.list. rewrite behind_optionalAuth.
    unfold EducationRoutes.list_handler.
    destruct (Query.find _ _ _ _ _ _) as [|docs] eqn:F; simpl; [tauto|].
    rewrite map_doc_populated by reflexivity. intros I.
    destruct (find_sound _ _ _ _ _ _ _ e F I) as [_ C].
    apply holds_str. apply (conds_hold_in Paths.education _ e "type" _ C).
    unfold EducationRoutes.list_filter. cbn [req]. rewrite T, S.
    apply assign_in.
  - unfold EducationRoutes.admin_all.
    destruct (guarded_cases EducationRoutes.admin_all_handler st r)
      as [(D & _) | (a & _ & _ & E)].
    + rewrite D. simpl. tauto.
    + rewrite E. unfold EducationRoutes.admin_all_handler. cbn [req].
      destruct (Query.find _ _ _ _ _ _) as [|docs] eqn:F; simpl; [tauto|].
      destruct (Query.countDocuments _ _ _); simpl; [tauto|].
      rewrite map_doc_populated by reflexivity. intros I.
      destruct (find_sound _ _ _ _ _ _ _ e F I) as [_ C].
      apply holds_str. apply (conds_hold_in Paths.education _ e "type" _ C).
      unfold EducationRoutes.admin_all_filter.
      rewrite search_if_given_conds.
      apply set_flag_if_defined_keeps; [discriminate|].
      rewrite T, S. apply assign_in.
Qed.

Lemma education_type_filter_witness :
  map Education.type
      (education_in (data (fst (EducationRoutes.list (H := Sample.platform)
         Sample.store
         (Sample.asking [("type", "certification")]
            (Sample.as_admin Sample.blank))))))
  = ["certification"]
  /\ forall e,
       In e (education_in (data (fst (EducationRoutes.list (H := Sample.platform)
               Sample.store
               (Sample.asking [("type", "certification")]
                  (Sample.as_admin Sample.blank)))))) ->
       Education.type e = "certification".
Proof.
  split; [vm_compute; reflexivity|].
  exact (proj1 (education_type_filter (H := Sample.platform) Sample.store
                  (Sample.asking [("type", "certification")]
                     (Sample.as_admin Sample.blank))
                  "certification" eq_refl eq_refl ltac:(discriminate))).
Defined.

Lemma holds_flag (b c : bool) :
  Mongo.holds (Paths.flag b) (JS.VBool c) = true -> b = c.
Proof. destruct b, c; simpl; congruence. Qed.

(** X6: when the parameters of the query string are each given once and in
    plain form, in the list of [GET /api/projects] the [category], [status]
    and [featured] parameters each select: a project returned has the category
    and status asked for and is featured exactly when [featured] is
    ['true'].  The featured list returns featured projects only. *)
Theorem project_filters `{Platform} (st : Store) (r : Request) (p : Project.t) :
  plain_query (query r) = true ->
  (In p (projects_in (data (fst (ProjectRoutes.list st r)))) ->
     (forall c, lookup "category" (query r) = Some c -> c <> "" ->
                Project.category p = c)
     /\ (forall s, lookup "status" (query r) = Some s -> s <> "" ->
                   Project.status p = s)
     /\ (forall f, lookup "featured" (query r) = Some f ->
                   Project.isFeatured p = String.eqb f "true"))
  /\ (In p (projects_in (data (fst (ProjectRoutes.featured st r)))) ->
        Project.isFeatured p = true).
Proof.
  intros _. split.
  - unfold ProjectRoutes.list. rewrite behind_optionalAuth.
    unfold ProjectRoutes.list_handler.
    destruct (Query.find _ _ _ _ _ _) as [|docs] eqn:F; simpl; [tauto|].
    destruct (Query.countDocuments _ _ _); simpl; [tauto|].
    rewrite map_doc_populated by reflexivity. intros I.
    destruct (find_sound _ _ _ _ _ _ _ p F I) as [_ C].
    unfold ProjectRoutes.list_filter in C. cbn [req] in C.
    split; [|split].
    + intros c L Ne. apply holds_str.
      apply (conds_hold_in Paths.project _ p "category" _ C).
      rewrite search_if_given_conds.
      apply set_if_given_keeps; [discriminate|].
      apply set_flag_if_defined_keeps; [discriminate|].
      rewrite L. unfold Routes.set_if_given.
      destruct (String.eqb_spec c ""); [contradiction|]. apply assign_in.
    + intros s L Ne. apply holds_str.
      apply (conds_hold_in Paths.project _ p "status" _ C).
      rewrite search_if_given_conds.
      rewrite L. unfold Routes.set_if_given at 1.
      destruct (String.eqb_spec s ""); [contradiction|]. apply assign_in.
    + intros f L. apply holds_flag.
      apply (conds_hold_in Paths.project _ p "isFeatured" _ C).
      rewrite search_if_given_conds.
      apply set_if_given_keeps; [discriminate|].
      rewrite L. unfold Routes.set_flag_if_defined. apply assign_in.
  - unfold ProjectRoutes.featured. rewrite behind_optionalAuth.
    unfold ProjectRoutes.featured_handler.
    destruct (Query.find _ _ _ _ _ _) as [|docs] eqn:F; simpl; [tauto|].
    rewrite map_doc_populated by reflexivity. intros I.
    destruct (find_sound _ _ _ _ _ _ _ p F I) as [_ C].
    apply holds_flag_true.
    apply (conds_hold_in Paths.project _ p "isFeatured" _ C).
    unfold ProjectRoutes.featured_filter.
    destruct (negb (Auth.is_admin _)); simpl; auto.
Qed.

Lemma project_filters_witness :
  projects_in (data (fst (ProjectRoutes.featured (H := Sample.platform)
                            Sample.store Sample.blank)))
  = [Sample.shown_project]
  /\ Project.isFeatured Sample.shown_project = true.
Proof.
  split; [vm_compute; reflexivity|].
  apply (proj2 (project_filters (H := Sample.platform) Sample.store Sample.blank
                  Sample.shown_project eq_refl)).
  vm_compute. left. reflexivity.
Defined.

(** ** The order of a list *)

Section Ordering.
Context `{Platform}.
Context {A : Type}.
Variable get : string -> A -> Mongo.field.
Hypothesis both_sides : antisymmetric.

Lemma compareBy_opposite (spec : Mongo.sort_spec) (x y : A) :
  Query.compareBy get spec x y = CompOpp (Query.compareBy get spec y x).
Proof.
  induction spec as [|[path d] spec IH]; simpl; [reflexivity|].
  rewrite (both_sides (get path x) (get path y)).
  destruct (compareValues (get path y) (get path x)); simpl.
  - exact IH.
  - destruct (d <? 0); reflexivity.
  - destruct (d <? 0); reflexivity.
Qed.

Lemma ordered_tail (spec : Mongo.sort_spec) (x : A) (l : list A) :
  ordered get spec (x :: l) -> ordered get spec l.
Proof. destruct l; simpl; tauto. Qed.

Lemma insert_ordered (spec : Mongo.sort_spec) (x : A) (l : list A) :
  ordered get spec l -> ordered get spec (Query.insert get spec x l).
Proof.
  induction l as [|y r IH]; intros O; [exact I|].
  cbn [Query.insert].
  destruct (Query.compareBy get spec x y) eqn:C.
  - split; [congruence | exact O].
  - split; [congruence | exact O].
  - specialize (IH (ordered_tail spec y r O)).
    destruct r as [|z r'].
    + cbn [Query.insert]. split; [|exact I].
      rewrite compareBy_opposite, C. discriminate.
    + cbn [Query.insert] in *.
      destruct (Query.compareBy get spec x z).
      * split; [rewrite compareBy_opposite, C; discriminate | exact IH].
      * split; [rewrite compareBy_opposite, C; discriminate | exact IH].
      * split; [exact (proj1 O) | exact IH].
Qed.

Lemma sortDocs_ordered (spec : Mongo.sort_spec) (l : list A) :
  ordered get spec (Query.sortDocs get spec l).
Proof.
  unfold Query.sortDocs. induction l as [|x l IH]; [exact I|].
  simpl. apply insert_ordered. exact IH.
Qed.

Lemma skipn_ordered (spec : Mongo.sort_spec) (k : nat) (l : list A) :
  ordered get spec l -> ordered get spec (skipn k l).
Proof.
  revert l. induction k as [|k IH]; intros l O; [exact O|].
  destruct l as [|x l]; [exact I|]. simpl. apply IH.
  exact (ordered_tail spec x l O).
Qed.

Lemma firstn_ordered (spec : Mongo.sort_spec) (k : nat) (l : list A) :
  ordered get spec l -> ordered get spec (firstn k l).
Proof.
  revert l. induction k as [|k IH]; intros l O; [exact I|].
  destruct l as [|x l]; [exact I|].
  specialize (IH l (ordered_tail spec x l O)).
  destruct l as [|y l]; [destruct k; exact I|].
  destruct k as [|k]; [exact I|].
  cbn [firstn] in *. split; [exact (proj1 O) | exact IH].
Qed.

(** What a [find] returns is in the order of its sort object. *)
Lemma find_ordered (docs : list A) (f : Mongo.filter) (spec : Mongo.sort_spec)
      (skip limit : option JS.num) (l : list A) :
  Query.find get docs f spec skip limit = Mongo.Got l -> ordered get spec l.
Proof.
  unfold Query.find. destruct (Query.compile get f) as [|p]; [discriminate|].
  unfold Query.window.
  pose proof (sortDocs_ordered spec (List.filter p docs)) as O.
  set (sorted := Query.sortDocs get spec (List.filter p docs)) in *.
  assert (S : forall l1, ordered get spec l1 ->
             match limit with
             | None => Mongo.Got l1
             | Some n => match cursorLimit n with
                         | Some (Some k) => Mongo.Got (firstn k l1)
                         | Some None => Mongo.Got l1
                         | None => Mongo.Threw
                         end
             end = Mongo.Got l -> ordered get spec l).
  { intros l1 O1 E. destruct limit as [n|].
    - destruct (cursorLimit n) as [[k|]|]; inversion E; subst; auto.
      apply firstn_ordered. exact O1.
    - inversion E; subst. exact O1. }
  destruct skip as [n|].
  - destruct (cursorSkip n) as [k|]; [|discriminate].
    apply S. apply skipn_ordered. exact O.
  - apply S. exact O.
Qed.

End Ordering.

(** X7: when the store's ordering of values reads the same from both
    sides, the parameters of the query string are each given once and in
    plain form, and [sortBy] is omitted or names a scalar path the stored
    documents carry, the records of [GET /api/education] and of
    [GET /api/projects] come in the order of the sort object the handler
    builds: by [sortBy] in the direction of [sortOrder], then (projects)
    featured first, then by ascending [sortOrder]. *)
Theorem lists_are_ordered `{Platform} (st : Store) (r : Request) :
  antisymmetric ->
  plain_query (query r) = true ->
  (sorts_on education_paths (query r) = true ->
   ordered Paths.education
     ((Routes.string_or "startDate" (lookup "sortBy" (query r)),
       Routes.direction (Routes.string_or "desc" (lookup "sortOrder" (query r))))
        :: Routes.secondary (Routes.string_or "startDate" (lookup "sortBy" (query r)))
             "sortOrder" 1)
     (education_in (data (fst (EducationRoutes.list st r)))))
  /\ (sorts_on project_paths (query r) = true ->
      ordered Paths.project
        ((Routes.string_or "createdAt" (lookup "sortBy" (query r)),
          Routes.direction (Routes.string_or "desc" (lookup "sortOrder" (query r))))
           :: Routes.secondary (Routes.string_or "createdAt" (lookup "sortBy" (query r)))
                "isFeatured" (-1)
           ++ Routes.secondary (Routes.string_or "createdAt" (lookup "sortBy" (query r)))
                "sortOrder" 1)%list
        (projects_in (data (fst (ProjectRoutes.list st r))))).
Proof.
  intros AS _. split; intros _.
  - unfold EducationRoutes.list. rewrite behind_optionalAuth.
    unfold EducationRoutes.list_handler. cbn [req].
    destruct (Query.find _ _ _ _ _ _) as [|docs] eqn:F; simpl; [exact I|].
    rewrite map_doc_populated by reflexivity.
    exact (find_ordered Paths.education AS _ _ _ _ _ _ F).
  - unfold ProjectRoutes.list. rewrite behind_optionalAuth.
    unfold ProjectRoutes.list_handler. cbn [req].
    destruct (Query.find _ _ _ _ _ _) as [|docs] eqn:F; simpl; [exact I|].
    destruct (Query.countDocuments _ _ _); simpl; [exact I|].
    rewrite map_doc_populated by reflexivity.
    exact (find_ordered Paths.project AS _ _ _ _ _ _ F).
Qed.

Lemma sample_antisymmetric : antisymmetric (H := Sample.platform).
Proof.
  intros a b. cbn.
  destruct a as [|[|x|x|x]|la], b as [|[|y|y|y]|lb]; cbn; try reflexivity.
  - destruct x, y; reflexivity.
  - apply Z.compare_antisym.
  - apply String.compare_antisym.
Qed.

Lemma lists_are_ordered_witness :
  map Education.startDate
      (education_in (data (fst (EducationRoutes.list (H := Sample.platform)
                                  Sample.store
                                  (Sample.asking [("sortOrder", "asc")] Sample.blank)))))
  = [100]
  /\ ordered (H := Sample.platform) Paths.education
       [("startDate", -1); ("sortOrder", 1)]
       (education_in (data (fst (EducationRoutes.list (H := Sample.platform)
                                   Sample.store (Sample.as_admin Sample.blank))))).
Proof.
  split; [vm_compute; reflexivity|].
  exact (proj1 (lists_are_ordered (H := Sample.platform) Sample.store
                  (Sample.as_admin Sample.blank) sample_antisymmetric eq_refl)
               eq_refl).
Defined.

(** ** Pages of a list *)

Lemma pages_concat {A : Type} (n : nat) (l : list A) (count : nat) :
  (0 < n)%nat -> (List.length l <= count * n)%nat ->
  List.concat (map (fun i => firstn n (skipn (i * n) l)) (seq 0 count)) = l.
Proof.
  intros Pos. revert l. induction count as [|count IH]; intros l Len.
  - destruct l; [reflexivity | simpl in Len; lia].
  - cbn [seq map List.concat]. rewrite <- seq_shift, map_map.
    rewrite (map_ext _ (fun i => firstn n (skipn (i * n) (skipn n l)))).
    + rewrite IH.
      * apply firstn_skipn.
      * rewrite length_skipn. simpl in Len. lia.
    + intros i. rewrite skipn_skipn. f_equal. f_equal. simpl. lia.
Qed.

Lemma concat_by_index {A B : Type} (g : A -> list B) (f : nat -> list B)
      (l : list A) (offset : nat) :
  (forall i s, nth_error l i = Some s -> g s = f (offset + i)%nat) ->
  List.concat (map g l) = List.concat (map f (seq offset (List.length l))).
Proof.
  revert offset. induction l as [|x l IH]; intros offset Hg; [reflexivity|].
  cbn [map List.concat List.length seq].
  rewrite (Hg 0%nat x eq_refl), Nat.add_0_r. f_equal.
  apply IH. intros i s E. rewrite (Hg (S i) s E). f_equal. lia.
Qed.

Lemma page_size_coercions (default n : Z) (limit : option string) :
  page_size default limit = Some n ->
  Routes.number_or default limit = JS.of_Z n
  /\ Routes.parseInt_or default limit = JS.of_Z n.
Proof.
  unfold page_size, Routes.number_or, Routes.parseInt_or.
  destruct limit as [s|].
  - apply decimal_coercions.
  - intros E. inversion E. auto.
Qed.

Lemma skip_of_whole (k n : Z) :
  Routes.skip_of (JS.of_Z k) (JS.of_Z n) = JS.of_Z ((k - 1) * n).
Proof.
  unfold Routes.skip_of, JS.of_Z, JS.sub, JS.mul, inject_Z.
  unfold Qminus, Qplus, Qopp, Qmult. cbn [Qnum Qden Pos.mul].
  f_equal. f_equal. ring.
Qed.

Lemma principal_with_param `{Platform} (st : Store) (r : Request) (k v : string) :
  principal st (with_param k v r) = principal st r.
Proof.
  unfold principal, Auth.protect. cbn [req].
  change (Auth.token_of (with_param k v r)) with (Auth.token_of r).
  destruct (negb (JS.truthy_string (Auth.token_of r))); [reflexivity|].
  destruct (Auth.token_of r) as [tok|]; [|reflexivity].
  destruct (verifyToken tok); try reflexivity.
  destruct (Auth.findUserById st id) as [|[u|]]; try reflexivity.
  destruct (negb (User.isActive u)); reflexivity.
Qed.

(** One page of the admin's contact list. *)
Lemma contact_page `{Platform} (st : Store) (r : Request) (a : User.t) (n k : Z)
      (s : string) (matching : Contact.t -> bool) :
  whole_cursor ->
  principal st r = Some a -> User.role a = "admin" ->
  page_size 10 (lookup "limit" (query r)) = Some n -> 0 < n ->
  Query.compile Paths.contact (ContactRoutes.list_filter r) = Mongo.Got matching ->
  decimal s = Some k -> 0 < k ->
  contacts_in (data (fst (ContactRoutes.list st (with_param "page" s r))))
  = firstn (Z.to_nat n)
      (skipn (Z.to_nat ((k - 1) * n))
         (Query.sortDocs Paths.contact
            [(Routes.string_or "createdAt" (lookup "sortBy" (query r)),
              Routes.direction
                (Routes.string_or "desc" (lookup "sortOrder" (query r))))]
            (List.filter matching (contacts st)))).
Proof.
  intros [WS WL] P R S Pos C D Kpos.
  unfold ContactRoutes.list.
  rewrite (behind_admin_guards _ st (with_param "page" s r) a
             ltac:(rewrite principal_with_param; exact P) R).
  unfold ContactRoutes.list_handler. cbn [req].
  change (ContactRoutes.list_filter (with_param "page" s r))
    with (ContactRoutes.list_filter r).
  change (lookup "limit" (query (with_param "page" s r)))
    with (lookup "limit" (query r)).
  change (lookup "sortBy" (query (with_param "page" s r)))
    with (lookup "sortBy" (query r)).
  change (lookup "sortOrder" (query (with_param "page" s r)))
    with (lookup "sortOrder" (query r)).
  change (lookup "page" (query (with_param "page" s r))) with (Some s).
  destruct (page_size_coercions 10 n _ S) as [CN CP]. rewrite CN, CP.
  unfold Routes.number_or at 1. rewrite (proj1 (decimal_coercions s k D)).
  rewrite skip_of_whole.
  unfold Query.find, Query.countDocuments. rewrite C.
  unfold Query.window. rewrite (WS ((k - 1) * n)) by nia.
  rewrite (WL n Pos). reflexivity.
Qed.

Section Permuted.
Context `{Platform}.
Context {A : Type}.
Variable get : string -> A -> Mongo.field.

Lemma insert_permutation (spec : Mongo.sort_spec) (x : A) (l : list A) :
  Permutation (Query.insert get spec x l) (x :: l).
Proof.
  induction l as [|y l IH]; simpl; [apply Permutation_refl|].
  destruct (Query.compareBy get spec x y); try apply Permutation_refl.
  apply Permutation_trans with (y :: x :: l).
  - apply perm_skip. exact IH.
  - apply perm_swap.
Qed.

(** Sorting keeps every document, once. *)
Lemma sortDocs_permutation (spec : Mongo.sort_spec) (l : list A) :
  Permutation (Query.sortDocs get spec l) l.
Proof.
  unfold Query.sortDocs. induction l as [|x l IH]; simpl; [apply perm_nil|].
  apply Permutation_trans with (x :: fold_right (Query.insert get spec) [] l).
  - apply insert_permutation.
  - apply perm_skip. exact IH.
Qed.

End Permuted.

(** X8: with a cursor that takes whole numbers as documented, a query
    string whose parameters are each given once and in plain form, a
    [sortBy] that is omitted or names a scalar path the contacts carry, and
    no two matching contacts tying on it, the pages [1 .. pages] of the
    admin's contact list, one after the other, are the matching contacts in
    sorted order: every matching contact once, none twice.  The page size
    is the decimal [limit] (10 when omitted, at most
    [Number.MAX_SAFE_INTEGER]) and [pages] is the count the pagination
    object reports. *)
Theorem contact_pages_partition `{Platform} (st : Store) (r : Request)
        (a : User.t) (n : Z) (numbers : list string)
        (matching : Contact.t -> bool) :
  whole_cursor ->
  principal st r = Some a -> User.role a = "admin" ->
  plain_query (query (with_param "page" "1" r)) = true ->
  sorts_on contact_paths (query r) = true ->
  page_size 10 (lookup "limit" (query r)) = Some n ->
  0 < n <= max_safe_integer ->
  Query.compile Paths.contact (ContactRoutes.list_filter r) = Mongo.Got matching ->
  untied Paths.contact
    [(Routes.string_or "createdAt" (lookup "sortBy" (query r)),
      Routes.direction (Routes.string_or "desc" (lookup "sortOrder" (query r))))]
    (List.filter matching (contacts st)) ->
  (forall i s, nth_error numbers i = Some s -> decimal s = Some (Z.of_nat (S i))) ->
  Z.of_nat (List.length numbers)
  = pages_expected (List.length (List.filter matching (contacts st))) n ->
  List.concat
    (map (fun s => contacts_in
                     (data (fst (ContactRoutes.list st (with_param "page" s r)))))
         numbers)
  = Query.sortDocs Paths.contact
      [(Routes.string_or "createdAt" (lookup "sortBy" (query r)),
        Routes.direction (Routes.string_or "desc" (lookup "sortOrder" (query r))))]
      (List.filter matching (contacts st))
  /\ Permutation
       (List.concat
          (map (fun s => contacts_in
                           (data (fst (ContactRoutes.list st
                                         (with_param "page" s r)))))
               numbers))
       (List.filter matching (contacts st)).
Proof.
  intros W P R _ _ Sz [Pos _] C _ Num Count.
  set (sorted := Query.sortDocs Paths.contact _ (List.filter matching (contacts st))).
  assert (E : List.concat
                (map (fun s => contacts_in
                        (data (fst (ContactRoutes.list st (with_param "page" s r)))))
                     numbers) = sorted).
  { rewrite (concat_by_index _
               (fun i => firstn (Z.to_nat n) (skipn (i * Z.to_nat n) sorted))
               numbers 0).
    - apply pages_concat; [lia|].
      unfold sorted.
      rewrite (Permutation_length (sortDocs_permutation Paths.contact _ _)).
      rewrite (pages_expected_whole _ n Pos) in Count.
      apply Nat2Z.inj_le. rewrite Nat2Z.inj_mul, Z2Nat.id by lia.
      rewrite Count.
      pose proof (Z.div_mod
                    (Z.of_nat (List.length (List.filter matching (contacts st)))
                     + n - 1) n ltac:(lia)) as DM.
      pose proof (Z.mod_pos_bound
                    (Z.of_nat (List.length (List.filter matching (contacts st)))
                     + n - 1) n Pos) as MB.
      nia.
    - intros i s I. cbn [Nat.add].
      rewrite (contact_page st r a n (Z.of_nat (S i)) s matching W P R Sz Pos C
                 (Num i s I) ltac:(lia)).
      f_equal. f_equal.
      replace (Z.of_nat (S i) - 1) with (Z.of_nat i) by lia.
      rewrite Z2Nat.inj_mul by lia. rewrite Nat2Z.id. reflexivity. }
  split; [exact E|]. rewrite E. apply sortDocs_permutation.
Qed.

Lemma sample_whole_cursor : whole_cursor (H := Sample.platform).
Proof.
  split.
  - intros k K. cbn. unfold Sample.skip_count, Sample.whole, JS.of_Z.
    rewrite (Qred_identity (inject_Z k)) by (simpl; apply Z.gcd_1_r).
    cbn. destruct (Z.ltb_spec k 0); [lia | reflexivity].
  - intros n N. cbn. unfold Sample.limit_count, Sample.whole, JS.of_Z.
    rewrite (Qred_identity (inject_Z n)) by (simpl; apply Z.gcd_1_r).
    cbn. destruct n; try lia. rewrite Zabs2Nat.abs_nat_nonneg by lia.
    reflexivity.
Qed.

Lemma contact_pages_partition_witness :
  map Contact.createdAt
    (List.concat
       (map (fun s => contacts_in
                        (data (fst (ContactRoutes.list (H := Sample.platform)
                                      Sample.store
                                      (with_param "page" s
                                         (Sample.asking [("limit", "2")]
                                            (Sample.as_admin Sample.blank)))))))
            ["1"; "2"; "3"]))
  = [5; 4; 3; 2; 1].
Proof.
  rewrite (proj1 (contact_pages_partition (H := Sample.platform) Sample.store
                    (Sample.asking [("limit", "2")] (Sample.as_admin Sample.blank))
                    (Auth.select_without_password Sample.the_admin) 2
                    ["1"; "2"; "3"] (fun _ => true)
                    sample_whole_cursor
                    ltac:(vm_compute; reflexivity) eq_refl eq_refl eq_refl eq_refl
                    ltac:(unfold max_safe_integer; lia)
                    ltac:(vm_compute; reflexivity)
                    ltac:(vm_compute; repeat constructor; discriminate)
                    ltac:(intros [|[|[|[|i]]]] s E; inversion E; reflexivity)
                    ltac:(vm_compute; reflexivity))).
  vm_compute. reflexivity.
Defined.

(** ** The counts of a list response *)

Lemma bump_lookup (key k : string) (l : list (string * nat)) :
  lookup k (Routes.bump key l)
  = if String.eqb key k
    then Some (S (match lookup k l with Some n => n | None => 0 end))
    else lookup k l.
Proof.
  induction l as [|[k' n] l IH]; simpl.
  - destruct (String.eqb key k); reflexivity.
  - destruct (String.eqb_spec k' key) as [->|N]; simpl.
    + destruct (String.eqb key k); reflexivity.
    + rewrite IH. destruct (String.eqb_spec k' k) as [->|N'].
      * destruct (String.eqb_spec key k); [congruence | reflexivity].
      * reflexivity.
Qed.

Lemma count_by_from {A : Type} (key : A -> string) (k : string) (docs : list A)
      (acc : list (string * nat)) :
  lookup k (fold_left (fun acc d => Routes.bump (key d) acc) docs acc)
  = match tally key k docs, lookup k acc with
    | O, found => found
    | n, None => Some n
    | n, Some m => Some (m + n)%nat
    end.
Proof.
  revert acc. unfold tally.
  induction docs as [|d docs IH]; intros acc; simpl.
  - destruct (lookup k acc); reflexivity.
  - rewrite IH, bump_lookup.
    destruct (String.eqb (key d) k); simpl.
    + destruct (List.length _), (lookup k acc); f_equal; lia.
    + reflexivity.
Qed.

(** What [$group] by a key and the reduction to an object give. *)
Lemma count_by_tally {A : Type} (key : A -> string) (k : string) (docs : list A) :
  lookup k (Routes.count_by key docs)
  = match tally key k docs with O => None | n => Some n end.
Proof.
  unfold Routes.count_by. rewrite count_by_from. simpl.
  destruct (tally key k docs); reflexivity.
Qed.

(** X9: in a 200 answer of the admin's contact list [statusCounts] gives,
    for each status, the number of stored contacts with that status, over
    the whole collection and not only the contacts the query selects; a
    status no contact has is absent.  [roleCounts] of the user list does
    the same for roles. *)
Theorem counts_cover_collection `{Platform} (st : Store) (r : Request) (k : string) :
  (status (fst (ContactRoutes.list st r)) = 200%nat ->
     lookup k (counts_in (data (fst (ContactRoutes.list st r))))
     = match tally Contact.status k (contacts st) with O => None | n => Some n end)
  /\ (status (fst (UserRoutes.all st r)) = 200%nat ->
        lookup k (counts_in (data (fst (UserRoutes.all st r))))
        = match tally User.role k (users st) with O => None | n => Some n end).
Proof.
  split.
  - unfold ContactRoutes.list.
    destruct (guarded_cases ContactRoutes.list_handler st r)
      as [(_ & N & _) | (a & _ & _ & E)]; [contradiction|].
    rewrite E. unfold ContactRoutes.list_handler.
    destruct (Query.find _ _ _ _ _ _); simpl; [discriminate|].
    destruct (Query.countDocuments _ _ _); simpl; [discriminate|].
    intros _. apply count_by_tally.
  - unfold UserRoutes.all.
    destruct (guarded_cases UserRoutes.all_handler st r)
      as [(_ & N & _) | (a & _ & _ & E)]; [contradiction|].
    rewrite E. unfold UserRoutes.all_handler.
    destruct (Query.find _ _ _ _ _ _); simpl; [discriminate|].
    destruct (Query.countDocuments _ _ _); simpl; [discriminate|].
    intros _. apply count_by_tally.
Qed.

Lemma counts_cover_collection_witness :
  lookup "admin"
    (counts_in (data (fst (UserRoutes.all (H := Sample.platform) Sample.store
                             (Sample.asking [("role", "user")]
                                (Sample.as_admin Sample.blank))))))
  = Some 1%nat.
Proof.
  rewrite (proj2 (counts_cover_collection (H := Sample.platform) Sample.store
                    (Sample.asking [("role", "user")] (Sample.as_admin Sample.blank))
                    "admin")
                 ltac:(vm_compute; reflexivity)).
  reflexivity.
Defined.

(** ** Deleting a document *)

Section Removal.
Context {A : Type}.
Variable id_of : A -> ObjectId.

Lemma find_none_not_in (docs : list A) (id : ObjectId) :
  ~ In id (map id_of docs) -> List.find (has_id id_of id) docs = None.
Proof.
  induction docs as [|x docs IH]; simpl; [reflexivity|].
  intros N. unfold has_id at 1.
  destruct (String.eqb_spec (id_of x) id) as [E|E]; [tauto|].
  apply IH. tauto.
Qed.

Lemma remove_removed_one (docs : list A) (id : ObjectId) (x : A) :
  List.find (has_id id_of id) docs = Some x ->
  removed_one id_of id docs (Query.remove id_of id docs).
Proof.
  intros F. unfold removed_one. induction docs as [|y docs IH]; [discriminate|].
  simpl in F. unfold has_id in F at 1. cbn [Query.remove].
  destruct (String.eqb_spec (id_of y) id) as [E|E].
  - split; [reflexivity|]. split.
    + intros id' Ne. simpl. unfold has_id at 2.
      destruct (String.eqb_spec (id_of y) id'); [congruence | reflexivity].
    + intros ND. simpl in ND. inversion ND; subst.
      apply find_none_not_in. assumption.
  - destruct (IH F) as (L & O & G). split; [simpl; lia|]. split.
    + intros id' Ne. simpl. unfold has_id at 1 3.
      destruct (String.eqb (id_of y) id'); [reflexivity | apply O; exact Ne].
    + intros ND. simpl in ND. inversion ND; subst. simpl. unfold has_id at 1.
      destruct (String.eqb_spec (id_of y) id); [contradiction|].
      apply G. assumption.
Qed.

End Removal.

Section Deleting.
Context `{Platform}.
Context {A : Type}.
Variable get : string -> A -> Mongo.field.
Variable id_of : A -> ObjectId.
Hypothesis get_id : forall x, get "_id" x = Paths.str (id_of x).

Lemma findByIdAndDelete_found (docs : list A) (id : string) (x : A) :
  isObjectId id = true -> List.find (has_id id_of id) docs = Some x ->
  Query.findByIdAndDelete get id_of docs id
  = Mongo.Got (Some x, Query.remove id_of id docs).
Proof.
  intros V F. unfold Query.findByIdAndDelete.
  rewrite (findById_find get id_of get_id _ _ V), F.
  rewrite (find_has_id id_of _ _ _ F). reflexivity.
Qed.

Lemma findByIdAndDelete_absent (docs : list A) (id : string) :
  isObjectId id = true -> List.find (has_id id_of id) docs = None ->
  Query.findByIdAndDelete get id_of docs id = Mongo.Got (None, docs).
Proof.
  intros V F. unfold Query.findByIdAndDelete.
  rewrite (findById_find get id_of get_id _ _ V), F. reflexivity.
Qed.

End Deleting.

(** X10: when an admin deletes another stored user, the answer is 200 and
    exactly that user goes: one user fewer, every other id (the admin's
    own included) is looked up as before, the other collections are
    untouched.  For an id written as stored ids are (24 hexadecimal digits
    in lower case) that is not stored the answer is 404 and nothing
    changes. *)
Theorem user_delete_removes_one `{Platform} (st : Store) (r : Request)
        (a : User.t) :
  principal st r = Some a -> User.role a = "admin" ->
  params_id r <> User._id a -> isObjectId (params_id r) = true ->
  (forall u, stored_user st (params_id r) = Some u ->
     status (fst (UserRoutes.delete st r)) = 200%nat
     /\ removed_one User._id (params_id r) (users st)
                    (users (snd (UserRoutes.delete st r)))
     /\ stored_user (snd (UserRoutes.delete st r)) (User._id a)
        = stored_user st (User._id a)
     /\ education (snd (UserRoutes.delete st r)) = education st
     /\ projects (snd (UserRoutes.delete st r)) = projects st
     /\ contacts (snd (UserRoutes.delete st r)) = contacts st)
  /\ (canonical_id (params_id r) = true ->
      stored_user st (params_id r) = None ->
      UserRoutes.delete st r = (fail 404 "User not found", st)).
Proof.
  intros P R Ne V.
  unfold UserRoutes.delete. rewrite (behind_admin_guards _ st r a P R).
  unfold UserRoutes.delete_handler. cbn [req user].
  destruct (String.eqb_spec (params_id r) (User._id a)) as [E|_]; [contradiction|].
  split.
  - intros u F. unfold stored_user in F.
    rewrite (findByIdAndDelete_found Paths.user User._id (fun _ => eq_refl)
               _ _ u V F).
    cbn [fst snd status users education projects contacts Routes.with_users].
    pose proof (remove_removed_one User._id _ _ u F) as RO.
    split; [reflexivity|]. split; [exact RO|]. split; [|repeat split].
    unfold stored_user.
    apply (proj1 (proj2 RO)). congruence.
  - intros _ F. unfold stored_user in F.
    rewrite (findByIdAndDelete_absent Paths.user User._id (fun _ => eq_refl)
               _ _ V F).
    reflexivity.
Qed.

Lemma user_delete_removes_one_witness :
  map User._id
      (users (snd (UserRoutes.delete (H := Sample.platform) Sample.store
                     (Sample.on Sample.visitor_id (Sample.as_admin Sample.blank)))))
  = [Sample.admin_id]
  /\ removed_one User._id Sample.visitor_id (users Sample.store)
       (users (snd (UserRoutes.delete (H := Sample.platform) Sample.store
                      (Sample.on Sample.visitor_id (Sample.as_admin Sample.blank))))).
Proof.
  split; [vm_compute; reflexivity|].
  exact (proj1 (proj2 (proj1
    (user_delete_removes_one (H := Sample.platform) Sample.store
       (Sample.on Sample.visitor_id (Sample.as_admin Sample.blank))
       (Auth.select_without_password Sample.the_admin)
       ltac:(vm_compute; reflexivity) eq_refl ltac:(discriminate)
       ltac:(vm_compute; reflexivity))
    Sample.the_visitor ltac:(vm_compute; reflexivity)))).
Defined.

(** X11: the delete routes of Education, Project and Contact, called by an
    admin: for a stored id the answer is 200 and exactly that document goes
    from its collection, the other collections untouched; for an id written
    as stored ids are (24 hexadecimal digits in lower case) that is not
    stored the answer is 404 and nothing changes. *)
Theorem record_delete_removes_one `{Platform} (st : Store) (r : Request)
        (a : User.t) :
  principal st r = Some a -> User.role a = "admin" ->
  isObjectId (params_id r) = true ->
  ((forall e, stored_education st (params_id r) = Some e ->
      status (fst (Admin.education_delete st r)) = 200%nat
      /\ removed_one Education._id (params_id r) (education st)
                     (education (snd (Admin.education_delete st r)))
      /\ users (snd (Admin.education_delete st r)) = users st
      /\ projects (snd (Admin.education_delete st r)) = projects st
      /\ contacts (snd (Admin.education_delete st r)) = contacts st)
   /\ (canonical_id (params_id r) = true ->
       stored_education st (params_id r) = None ->
       Admin.education_delete st r = (fail 404 "Education record not found", st)))
  /\ ((forall p, stored_project st (params_id r) = Some p ->
         status (fst (Admin.project_delete st r)) = 200%nat
         /\ removed_one Project._id (params_id r) (projects st)
                        (projects (snd (Admin.project_delete st r)))
         /\ users (snd (Admin.project_delete st r)) = users st
         /\ education (snd (Admin.project_delete st r)) = education st
         /\ contacts (snd (Admin.project_delete st r)) = contacts st)
      /\ (canonical_id (params_id r) = true ->
       stored_project st (params_id r) = None ->
          Admin.project_delete st r = (fail 404 "Project not found", st)))
  /\ ((forall c, stored_contact st (params_id r) = Some c ->
         status (fst (Admin.contact_delete st r)) = 200%nat
         /\ removed_one Contact._id (params_id r) (contacts st)
                        (contacts (snd (Admin.contact_delete st r)))
         /\ users (snd (Admin.contact_delete st r)) = users st
         /\ education (snd (Admin.contact_delete st r)) = education st
         /\ projects (snd (Admin.contact_delete st r)) = projects st)
      /\ (canonical_id (params_id r) = true ->
       stored_contact st (params_id r) = None ->
          Admin.contact_delete st r = (fail 404 "Contact not found", st))).
Proof.
  intros P R V.
  unfold Admin.education_delete, Admin.project_delete, Admin.contact_delete.
  rewrite !(behind_admin_guards _ st r a P R).
  unfold Admin.education_delete_handler, Admin.project_delete_handler,
    Admin.contact_delete_handler. cbn [req].
  split; [|split]; split.
  - intros e F. unfold stored_education in F.
    rewrite (findByIdAndDelete_found Paths.education Education._id
               (fun _ => eq_refl) _ _ e V F).
    split; [reflexivity|].
    split; [exact (remove_removed_one Education._id _ _ e F) | repeat split].
  - intros _ F. unfold stored_education in F.
    rewrite (findByIdAndDelete_absent Paths.education Education._id
               (fun _ => eq_refl) _ _ V F). reflexivity.
  - intros p F. unfold stored_project in F.
    rewrite (findByIdAndDelete_found Paths.project Project._id
               (fun _ => eq_refl) _ _ p V F).
    split; [reflexivity|].
    split; [exact (remove_removed_one Project._id _ _ p F) | repeat split].
  - intros _ F. unfold stored_project in F.
    rewrite (findByIdAndDelete_absent Paths.project Project._id
               (fun _ => eq_refl) _ _ V F). reflexivity.
  - intros c F. unfold stored_contact in F.
    rewrite (findByIdAndDelete_found Paths.contact Contact._id
               (fun _ => eq_refl) _ _ c V F).
    split; [reflexivity|].
    split; [exact (remove_removed_one Contact._id _ _ c F) | repeat split].
  - intros _ F. unfold stored_contact in F.
    rewrite (findByIdAndDelete_absent Paths.contact Contact._id
               (fun _ => eq_refl) _ _ V F). reflexivity.
Qed.

Lemma record_delete_removes_one_witness :
  education (snd (Admin.education_delete (H := Sample.platform) Sample.store
                    (Sample.on "64b000000000000000000e02"
                       (Sample.as_admin Sample.blank))))
  = [Sample.shown_course]
  /\ Admin.education_delete (H := Sample.platform) Sample.store
       (Sample.on "64b000000000000000000e09" (Sample.as_admin Sample.blank))
     = (fail 404 "Education record not found", Sample.store).
Proof.
  split; [vm_compute; reflexivity|].
  apply (proj2 (proj1
    (record_delete_removes_one (H := Sample.platform) Sample.store
       (Sample.on "64b000000000000000000e09" (Sample.as_admin Sample.blank))
       (Auth.select_without_password Sample.the_admin)
       ltac:(vm_compute; reflexivity) eq_refl ltac:(vm_compute; reflexivity)))).
  - vm_compute. reflexivity.
  - vm_compute. reflexivity.
Defined.

(** ** The featured toggle *)

Lemma featured_step `{Platform} (st : Store) (r : Request) (a : User.t)
      (p : Project.t) :
  principal st r = Some a -> User.role a = "admin" ->
  isObjectId (params_id r) = true ->
  stored_project st (params_id r) = Some p ->
  snd (Admin.featured st r)
  = Routes.with_projects st
      (Query.save Project._id
         (Admin.with_featured (negb (Project.isFeatured p)) p) (projects st))
  /\ stored_project (snd (Admin.featured st r)) (params_id r)
     = Some (Admin.with_featured (negb (Project.isFeatured p)) p).
Proof.
  intros P R V F. unfold Admin.featured.
  rewrite (behind_admin_guards _ st r a P R).
  unfold Admin.featured_handler. cbn [req params_id].
  rewrite (findById_find Paths.project Project._id (fun _ => eq_refl) _ _ V).
  unfold stored_project in F. unfold has_id. rewrite F. simpl.
  split; [reflexivity|].
  unfold stored_project. simpl.
  exact (find_save Project._id (projects st) (params_id r) p
           (Admin.with_featured (negb (Project.isFeatured p)) p) F
           (find_has_id Project._id _ _ _ F)).
Qed.

(** X12: [PUT /api/projects/:id/featured] by an admin on a stored project
    stores the negation of [isFeatured] and leaves [isVisible] (and so who
    may read the project), [likes] and [views] as they were; after a second
    call the stored project has its original [isFeatured], and the same
    [isVisible], [likes] and [views]. *)
Theorem featured_toggle_twice `{Platform} (st : Store) (r : Request) (a : User.t)
        (p : Project.t) :
  principal st r = Some a -> User.role a = "admin" ->
  isObjectId (params_id r) = true ->
  stored_project st (params_id r) = Some p ->
  (exists q, stored_project (snd (Admin.featured st r)) (params_id r) = Some q
             /\ Project.isFeatured q = negb (Project.isFeatured p)
             /\ Project.isVisible q = Project.isVisible p
             /\ Project.likes q = Project.likes p
             /\ Project.views q = Project.views p)
  /\ (exists q,
        stored_project (snd (Admin.featured (snd (Admin.featured st r)) r))
                       (params_id r) = Some q
        /\ Project.isFeatured q = Project.isFeatured p
        /\ Project.isVisible q = Project.isVisible p
        /\ Project.likes q = Project.likes p
        /\ Project.views q = Project.views p).
Proof.
  intros P R V F.
  destruct (featured_step st r a p P R V F) as [S1 F1]. split.
  - eexists. split; [exact F1|]. repeat split.
  - assert (P1 : principal (snd (Admin.featured st r)) r = Some a).
    { rewrite <- P. apply principal_users. rewrite S1. reflexivity. }
    destruct (featured_step _ r a _ P1 R V F1) as [_ F2].
    eexists. split; [exact F2|].
    cbn [Admin.with_featured Project.isFeatured Project.isVisible Project.likes
         Project.views].
    rewrite negb_involutive. repeat split.
Qed.

Lemma featured_toggle_twice_witness :
  exists q,
    stored_project
      (snd (Admin.featured (H := Sample.platform)
              (snd (Admin.featured (H := Sample.platform) Sample.store
                      (Sample.on "64b000000000000000000b02"
                         (Sample.as_admin Sample.blank))))
              (Sample.on "64b000000000000000000b02" (Sample.as_admin Sample.blank))))
      "64b000000000000000000b02"
    = Some q
    /\ Project.isFeatured q = Project.isFeatured Sample.hidden_project.
Proof.
  destruct (proj2 (featured_toggle_twice (H := Sample.platform) Sample.store
                     (Sample.on "64b000000000000000000b02"
                        (Sample.as_admin Sample.blank))
                     (Auth.select_without_password Sample.the_admin)
                     Sample.hidden_project
                     ltac:(vm_compute; reflexivity) eq_refl
                     ltac:(vm_compute; reflexivity) ltac:(vm_compute; reflexivity)))
    as (q & St & Fe & _).
  exists q. split; [exact St | exact Fe].
Defined.

(** ** What a like toggle touches *)

Lemma findIndex_none_count (me : ObjectId) (l : list Like.t) :
  ProjectRoutes.findIndex me l = None -> likes_of me l = 0%nat.
Proof.
  unfold likes_of. induction l as [|k l IH]; simpl; [reflexivity|].
  destruct (String.eqb (Like.userId k) me); [discriminate|].
  destruct (ProjectRoutes.findIndex me l); [discriminate|].
  intros _. apply IH. reflexivity.
Qed.

Lemma splice_at_found (me : ObjectId) (l : list Like.t) (i : nat) :
  ProjectRoutes.findIndex me l = Some i ->
  (forall other, other <> me ->
     List.filter (fun k => String.eqb (Like.userId k) other)
                 (ProjectRoutes.splice1 i l)
     = List.filter (fun k => String.eqb (Like.userId k) other) l)
  /\ S (likes_of me (ProjectRoutes.splice1 i l)) = likes_of me l.
Proof.
  unfold likes_of. revert i. induction l as [|k l IH]; intros i; [discriminate|].
  simpl. destruct (String.eqb_spec (Like.userId k) me) as [E|E].
  - intros F. inversion F; subst i. simpl. split; [|reflexivity].
    intros other Ne.
    destruct (String.eqb_spec (Like.userId k) other); [congruence | reflexivity].
  - destruct (ProjectRoutes.findIndex me l) as [j|]; [|discriminate].
    intros F. inversion F; subst i. destruct (IH j eq_refl) as [O C].
    simpl. destruct (String.eqb_spec (Like.userId k) me); [contradiction|].
    split; [|exact C].
    intros other Ne. rewrite (O other Ne). reflexivity.
Qed.

(** The toggle on the array: the caller's entries go from none to one or
    drop by one, and the entries of everybody else stay, in order. *)
Lemma toggle_like_effect (me : ObjectId) (t : Z) (l : list Like.t) :
  (forall other, other <> me ->
     List.filter (fun k => String.eqb (Like.userId k) other)
                 (ProjectRoutes.toggle_like me t l)
     = List.filter (fun k => String.eqb (Like.userId k) other) l)
  /\ likes_of me (ProjectRoutes.toggle_like me t l)
     = match likes_of me l with O => 1%nat | S n => n end.
Proof.
  unfold ProjectRoutes.toggle_like.
  destruct (ProjectRoutes.findIndex me l) as [i|] eqn:F.
  - destruct (splice_at_found me l i F) as [O C]. split; [exact O|].
    rewrite <- C. reflexivity.
  - rewrite (findIndex_none_count me l F). split.
    + intros other Ne. rewrite filter_app. simpl.
      destruct (String.eqb_spec me other); [congruence|].
      apply app_nil_r.
    + rewrite likes_of_appended, (findIndex_none_count me l F). reflexivity.
Qed.

(** X13: one [POST /api/projects/:id/like] by an authenticated principal on
    a stored project, whatever its [likes] hold: the entries of every other
    principal are kept as they are and in order, the caller's entries go
    from none to one or drop by one, the answer reports whether a like was
    added and the new length of [likes], and the project's id, texts,
    category, status, technologies, tags, flags, sort order, views, creator
    and creation date are as before. *)
Theorem like_touches_only_caller `{Platform} (st : Store) (r : Request)
        (a : User.t) (p : Project.t) :
  principal st r = Some a ->
  isObjectId (params_id r) = true ->
  stored_project st (params_id r) = Some p ->
  exists q,
    stored_project (snd (ProjectRoutes.like st r)) (params_id r) = Some q
    /\ same_but_likes p q
    /\ (forall other, other <> User._id a ->
          List.filter (fun k => String.eqb (Like.userId k) other) (Project.likes q)
          = List.filter (fun k => String.eqb (Like.userId k) other)
                        (Project.likes p))
    /\ likes_of (User._id a) (Project.likes q)
       = match likes_of (User._id a) (Project.likes p) with
         | O => 1%nat
         | S n => n
         end
    /\ data (fst (ProjectRoutes.like st r))
       = LikeState (Nat.eqb (likes_of (User._id a) (Project.likes p)) 0)
                   (Virtuals.likeCount q).
Proof.
  intros P V F.
  pose proof (like_step st r a p P V F) as S1.
  destruct (toggle_like_effect (User._id a) (now r) (Project.likes p)) as [O C].
  exists (ProjectRoutes.with_likes
            (ProjectRoutes.toggle_like (User._id a) (now r) (Project.likes p)) p).
  split; [|split; [unfold same_but_likes; repeat split
                  | split; [exact O | split; [exact C|]]]].
  - rewrite S1. unfold stored_project in *. cbn [projects Routes.with_projects].
    exact (find_save Project._id (projects st) (params_id r) p
             (ProjectRoutes.with_likes
                (ProjectRoutes.toggle_like (User._id a) (now r) (Project.likes p))
                p)
             F (find_has_id Project._id _ _ _ F)).
  - unfold ProjectRoutes.like. rewrite (behind_protect _ st r a P).
    unfold ProjectRoutes.like_handler. cbn [req params_id user].
    rewrite (findById_find Paths.project Project._id (fun _ => eq_refl) _ _ V).
    unfold stored_project in F. unfold has_id. rewrite F.
    cbn [fst data ok]. unfold Virtuals.likeCount. f_equal.
    destruct (ProjectRoutes.findIndex (User._id a) (Project.likes p)) as [i|] eqn:FI.
    + destruct (splice_at_found _ _ _ FI) as [_ C']. rewrite <- C'. reflexivity.
    + rewrite (findIndex_none_count _ _ FI). reflexivity.
Qed.

Lemma like_touches_only_caller_witness :
  exists q,
    stored_project
      (snd (ProjectRoutes.like (H := Sample.platform) Sample.store
              (Sample.on "64b000000000000000000b02" (Sample.as_admin Sample.blank))))
      "64b000000000000000000b02"
    = Some q
    /\ same_but_likes Sample.hidden_project q
    /\ data (fst (ProjectRoutes.like (H := Sample.platform) Sample.store
                    (Sample.on "64b000000000000000000b02"
                       (Sample.as_admin Sample.blank))))
       = LikeState false (Virtuals.likeCount q).
Proof.
  destruct (like_touches_only_caller (H := Sample.platform) Sample.store
              (Sample.on "64b000000000000000000b02" (Sample.as_admin Sample.blank))
              (Auth.select_without_password Sample.the_admin)
              Sample.hidden_project
              ltac:(vm_compute; reflexivity) ltac:(vm_compute; reflexivity)
              ltac:(vm_compute; reflexivity)) as (q & St & Same & _ & _ & D).
  exists q. split; [exact St|]. split; [exact Same | exact D].
Defined.

(** ** The [duration] virtuals *)

Lemma ceiling_quotient (a n : Z) :
  0 < n -> Qceiling (inject_Z a / inject_Z n)%Q = (a + n - 1) / n.
Proof.
  intros Pos. unfold Qceiling, Qfloor.
  destruct n as [|m|m]; try lia.
  cbn. rewrite Z.mul_1_r.
  apply Z.div_unique with (r := (a + Z.pos m - 1) - Z.pos m * - (- a / Z.pos m)).
  - left. pose proof (Z.div_mod (- a) (Z.pos m) ltac:(lia)).
    pose proof (Z.mod_pos_bound (- a) (Z.pos m) ltac:(lia)). nia.
  - lia.
Qed.

Lemma diffDays_whole (startDate : Z) (endDate : option Z) (today : Z) :
  Virtuals.diffDays startDate endDate today
  = (Z.abs (match endDate with Some e => e | None => today end - startDate)
     + Virtuals.day - 1) / Virtuals.day.
Proof.
  unfold Virtuals.diffDays. apply ceiling_quotient. reflexivity.
Qed.

(** X14: the parts of a duration, for two dates no more than
    [Number.MAX_SAFE_INTEGER] milliseconds apart.  The day count is the
    span between the two dates rounded up to whole days, whichever of the
    two comes first; the months shown lie between 0 and 12, and years and
    months together fall short of the day count by less than 30 days. *)
Theorem duration_parts (startDate : Z) (endDate : option Z) (today : Z) :
  let finish := match endDate with Some e => e | None => today end in
  let d := Virtuals.diffDays startDate endDate today in
  Z.abs (finish - startDate) <= max_safe_integer ->
  (d - 1) * Virtuals.day < Z.abs (finish - startDate) <= d * Virtuals.day
  /\ Virtuals.diffDays finish (Some startDate) today = d
  /\ 0 <= Virtuals.years d
  /\ 0 <= Virtuals.months d <= 12
  /\ 365 * Virtuals.years d + 30 * Virtuals.months d <= d
  /\ d < 365 * Virtuals.years d + 30 * Virtuals.months d + 30.
Proof.
  intros finish d _.
  assert (D : d = (Z.abs (finish - startDate) + Virtuals.day - 1) / Virtuals.day)
    by apply diffDays_whole.
  assert (Dpos : 0 < Virtuals.day) by reflexivity.
  pose proof (Z.div_mod (Z.abs (finish - startDate) + Virtuals.day - 1)
                        Virtuals.day ltac:(lia)) as DM.
  pose proof (Z.mod_pos_bound (Z.abs (finish - startDate) + Virtuals.day - 1)
                              Virtuals.day Dpos) as MB.
  rewrite <- D in DM.
  assert (Dnn : 0 <= d) by (pose proof (Z.abs_nonneg (finish - startDate)); nia).
  unfold Virtuals.years, Virtuals.months.
  pose proof (Z.div_mod d 365 ltac:(lia)) as YM.
  pose proof (Z.mod_pos_bound d 365 ltac:(lia)) as YB.
  pose proof (Z.div_mod (d mod 365) 30 ltac:(lia)) as MM.
  pose proof (Z.mod_pos_bound (d mod 365) 30 ltac:(lia)) as MB'.
  assert (Y0 : 0 <= d / 365) by (apply Z.div_pos; lia).
  assert (M0 : 0 <= (d mod 365) / 30) by (apply Z.div_pos; lia).
  split; [split; nia|]. split.
  - rewrite diffDays_whole. rewrite D. f_equal. f_equal. f_equal.
    replace (startDate - finish) with (- (finish - startDate)) by lia.
    apply Z.abs_opp.
  - repeat split; try lia; nia.
Qed.

Lemma duration_parts_witness :
  Virtuals.diffDays 0 (Some (400 * Virtuals.day + 1)) 0 = 401
  /\ Virtuals.years 401 = 1 /\ Virtuals.months 401 = 1
  /\ 400 * Virtuals.day < Z.abs (400 * Virtuals.day + 1 - 0) <= 401 * Virtuals.day.
Proof.
  split; [reflexivity|]. split; [reflexivity|]. split; [reflexivity|].
  exact (proj1 (duration_parts 0 (Some (400 * Virtuals.day + 1)) 0
                  ltac:(vm_compute; discriminate))).
Defined.

Lemma short_text (d : Z) :
  0 <= d < 30 -> Virtuals.years d = 0 /\ Virtuals.months d = 0.
Proof.
  intros B. unfold Virtuals.years, Virtuals.months.
  rewrite (Z.div_small d 365) by lia. rewrite (Z.mod_small d 365) by lia.
  rewrite (Z.div_small d 30) by lia. auto.
Qed.

Lemma diffDays_nonneg (startDate : Z) (endDate : option Z) (today : Z) :
  0 <= Virtuals.diffDays startDate endDate today.
Proof.
  rewrite diffDays_whole.
  assert (Dpos : 0 < Virtuals.day) by reflexivity.
  apply Z.div_pos; [|exact Dpos].
  pose proof (Z.abs_nonneg
                (match endDate with Some e => e | None => today end - startDate)).
  lia.
Qed.

Lemma years_months_bounds (d : Z) :
  0 <= d ->
  0 <= Virtuals.years d
  /\ 0 <= Virtuals.months d
  /\ d < 365 * Virtuals.years d + 30 * Virtuals.months d + 30.
Proof.
  intros Dnn. unfold Virtuals.years, Virtuals.months.
  pose proof (Z.div_mod d 365 ltac:(lia)) as YM.
  pose proof (Z.mod_pos_bound d 365 ltac:(lia)) as YB.
  pose proof (Z.div_mod (d mod 365) 30 ltac:(lia)) as MM.
  pose proof (Z.mod_pos_bound (d mod 365) 30 ltac:(lia)) as MB.
  assert (Y0 : 0 <= d / 365) by (apply Z.div_pos; lia).
  assert (M0 : 0 <= (d mod 365) / 30) by (apply Z.div_pos; lia).
  repeat split; lia.
Qed.

(** X15: the two [duration] virtuals give the same text from 30 days on.
    Below 30 days the Education model always says ["0 month"], where the
    Project model gives the number of days. *)
Theorem durations_compared (startDate : Z) (endDate : option Z) (today : Z) :
  (30 <= Virtuals.diffDays startDate endDate today ->
   Virtuals.education_duration startDate endDate today
   = Virtuals.project_duration startDate endDate today)
  /\ (Virtuals.diffDays startDate endDate today < 30 ->
      Virtuals.education_duration startDate endDate today = "0 month"
      /\ Virtuals.project_duration startDate endDate today
         = (JS.string_of_Z (Virtuals.diffDays startDate endDate today) ++ " day"
              ++ Virtuals.plural (Virtuals.diffDays startDate endDate today))%string).
Proof.
  pose proof (diffDays_nonneg startDate endDate today) as Dnn.
  destruct (years_months_bounds _ Dnn) as (Y & M & Hi).
  unfold Virtuals.education_duration, Virtuals.project_duration.
  set (d := Virtuals.diffDays startDate endDate today) in *.
  split.
  - intros Long. destruct (Z.ltb_spec 0 (Virtuals.years d)); [reflexivity|].
    destruct (Z.ltb_spec 0 (Virtuals.months d)); [reflexivity | lia].
  - intros Short.
    assert (B : 0 <= d < 30) by lia.
    destruct (short_text d B) as [Y0 M0]. rewrite Y0, M0. split; reflexivity.
Qed.

Lemma durations_compared_witness :
  Virtuals.education_duration 0 (Some (400 * Virtuals.day)) 0 = "1 year 1 month"
  /\ Virtuals.project_duration 0 (Some (400 * Virtuals.day)) 0 = "1 year 1 month"
  /\ Virtuals.education_duration 0 (Some (12 * Virtuals.day)) 0 = "0 month"
  /\ Virtuals.project_duration 0 (Some (12 * Virtuals.day)) 0 = "12 days".
Proof.
  split; [vm_compute; reflexivity|]. split.
  - rewrite <- (proj1 (durations_compared 0 (Some (400 * Virtuals.day)) 0)
                  ltac:(vm_compute; discriminate)).
    vm_compute. reflexivity.
  - split.
    + exact (proj1 (proj2 (durations_compared 0 (Some (12 * Virtuals.day)) 0)
                      ltac:(vm_compute; reflexivity))).
    + vm_compute. reflexivity.
Defined.

(** ** A contact submission that passes *)

Lemma isLength_within (lo hi : nat) (s : string) :
  Validator.isLength lo (Some hi) s = true -> within lo hi s.
Proof.
  unfold Validator.isLength, within. intros E. apply andb_prop in E.
  destruct E as [A B]. apply Nat.leb_le in A. apply Nat.leb_le in B. lia.
Qed.

(** X16: for a JSON body with every key once, its strings in ASCII and its
    numbers within [Number.MAX_SAFE_INTEGER],
    [POST /api/contact] changes the store only when it answers 201, and
    then by appending one contact: the one whose id, name, e-mail, subject,
    message and creation date the answer repeats, with status ['new'] and
    priority ['medium'], whose trimmed name, subject and message are
    within the validators' bounds, whose phone has at most 20 characters
    and whose e-mail matches the schema's pattern. *)
Theorem contact_submit_stores_valid `{Platform} (st : Store) (r : Request) :
  plain_body (body r) = true ->
  (status (fst (ContactRoutes.submit st r)) = 201%nat ->
   exists c,
     snd (ContactRoutes.submit st r)
     = Routes.with_contacts st (contacts st ++ [c])%list
     /\ data (fst (ContactRoutes.submit st r))
        = ContactReceipt (ContactRoutes.receipt c)
     /\ Contact.status c = "new" /\ Contact.priority c = "medium"
     /\ within 2 100 (Contact.name c)
     /\ within 5 200 (Contact.subject c)
     /\ within 10 1000 (Contact.message c)
     /\ (forall ph, Contact.phone c = Some ph -> within 0 20 ph)
     /\ ContactRoutes.email_matches (Contact.email c) = true)
  /\ (status (fst (ContactRoutes.submit st r)) <> 201%nat ->
      snd (ContactRoutes.submit st r) = st).
Proof.
  intros _.
  unfold ContactRoutes.submit, serve, chain, ContactRoutes.submit_handler.
  cbn [req].
  unfold ContactRoutes.phone_chain, Validator.trimmed_length,
    ContactRoutes.email_chain.
  destruct (lookup "phone" (body r)) as [ph|] eqn:Ph;
    destruct (Validator.isLength 2 (Some 100%nat) _) eqn:N;
    try (cbn; split; [discriminate | reflexivity]);
    destruct (isEmail _) eqn:E;
    try (cbn; split; [discriminate | reflexivity]);
    destruct (Validator.isLength 5 (Some 200%nat) _) eqn:S;
    try (cbn; split; [discriminate | reflexivity]);
    destruct (Validator.isLength 10 (Some 1000%nat) _) eqn:M;
    try (cbn; split; [discriminate | reflexivity]).
  - destruct (Validator.isLength 0 (Some 20%nat) _) eqn:L;
      [|cbn; split; [discriminate | reflexivity]].
    cbn [app]. destruct (ContactRoutes.email_matches _) eqn:EM;
      [|cbn; split; [discriminate | reflexivity]].
    cbn [fst snd status data]. split; [|intros C; contradiction C; reflexivity].
    intros _. eexists. split; [reflexivity|]. split; [reflexivity|].
    cbn [Contact.status Contact.priority Contact.name Contact.subject
         Contact.message Contact.phone Contact.email].
    split; [reflexivity|]. split; [reflexivity|].
    split; [apply isLength_within; exact N|].
    split; [apply isLength_within; exact S|].
    split; [apply isLength_within; exact M|].
    split; [|exact EM].
    intros ph' Eq. inversion Eq; subst. apply isLength_within. exact L.
  - cbn [app]. destruct (ContactRoutes.email_matches _) eqn:EM;
      [|cbn; split; [discriminate | reflexivity]].
    cbn [fst snd status data]. split; [|intros C; contradiction C; reflexivity].
    intros _. eexists. split; [reflexivity|]. split; [reflexivity|].
    cbn [Contact.status Contact.priority Contact.name Contact.subject
         Contact.message Contact.phone Contact.email].
    split; [reflexivity|]. split; [reflexivity|].
    split; [apply isLength_within; exact N|].
    split; [apply isLength_within; exact S|].
    split; [apply isLength_within; exact M|].
    split; [|exact EM].
    intros ph' Eq. discriminate Eq.
Qed.

Lemma contact_submit_stores_valid_witness :
  map Contact.name
      (contacts (snd (ContactRoutes.submit (H := Sample.platform) Sample.store
         (Sample.sending
            [("name", JS.VStr "  Jo  "); ("email", JS.VStr "Jo@Example.com");
             ("subject", JS.VStr "Hello"); ("message", JS.VStr "A longer message")]
            Sample.blank))))
  = ["Jordan"; "Jordan"; "Jordan"; "Jordan"; "Jordan"; "Jo"]
  /\ exists c,
       snd (ContactRoutes.submit (H := Sample.platform) Sample.store
              (Sample.sending
                 [("name", JS.VStr "  Jo  "); ("email", JS.VStr "Jo@Example.com");
                  ("subject", JS.VStr "Hello");
                  ("message", JS.VStr "A longer message")]
                 Sample.blank))
       = Routes.with_contacts Sample.store (contacts Sample.store ++ [c])%list
       /\ within 2 100 (Contact.name c)
       /\ ContactRoutes.email_matches (Contact.email c) = true.
Proof.
  split; [vm_compute; reflexivity|].
  destruct (proj1 (contact_submit_stores_valid (H := Sample.platform) Sample.store
              (Sample.sending
                 [("name", JS.VStr "  Jo  "); ("email", JS.VStr "Jo@Example.com");
                  ("subject", JS.VStr "Hello");
                  ("message", JS.VStr "A longer message")]
                 Sample.blank)
              ltac:(vm_compute; reflexivity))
              ltac:(vm_compute; reflexivity))
    as (c & St & _ & _ & _ & N & _ & _ & _ & E).
  exists c. split; [exact St|]. split; [exact N | exact E].
Defined.

(** ** Roles under the user routes *)

Lemma save_in {A : Type} (id_of : A -> ObjectId) (y x : A) (docs : list A) :
  In x (Query.save id_of y docs) -> x = y \/ In x docs.
Proof.
  induction docs as [|z docs IH]; simpl; [tauto|].
  destruct (String.eqb (id_of z) (id_of y)); simpl.
  - intros [E | I]; auto.
  - intros [E | I]; auto. destruct (IH I); auto.
Qed.

Lemma remove_in {A : Type} (id_of : A -> ObjectId) (id : ObjectId) (x : A)
      (docs : list A) :
  In x (Query.remove id_of id docs) -> In x docs.
Proof.
  induction docs as [|z docs IH]; simpl; [tauto|].
  destruct (String.eqb (id_of z) id); simpl; [auto|].
  intros [E | I]; auto.
Qed.

Lemma one_of_passed (path msg : string) (values : list string)
      (v : option JS.value) :
  Validator.one_of path msg values v = [] -> In (Validator.input v) values.
Proof.
  unfold Validator.one_of, Validator.isIn.
  destruct (existsb _ values) eqn:E; [|discriminate].
  intros _. apply existsb_exists in E. destruct E as (s & I & Eq).
  apply String.eqb_eq in Eq. subst. exact I.
Qed.

Lemma findById_in `{Platform} {A : Type} (get : string -> A -> Mongo.field)
      (docs : list A) (id : option string) (x : A) :
  Query.findById get docs id = Mongo.Got (Some x) -> In x docs.
Proof.
  destruct id as [s|]; [|discriminate]. unfold Query.findById.
  intros F. exact (proj1 (findOne_sound get _ _ _ F)).
Qed.

(** X17: the role, status and delete routes keep the stored roles within
    ['user'] and ['admin']: whatever the request, if every stored user has
    one of the two roles before, so it is after. *)
Theorem roles_stay_valid `{Platform} (st : Store) (r : Request) :
  roles_valid st ->
  roles_valid (snd (UserRoutes.role st r))
  /\ roles_valid (snd (UserRoutes.status st r))
  /\ roles_valid (snd (UserRoutes.delete st r)).
Proof.
  intros RV. split; [|split].
  - unfold UserRoutes.role.
    destruct (guarded_cases UserRoutes.role_handler st r)
      as [(_ & _ & S) | (a & _ & _ & E)]; [rewrite S; exact RV|].
    rewrite E. unfold UserRoutes.role_handler. cbn [req user].
    destruct (Validator.one_of _ _ _ _) eqn:Val; [|exact RV].
    apply one_of_passed in Val.
    destruct (_ && _); [exact RV|].
    unfold Query.findByIdAndUpdate.
    destruct (Query.findById _ _ _) as [|[d|]] eqn:F; try exact RV.
    cbn [snd]. intros u I. cbn [users Routes.with_users] in I.
    apply save_in in I. destruct I as [-> | I]; [|exact (RV u I)].
    cbn [UserRoutes.with_role User.role].
    simpl in Val. destruct Val as [<- | [<- | []]]; auto.
  - unfold UserRoutes.status.
    destruct (guarded_cases UserRoutes.status_handler st r)
      as [(_ & _ & S) | (a & _ & _ & E)]; [rewrite S; exact RV|].
    rewrite E. unfold UserRoutes.status_handler. cbn [req user].
    destruct (Validator.boolean _ _ _); [|exact RV].
    destruct (_ && _); [exact RV|].
    destruct (option_map UserRoutes.castBoolean _) as [[b|]|]; try exact RV.
    unfold Query.findByIdAndUpdate.
    destruct (Query.findById _ _ _) as [|[d|]] eqn:F; try exact RV.
    cbn [snd]. intros u I. cbn [users Routes.with_users] in I.
    apply save_in in I. destruct I as [-> | I]; [|exact (RV u I)].
    cbn [UserRoutes.with_isActive User.role].
    apply RV. exact (findById_in _ _ _ _ F).
  - unfold UserRoutes.delete.
    destruct (guarded_cases UserRoutes.delete_handler st r)
      as [(_ & _ & S) | (a & _ & _ & E)]; [rewrite S; exact RV|].
    rewrite E. unfold UserRoutes.delete_handler. cbn [req user].
    destruct (String.eqb _ _); [exact RV|].
    unfold Query.findByIdAndDelete.
    destruct (Query.findById _ _ _) as [|[d|]] eqn:F; try exact RV.
    cbn [snd]. intros u I. cbn [users Routes.with_users] in I.
    apply remove_in in I. exact (RV u I).
Qed.

Lemma roles_stay_valid_witness :
  roles_valid Sample.store
  /\ roles_valid
       (snd (UserRoutes.role (H := Sample.platform) Sample.store
               (Sample.sending [("role", JS.VStr "admin")]
                  (Sample.on Sample.visitor_id (Sample.as_admin Sample.blank)))))
  /\ map User.role
       (users (snd (UserRoutes.role (H := Sample.platform) Sample.store
                      (Sample.sending [("role", JS.VStr "admin")]
                         (Sample.on Sample.visitor_id
                            (Sample.as_admin Sample.blank))))))
     = ["admin"; "admin"].
Proof.
  assert (RV : roles_valid Sample.store).
  { intros u [<- | [<- | []]]; [right | left]; reflexivity. }
  split; [exact RV|]. split; [|vm_compute; reflexivity].
  exact (proj1 (roles_stay_valid (H := Sample.platform) Sample.store _ RV)).
Defined.

(** ** The sender of a role or delete request *)

Lemma string_of_Z_is_no_role (z : Z) : JS.string_of_Z z <> "user".
Proof.
  unfold JS.string_of_Z. destruct (Z.to_int z) as [d|d]; destruct d;
    simpl; discriminate.
Qed.

Lemma self_role_is_admin (v : option JS.value) :
  In (Validator.input v) ["user"; "admin"] ->
  UserRoutes.is_string "user" v = false ->
  Validator.input v = "admin".
Proof.
  intros [E | [E | []]] NS; [|symmetry; exact E].
  destruct v as [[| [|] |z|s]|]; simpl in *; try discriminate.
  - exfalso. apply (string_of_Z_is_no_role z). symmetry. exact E.
  - subst s. discriminate NS.
Qed.

(** X18: an admin's own role and delete requests never cost them their
    account or their role, when the id of the request is written as stored
    ids are (24 hexadecimal digits in lower case): after
    [PUT /api/user/:id/role] by a stored admin their stored role is still
    ['admin'], and after [DELETE /api/user/:id] their stored record is the
    same, whichever such id and whatever the body. *)
Theorem sender_stays_admin `{Platform} (st : Store) (r : Request) (a u : User.t) :
  principal st r = Some a -> User.role a = "admin" ->
  stored_user st (User._id a) = Some u -> User.role u = "admin" ->
  canonical_id (params_id r) = true ->
  option_map User.role (stored_user (snd (UserRoutes.role st r)) (User._id a))
  = Some "admin"
  /\ stored_user (snd (UserRoutes.delete st r)) (User._id a) = Some u.
Proof.
  intros P R F RU _.
  assert (Same : option_map User.role (stored_user st (User._id a)) = Some "admin")
    by (rewrite F; simpl; rewrite RU; reflexivity).
  unfold stored_user in F. split.
  - unfold UserRoutes.role. rewrite (behind_admin_guards _ st r a P R).
    unfold UserRoutes.role_handler. cbn [req user].
    destruct (Validator.one_of _ _ _ _) eqn:Val; [|exact Same].
    apply one_of_passed in Val.
    destruct (String.eqb_spec (params_id r) (User._id a)) as [E|E].
    + destruct (UserRoutes.is_string "user" _) eqn:NS; [exact Same|].
      cbn [andb]. rewrite (self_role_is_admin _ Val NS).
      unfold Query.findByIdAndUpdate.
      destruct (Query.findById _ _ _) as [|[d|]] eqn:FB; try exact Same.
      cbn [snd]. unfold stored_user. cbn [users Routes.with_users].
      assert (Id : User._id d = User._id a).
      { rewrite <- E. unfold Query.findById in FB.
        destruct (findOne_sound _ _ _ _ FB) as [_ C]. apply holds_str.
        apply (conds_hold_in Paths.user _ d "_id" _ C). simpl. auto. }
      pose proof (find_save User._id (users st) (User._id a) u
                    (UserRoutes.with_role "admin" d) F Id) as FS.
      unfold has_id in FS. rewrite FS. reflexivity.
    + cbn [andb]. unfold Query.findByIdAndUpdate.
      destruct (Query.findById _ _ _) as [|[d|]] eqn:FB; try exact Same.
      cbn [snd]. unfold stored_user. cbn [users Routes.with_users].
      assert (Id : User._id d = params_id r).
      { unfold Query.findById in FB.
        destruct (findOne_sound _ _ _ _ FB) as [_ C]. apply holds_str.
        apply (conds_hold_in Paths.user _ d "_id" _ C). simpl. auto. }
      pose proof (find_save_other User._id (users st) (params_id r) (User._id a)
                    (UserRoutes.with_role (Validator.input
                       (lookup "role" (body r))) d) Id
                    ltac:(congruence)) as O.
      unfold has_id in O. rewrite O, F. simpl. rewrite RU. reflexivity.
  - unfold UserRoutes.delete. rewrite (behind_admin_guards _ st r a P R).
    unfold UserRoutes.delete_handler. cbn [req user].
    destruct (String.eqb_spec (params_id r) (User._id a)) as [E|E]; [exact F|].
    unfold Query.findByIdAndDelete.
    destruct (Query.findById _ _ _) as [|[d|]] eqn:FB; try exact F.
    cbn [snd]. unfold stored_user. cbn [users Routes.with_users].
    assert (Id : User._id d = params_id r).
    { unfold Query.findById in FB.
      destruct (findOne_sound _ _ _ _ FB) as [_ C]. apply holds_str.
      apply (conds_hold_in Paths.user _ d "_id" _ C). simpl. auto. }
    assert (FD : List.find (has_id User._id (params_id r)) (users st) <> None).
    { intros N.
      pose proof (find_none _ _ N d (findById_in Paths.user _ _ _ FB)) as Fl.
      unfold has_id in Fl. rewrite Id, String.eqb_refl in Fl. discriminate Fl. }
    rewrite Id.
    destruct (List.find (has_id User._id (params_id r)) (users st)) as [x|] eqn:FX;
      [|contradiction].
    pose proof (remove_removed_one User._id _ _ x FX) as (_ & O & _).
    specialize (O (User._id a) ltac:(congruence)). unfold has_id in O.
    rewrite O. exact F.
Qed.

Lemma sender_stays_admin_witness :
  option_map User.role
    (stored_user
       (snd (UserRoutes.role (H := Sample.platform) Sample.store
               (Sample.sending [("role", JS.VStr "user")]
                  (Sample.on Sample.admin_id (Sample.as_admin Sample.blank)))))
       Sample.admin_id)
  = Some "admin"
  /\ stored_user
       (snd (UserRoutes.delete (H := Sample.platform) Sample.store
               (Sample.sending [("role", JS.VStr "user")]
                  (Sample.on Sample.admin_id (Sample.as_admin Sample.blank)))))
       Sample.admin_id
     = Some Sample.the_admin.
Proof.
  exact (sender_stays_admin (H := Sample.platform) Sample.store
           (Sample.sending [("role", JS.VStr "user")]
              (Sample.on Sample.admin_id (Sample.as_admin Sample.blank)))
           (Auth.select_without_password Sample.the_admin) Sample.the_admin
           ltac:(vm_compute; reflexivity) eq_refl
           ltac:(vm_compute; reflexivity) eq_refl
           ltac:(vm_compute; reflexivity)).
Defined.

(** ** What the role and status updates write *)

(** X19: a role update that is not the admin's own demotion, on a stored
    user and with one of the two roles, answers 200 with the updated user
    and writes that role and nothing else; a status update with a JSON
    boolean that is not the admin's own deactivation writes [isActive]
    and nothing else.  Every other id is looked up as before. *)
Theorem user_updates_write_one_field `{Platform} (st : Store) (r : Request)
        (a u : User.t) :
  principal st r = Some a -> User.role a = "admin" ->
  isObjectId (params_id r) = true ->
  stored_user st (params_id r) = Some u ->
  (forall s, lookup "role" (body r) = Some (JS.VStr s) ->
     s = "user" \/ s = "admin" ->
     ~ (params_id r = User._id a /\ s = "user") ->
     data (fst (UserRoutes.role st r))
     = UserDoc (Auth.select_without_password (UserRoutes.with_role s u))
     /\ status (fst (UserRoutes.role st r)) = 200%nat
     /\ stored_user (snd (UserRoutes.role st r)) (params_id r)
        = Some (UserRoutes.with_role s u)
     /\ forall id, id <> params_id r ->
          stored_user (snd (UserRoutes.role st r)) id = stored_user st id)
  /\ (forall b, lookup "isActive" (body r) = Some (JS.VBool b) ->
        ~ (params_id r = User._id a /\ b = false) ->
        data (fst (UserRoutes.status st r))
        = UserDoc (Auth.select_without_password (UserRoutes.with_isActive b u))
        /\ status (fst (UserRoutes.status st r)) = 200%nat
        /\ stored_user (snd (UserRoutes.status st r)) (params_id r)
           = Some (UserRoutes.with_isActive b u)
        /\ forall id, id <> params_id r ->
             stored_user (snd (UserRoutes.status st r)) id = stored_user st id).
Proof.
  intros P R V F. unfold stored_user in F.
  pose proof (find_has_id User._id _ _ _ F) as Id.
  split.
  - intros s B Two NotSelf.
    unfold UserRoutes.role. rewrite (behind_admin_guards _ st r a P R).
    unfold UserRoutes.role_handler. cbn [req user]. rewrite B.
    assert (Val : Validator.one_of "role" "Role must be either user or admin"
                    ["user"; "admin"] (Some (JS.VStr s)) = []).
    { destruct Two as [-> | ->]; reflexivity. }
    rewrite Val.
    assert (G : String.eqb (params_id r) (User._id a)
                && UserRoutes.is_string "user" (Some (JS.VStr s)) = false).
    { destruct (String.eqb_spec (params_id r) (User._id a)) as [E|E];
        [|reflexivity].
      simpl. destruct (String.eqb_spec s "user"); [tauto | reflexivity]. }
    rewrite G. unfold Query.findByIdAndUpdate.
    rewrite (findById_find Paths.user User._id (fun _ => eq_refl) _ _ V).
    unfold has_id. rewrite F. cbn [Validator.input JS.toString].
    cbn [fst snd data status ok]. split; [reflexivity|]. split; [reflexivity|].
    unfold stored_user. cbn [users Routes.with_users]. split.
    + exact (find_save User._id (users st) (params_id r) u
               (UserRoutes.with_role s u) F Id).
    + intros id Ne.
      exact (find_save_other User._id (users st) (params_id r) id
               (UserRoutes.with_role s u) Id Ne).
  - intros b B NotSelf.
    unfold UserRoutes.status. rewrite (behind_admin_guards _ st r a P R).
    unfold UserRoutes.status_handler. cbn [req user]. rewrite B.
    assert (Val : Validator.boolean "isActive" "isActive must be a boolean value"
                    (Some (JS.VBool b)) = []).
    { destruct b; reflexivity. }
    rewrite Val.
    assert (G : String.eqb (params_id r) (User._id a)
                && negb (JS.truthy (Some (JS.VBool b))) = false).
    { destruct (String.eqb_spec (params_id r) (User._id a)) as [E|E];
        [|reflexivity].
      simpl. destruct b; [reflexivity | tauto]. }
    rewrite G. cbn [option_map UserRoutes.castBoolean].
    unfold Query.findByIdAndUpdate.
    rewrite (findById_find Paths.user User._id (fun _ => eq_refl) _ _ V).
    unfold has_id. rewrite F.
    cbn [fst snd data status ok]. split; [reflexivity|]. split; [reflexivity|].
    unfold stored_user. cbn [users Routes.with_users]. split.
    + exact (find_save User._id (users st) (params_id r) u
               (UserRoutes.with_isActive b u) F Id).
    + intros id Ne.
      exact (find_save_other User._id (users st) (params_id r) id
               (UserRoutes.with_isActive b u) Id Ne).
Qed.

Lemma user_updates_write_one_field_witness :
  stored_user
    (snd (UserRoutes.status (H := Sample.platform) Sample.store
            (Sample.sending [("isActive", JS.VBool false)]
               (Sample.on Sample.visitor_id (Sample.as_admin Sample.blank)))))
    Sample.visitor_id
  = Some (UserRoutes.with_isActive false Sample.the_visitor).
Proof.
  exact (proj1 (proj2 (proj2 (proj2
    (user_updates_write_one_field (H := Sample.platform) Sample.store
       (Sample.sending [("isActive", JS.VBool false)]
          (Sample.on Sample.visitor_id (Sample.as_admin Sample.blank)))
       (Auth.select_without_password Sample.the_admin) Sample.the_visitor
       ltac:(vm_compute; reflexivity) eq_refl
       ltac:(vm_compute; reflexivity) ltac:(vm_compute; reflexivity))
    false eq_refl ltac:(intros [E _]; discriminate E))))).
Defined.

(** ** Accounts that were switched off or deleted *)

Lemma principal_token `{Platform} (st : Store) (r : Request) (b : User.t) :
  principal st r = Some b ->
  exists t u,
    Auth.token_of r = Some t
    /\ JS.truthy_string (Some t) = true
    /\ verifyToken t = Decoded (Some (User._id b))
    /\ isObjectId (User._id b) = true
    /\ stored_user st (User._id b) = Some u
    /\ b = Auth.select_without_password u.
Proof.
  unfold principal, Auth.protect. cbn [req].
  destruct (Auth.token_of r) as [t|] eqn:T; [|cbn; discriminate].
  destruct (JS.truthy_string (Some t)) eqn:Tr; cbn [negb]; [|discriminate].
  destruct (verifyToken t) as [id| |] eqn:V; try discriminate.
  destruct id as [s|]; [|cbn; discriminate].
  unfold Auth.findUserById.
  destruct (isObjectId s) eqn:O.
  2: { rewrite (findById_threw Paths.user _ s O). discriminate. }
  rewrite (findById_find Paths.user User._id (fun _ => eq_refl) _ _ O).
  destruct (List.find (has_id User._id s) (users st)) as [u|] eqn:F;
    cbn [option_map]; [|discriminate].
  cbn [Auth.select_without_password User.isActive].
  destruct (User.isActive u); cbn [negb]; [|discriminate].
  cbn [user]. intros E. inversion E; subst b.
  cbn [Auth.select_without_password User._id].
  pose proof (find_has_id User._id _ _ _ F) as Id. rewrite Id.
  exists t, u. unfold stored_user. rewrite <- Id at 1. rewrite Id.
  repeat split; auto.
Qed.

Lemma protect_by_token `{Platform} (st : Store) (r : Request) (t id : string) :
  Auth.token_of r = Some t -> JS.truthy_string (Some t) = true ->
  verifyToken t = Decoded (Some id) -> isObjectId id = true ->
  Auth.protect st (mkContext r None)
  = match stored_user st id with
    | None => Done (fail 401 "Token is invalid. User not found.")
    | Some u =>
        if User.isActive u
        then Next (mkContext r (Some (Auth.select_without_password u)))
        else Done (fail 401 "Account is deactivated. Please contact administrator.")
    end.
Proof.
  intros T Tr V O. unfold Auth.protect. cbn [req]. rewrite T, Tr. cbn [negb].
  rewrite V. unfold Auth.findUserById.
  rewrite (findById_find Paths.user User._id (fun _ => eq_refl) _ _ O).
  unfold stored_user, has_id.
  destruct (List.find (fun u => String.eqb (User._id u) id) (users st)) as [u|];
    cbn [option_map]; [|reflexivity].
  cbn [Auth.select_without_password User.isActive].
  destruct (User.isActive u); reflexivity.
Qed.

(** X20: a user who could authenticate is refused with 401 on every
    protected route once an admin has deactivated the account, and (when
    ids are unique) once an admin has deleted it, although the token
    itself still verifies. *)
Theorem removed_access_is_refused `{Platform} (st : Store) (r r' : Request)
        (a b : User.t) :
  principal st r = Some a -> User.role a = "admin" ->
  principal st r' = Some b -> User._id b = params_id r ->
  params_id r <> User._id a ->
  (lookup "isActive" (body r) = Some (JS.VBool false) ->
   Auth.protect (snd (UserRoutes.status st r)) (mkContext r' None)
   = Done (fail 401 "Account is deactivated. Please contact administrator."))
  /\ (NoDup (map User._id (users st)) ->
      Auth.protect (snd (UserRoutes.delete st r)) (mkContext r' None)
      = Done (fail 401 "Token is invalid. User not found.")).
Proof.
  intros P R P' Same Ne.
  destruct (principal_token st r' b P') as (t & u & T & Tr & V & O & F & _).
  rewrite Same in V, O, F. unfold stored_user in F.
  pose proof (find_has_id User._id _ _ _ F) as Id.
  split.
  - intros B.
    rewrite (protect_by_token _ r' t (params_id r) T Tr V O).
    unfold UserRoutes.status. rewrite (behind_admin_guards _ st r a P R).
    unfold UserRoutes.status_handler. cbn [req user]. rewrite B.
    change (Validator.boolean "isActive" "isActive must be a boolean value"
              (Some (JS.VBool false))) with (@nil FieldError).
    destruct (String.eqb_spec (params_id r) (User._id a)) as [E|_];
      [contradiction|].
    cbn [andb option_map UserRoutes.castBoolean].
    unfold Query.findByIdAndUpdate.
    rewrite (findById_find Paths.user User._id (fun _ => eq_refl) _ _ O).
    unfold has_id. rewrite F. cbn [fst snd].
    unfold stored_user. cbn [users Routes.with_users].
    pose proof (find_save User._id (users st) (params_id r) u
                  (UserRoutes.with_isActive false u) F Id) as FS.
    unfold has_id in FS. rewrite FS. reflexivity.
  - intros ND.
    rewrite (protect_by_token _ r' t (params_id r) T Tr V O).
    unfold UserRoutes.delete. rewrite (behind_admin_guards _ st r a P R).
    unfold UserRoutes.delete_handler. cbn [req user].
    destruct (String.eqb_spec (params_id r) (User._id a)) as [E|_];
      [contradiction|].
    rewrite (findByIdAndDelete_found Paths.user User._id (fun _ => eq_refl)
               _ _ u O F).
    cbn [fst snd]. unfold stored_user. cbn [users Routes.with_users].
    pose proof (remove_removed_one User._id _ _ u F) as (_ & _ & G).
    unfold has_id in G. rewrite (G ND). reflexivity.
Qed.

Lemma removed_access_is_refused_witness :
  Auth.protect (H := Sample.platform)
    (snd (UserRoutes.status (H := Sample.platform) Sample.store
            (Sample.sending [("isActive", JS.VBool false)]
               (Sample.on Sample.visitor_id (Sample.as_admin Sample.blank)))))
    (mkContext (Sample.as_visitor Sample.blank) None)
  = Done (fail 401 "Account is deactivated. Please contact administrator.")
  /\ Auth.protect (H := Sample.platform)
       (snd (UserRoutes.delete (H := Sample.platform) Sample.store
               (Sample.sending [("isActive", JS.VBool false)]
                  (Sample.on Sample.visitor_id (Sample.as_admin Sample.blank)))))
       (mkContext (Sample.as_visitor Sample.blank) None)
     = Done (fail 401 "Token is invalid. User not found.").
Proof.
  pose proof (removed_access_is_refused (H := Sample.platform) Sample.store
                (Sample.sending [("isActive", JS.VBool false)]
                   (Sample.on Sample.visitor_id (Sample.as_admin Sample.blank)))
                (Sample.as_visitor Sample.blank)
                (Auth.select_without_password Sample.the_admin)
                (Auth.select_without_password Sample.the_visitor)
                ltac:(vm_compute; reflexivity) eq_refl
                ltac:(vm_compute; reflexivity) eq_refl
                ltac:(discriminate)) as [D G].
  split.
  - exact (D eq_refl).
  - apply G. vm_compute.
    repeat constructor; simpl; intros C;
      repeat (destruct C as [C|C]; try discriminate C); exact C.
Defined.
